(** * ISRHandler: render-and-cache orchestration

    A shallow embedding of [server/src/puppeteer-ssr/utils/ISRHandler.ts]
    and of the constants it reads from [puppeteer-ssr/constants.js],
    followed by the properties of the orchestration that the
    specification states.

    Layout:
    - [JsString]    strings as sequences of UTF-16 code units;
    - [Pattern]     the fragment of regular expressions the two
                    patterns of the source need, with a matcher by
                    derivatives;
    - [Constants]   the values of [constants.js];
    - [Runtime]     completions, the history of calls to collaborators,
                    and the monad the asynchronous code runs in;
    - [Handler]     [getRestOfDuration], [fetchData], [waitResponse]
                    and [ISRHandler];
    - [Observing]   what is read off a history, and the words of the
                    specification that are compared with the code;
    - [Scenarios]   concrete processes and collaborators;
    - the properties: the matcher against the words a pattern denotes,
      the blocks of the handler case by case, and the statements of the
      specification. *)

From Stdlib Require Import Ascii String NArith ZArith Lia.
From stdpp Require Import base decidable option list numbers strings gmap.

Local Open Scope Z_scope.

(* ===================================================================== *)
(** ** Strings *)
(* ===================================================================== *)

Module JsString.

(** A JavaScript string is a sequence of 16-bit code units. *)
Abbreviation jsstring := (list N).

(** The code units of an ASCII literal of the source. *)
Definition js (s : string) : jsstring :=
  (fun a => N_of_ascii a) <$> String.list_ascii_of_string s.

(** Truthiness of a string: every string but the empty one. *)
Definition truthy_string (s : jsstring) : bool :=
  match s with [] => false | _ :: _ => true end.

(** [s.split(sep)[0]] for a one-unit separator: the part of [s] before
    the first [sep], all of [s] when there is none. *)
Fixpoint split_head (sep : N) (s : jsstring) : jsstring :=
  match s with
  | [] => []
  | c :: t => if N.eqb c sep then [] else c :: split_head sep t
  end.

Definition LF : N := 10.
Definition CR : N := 13.
Definition LS : N := 8232.   (* U+2028 LINE SEPARATOR *)
Definition PS : N := 8233.   (* U+2029 PARAGRAPH SEPARATOR *)

(** The LineTerminator code units of ECMAScript. *)
Definition line_terminator (c : N) : bool :=
  N.eqb c LF || N.eqb c CR || N.eqb c LS || N.eqb c PS.

End JsString.
Export JsString.

(* ===================================================================== *)
(** ** Patterns *)
(* ===================================================================== *)

Module Pattern.

(** The pattern syntax used by the JSON-shape pattern of [fetchData]
    and by [regexNotFoundPageID]: literal code units, [.], bracketed
    classes, sequence, alternation, [*] and [?].
    [test] only asks whether a match exists, so the lazy [*?] and the
    greedy [*] are the same node. *)
Inductive regex : Type :=
| Void
| Eps
| Chr (c : N)
| Dot
| Class (cs : list N)
| Cat (r1 r2 : regex)
| Alt (r1 r2 : regex)
| Star (r : regex)
| Opt (r : regex).

(** A RegExp object without flags: the body and whether it is
    anchored by [^] on the left and by [$] on the right. *)
Record RegExp : Type := mkRegExp {
  anchored_start : bool;
  body : regex;
  anchored_end : bool
}.

Definition in_class (c : N) (cs : list N) : bool := existsb (N.eqb c) cs.

(** The words a pattern matches. *)
Inductive Matches : regex -> jsstring -> Prop :=
| M_Eps : Matches Eps []
| M_Chr c : Matches (Chr c) [c]
| M_Dot c : line_terminator c = false -> Matches Dot [c]
| M_Class c cs : in_class c cs = true -> Matches (Class cs) [c]
| M_Cat r1 r2 s1 s2 :
    Matches r1 s1 -> Matches r2 s2 -> Matches (Cat r1 r2) (s1 ++ s2)
| M_AltL r1 r2 s : Matches r1 s -> Matches (Alt r1 r2) s
| M_AltR r1 r2 s : Matches r2 s -> Matches (Alt r1 r2) s
| M_StarNil r : Matches (Star r) []
| M_StarApp r s1 s2 :
    Matches r s1 -> Matches (Star r) s2 -> Matches (Star r) (s1 ++ s2)
| M_OptNone r : Matches (Opt r) []
| M_OptSome r s : Matches r s -> Matches (Opt r) s.

(** Does the pattern match the empty word? *)
Fixpoint nullable (r : regex) : bool :=
  match r with
  | Void => false
  | Eps => true
  | Chr _ => false
  | Dot => false
  | Class _ => false
  | Cat r1 r2 => nullable r1 && nullable r2
  | Alt r1 r2 => nullable r1 || nullable r2
  | Star _ => true
  | Opt _ => true
  end.

(** The derivative of a pattern by one code unit. *)
Fixpoint der (c : N) (r : regex) : regex :=
  match r with
  | Void => Void
  | Eps => Void
  | Chr d => if N.eqb c d then Eps else Void
  | Dot => if line_terminator c then Void else Eps
  | Class cs => if in_class c cs then Eps else Void
  | Cat r1 r2 =>
      if nullable r1 then Alt (Cat (der c r1) r2) (der c r2)
      else Cat (der c r1) r2
  | Alt r1 r2 => Alt (der c r1) (der c r2)
  | Star r1 => Cat (der c r1) (Star r1)
  | Opt r1 => der c r1
  end.

(** [match_here r s to_end]: [r] matches a prefix of [s], the whole of
    [s] when [to_end]. *)
Fixpoint match_here (r : regex) (s : jsstring) (to_end : bool) : bool :=
  match s with
  | [] => nullable r
  | c :: t =>
      (nullable r && negb to_end) || match_here (der c r) t to_end
  end.

(** [match_from r s to_end]: [r] matches at some position of [s]. *)
Fixpoint match_from (r : regex) (s : jsstring) (to_end : bool) : bool :=
  match_here r s to_end ||
  match s with
  | [] => false
  | _ :: t => match_from r t to_end
  end.

(** [re.test(s)]. *)
Definition test (re : RegExp) (s : jsstring) : bool :=
  if anchored_start re
  then match_here (body re) s (anchored_end re)
  else match_from (body re) s (anchored_end re).

(** The pattern that matches exactly the word [s]. *)
Fixpoint lit (s : jsstring) : regex :=
  match s with
  | [] => Eps
  | c :: t => Cat (Chr c) (lit t)
  end.

(** Code units that have a meaning of their own in a pattern source. *)
Definition syntax_character (c : N) : bool :=
  in_class c (js "\^$.*+?()[]{}|/").

(** An identifier spliced into a pattern source stands for itself when
    none of its code units is a syntax character. *)
Definition plain_source (s : jsstring) : bool :=
  forallb (fun c => negb (syntax_character c)) s.

End Pattern.
Export Pattern.

(* ===================================================================== *)
(** ** Constants *)
(* ===================================================================== *)

Module Constants.

(** What [constants.js] reads from the process: whether the server
    runs serverless, and the variables of [PROCESS_ENV] (a variable
    that is unset or empty is [None]; [DURATION_TIMEOUT] and
    [MAX_WORKERS] are given by their [Number(...)] value).
    [BANDWIDTH_LEVEL] is exported by a module outside this
    development and is taken as given. *)
Record ProcessEnv : Type := mkProcessEnv {
  SERVER_LESS : bool;
  ENV_DURATION_TIMEOUT : option Z;
  ENV_MAX_WORKERS : option Z;
  ENV_NOT_FOUND_PAGE_ID : option jsstring;
  BANDWIDTH_LEVEL : Z
}.

Section WithProcessEnv.
Variable pe : ProcessEnv.

Definition MAX_WORKERS : Z :=
  match ENV_MAX_WORKERS pe with Some n => n | None => 7 end.

Definition DURATION_TIMEOUT : Z :=
  if SERVER_LESS pe then 5000
  else match ENV_DURATION_TIMEOUT pe with
       | Some n => n
       | None => 20000
       end.

Definition NOT_FOUND_PAGE_ID : jsstring :=
  match ENV_NOT_FOUND_PAGE_ID pe with
  | Some s => if truthy_string s then s else js "404-page"
  | None => js "404-page"
  end.

(** The bracketed class of the double and the single quote. *)
Definition quote_class : regex := Class [34%N; 39%N].

(** The RegExp built from the source [id=Q?${NOT_FOUND_PAGE_ID}Q?],
    where [Q] is the class of the two quotes. The identifier is spliced
    into the pattern source; it is embedded as the literal word, which
    is what the source denotes for every identifier that is a
    [plain_source]. *)
Definition regexNotFoundPageID : RegExp :=
  mkRegExp false
    (Cat (lit (js "id="))
      (Cat (Opt quote_class)
        (Cat (lit NOT_FOUND_PAGE_ID) (Opt quote_class))))
    false.

End WithProcessEnv.

(** [{ 200: true, 302: true }]. *)
Definition CACHEABLE_STATUS_CODE : gmap Z bool :=
  <[200 := true]> (<[302 := true]> ∅).

(** [CACHEABLE_STATUS_CODE[status]] in a condition: a missing key is
    [undefined], which is falsy. *)
Definition cacheable (status : Z) : bool :=
  match CACHEABLE_STATUS_CODE !! status with
  | Some b => b
  | None => false
  end.

(** [/^{(.|[\r\n])*?}$/], the shape [fetchData] decodes as JSON. *)
Definition regexJsonShape : RegExp :=
  mkRegExp true
    (Cat (Chr 123%N)
      (Cat (Star (Alt Dot (Class [CR; LF]))) (Chr 125%N)))
    true.

End Constants.
Export Constants.

(* ===================================================================== *)
(** ** Runtime: values, completions and the history of calls *)
(* ===================================================================== *)

Module Runtime.

#[local] Unset Elimination Schemes.
(** A decoded JSON document. Numbers are kept as their source text. *)
Inductive Json : Type :=
| JNull
| JBool (b : bool)
| JNumber (text : jsstring)
| JString (s : jsstring)
| JArray (items : list Json)
| JObject (members : list (jsstring * Json)).
#[local] Set Elimination Schemes.

(** What the variables [data] and [html] hold: text, or the document
    [JSON.parse] produced. *)
Inductive JsValue : Type :=
| VText (s : jsstring)
| VJson (j : Json).

(** A thrown value: an Error with its [name] and [message]. *)
Record JsError : Type := mkError {
  err_name : jsstring;
  err_message : jsstring
}.

(** [ISSRResult], as far as the handler builds and passes it on:
    [{ status }] or [{ status, html }]. *)
Record ISSRResult : Type := mkResult {
  status : Z;
  html : option JsValue
}.

(** The object [fetchData] resolves to. *)
Record FetchResult : Type := mkFetchResult {
  fr_status : Z;
  fr_data : JsValue
}.

(** A value of a query parameter before [URLSearchParams] turns it
    into text. *)
Inductive QueryValue : Type :=
| QNumber (n : Z)
| QBool (b : bool)
| QString (s : jsstring).

Record RequestInit : Type := mkRequestInit {
  method : jsstring;
  headers : list (jsstring * jsstring)
}.

(** Calls on a page handle. *)
Inductive PageCall : Type :=
| WaitForNetworkIdle (idleTime : Z)
| SetRequestInterception (on : bool)
| OnRequest
| SetExtraHTTPHeaders (hs : list (jsstring * jsstring))
| Goto (url : jsstring)
| Content
| Close.

(** One entry of the history: a call the code makes to something
    outside itself. Logging through [Console] leaves no entry. *)
Inductive Event : Type :=
| DateNow
| CacheAchieve (url : jsstring)
| CacheSet (html : JsValue) (url : jsstring) (isRaw : bool)
| CacheRemove (url : jsstring)
| Fetch (input : jsstring) (query : option (list (jsstring * QueryValue)))
        (init : RequestInit)
| ResponseText
| JsonParse (text : jsstring)
| NewPage
| OnPage (c : PageCall)
| Delay (ms : Z)
| AwaitQuietNetwork (initial : Z)
| PoolCreate (minWorkers maxWorkers : Z)
| PoolExec (html : JsValue) (deep : bool)
| PoolTerminate.

Abbreviation history := (list Event).

(** How a promise ends: fulfilled, rejected, or never settled. *)
Inductive outcome (A : Type) : Type :=
| Fulfilled (a : A)
| Rejected (e : JsError)
| Unsettled.
Arguments Fulfilled {A} a.
Arguments Rejected {A} e.
Arguments Unsettled {A}.

(** How a statement of a function returning [R] completes (the
    completion records of ECMAScript): normally with a value, by
    [return], by [throw]; [Stuck] is an [await] that never resumes. *)
Inductive completion (R A : Type) : Type :=
| Normal (a : A)
| Return (r : R)
| Throw (e : JsError)
| Stuck.
Arguments Normal {R A} a.
Arguments Return {R A} r.
Arguments Throw {R A} e.
Arguments Stuck {R A}.

(** The collaborators. Each answer may depend on everything that
    happened before it; the history given to an answer ends with the
    call being answered, so it also carries the arguments of the call.
    - [Date_now]: the clock.
    - [cache_achieve], [cache_set]: what [achieve] and [set] of
      CacheManager resolve to; [remove] answers nothing. The module
      of CacheManager is not embedded; its promises are taken to
      fulfil, as its contract has it.
    - [fetch_status]: the status of the response to [fetch], or the
      rejection; [response_text]: [res.text()].
    - [shape_test_throws]: whether the regular-expression engine runs
      out of stack when it tests the pattern of line 60 on this text,
      as it does on bodies of several megabytes that open with a
      brace; [test] then throws a RangeError.
    - [JSON_parse]: the document, [None] for a SyntaxError.
    - [newPage]: what [browserManager.newPage()] settles to, [true]
      when a page is handed out. A rejection also stands for the
      TypeError of the development environment, where
      [browserManager] is undefined.
    - [page_rejects]: whether a call on the page rejects;
      [goto_response]: the status of the response [page.goto] resolves
      to, [None] when it resolves to null; [page_content].
    - [optimizeContent]: the job of the worker pool. *)
Record World : Type := mkWorld {
  Date_now : history -> Z;
  cache_achieve : history -> option ISSRResult;
  cache_set : history -> ISSRResult;
  fetch_status : history -> outcome Z;
  response_text : history -> outcome jsstring;
  shape_test_throws : jsstring -> bool;
  JSON_parse : jsstring -> option Json;
  newPage : history -> outcome bool;
  page_rejects : history -> option JsError;
  goto_response : history -> option Z;
  page_content : history -> jsstring;
  optimizeContent : history -> outcome jsstring
}.

(** [server.config]: the crawl endpoint and its secret key, when set. *)
Record ServerConfig : Type := mkServerConfig {
  crawler : option jsstring;
  crawlerSecretKey : option jsstring
}.

(** Truthiness of an optional string. *)
Definition truthy (o : option jsstring) : bool :=
  match o with Some s => truthy_string s | None => false end.

(** Statements of a function returning [R], producing an [A]. *)
Definition M (R A : Type) : Type := history -> completion R A * history.

(** An asynchronous call: from the history to how its promise ends. *)
Definition async (A : Type) : Type := history -> outcome A * history.

Definition ret {R A} (a : A) : M R A := fun h => (Normal a, h).

Definition bind {R A B} (m : M R A) (k : A -> M R B) : M R B :=
  fun h =>
    match m h with
    | (Normal a, h') => k a h'
    | (Return r, h') => (Return r, h')
    | (Throw e, h') => (Throw e, h')
    | (Stuck, h') => (Stuck, h')
    end.

(** [return r]. *)
Definition return_ {R A} (r : R) : M R A := fun h => (Return r, h).

(** [throw e]. *)
Definition throw {R A} (e : JsError) : M R A := fun h => (Throw e, h).

(** A call that leaves an entry and cannot fail. *)
Definition emit {R} (ev : Event) : M R history :=
  fun h => (Normal (h ++ [ev]), h ++ [ev]).

(** [try { body } catch (err) { handler }]. *)
Definition try_catch {R A} (body : M R A) (handler : JsError -> M R A)
  : M R A :=
  fun h =>
    match body h with
    | (Throw e, h') => handler e h'
    | other => other
    end.

(** [try { body } finally { fin }]: [fin] runs however [body]
    completes, and an abrupt completion of [fin] replaces that of
    [body]. A body that is stuck never reaches [fin]. *)
Definition try_finally {R A} (body : M R A) (fin : M R unit) : M R A :=
  fun h =>
    match body h with
    | (Stuck, h') => (Stuck, h')
    | (c, h') =>
        match fin h' with
        | (Normal _, h'') => (c, h'')
        | (Return r, h'') => (Return r, h'')
        | (Throw e, h'') => (Throw e, h'')
        | (Stuck, h'') => (Stuck, h'')
        end
    end.

(** The promise of an [async] function with the given body; falling
    off the end with a value stands for returning it. *)
Definition async_fn {R} (body : M R R) : async R :=
  fun h =>
    match body h with
    | (Normal r, h') => (Fulfilled r, h')
    | (Return r, h') => (Fulfilled r, h')
    | (Throw e, h') => (Rejected e, h')
    | (Stuck, h') => (Unsettled, h')
    end.

(** [await p]. *)
Definition await {R A} (p : async A) : M R A :=
  fun h =>
    match p h with
    | (Fulfilled a, h') => (Normal a, h')
    | (Rejected e, h') => (Throw e, h')
    | (Unsettled, h') => (Stuck, h')
    end.

End Runtime.
Export Runtime.

Declare Scope js_scope.
Delimit Scope js_scope with js.
Notation "x <- m ;; k" := (bind m (fun x => k))
  (at level 100, m at next level, right associativity) : js_scope.
Notation "m ;;; k" := (bind m (fun _ => k))
  (at level 100, right associativity) : js_scope.

(* ===================================================================== *)
(** ** The handler *)
(* ===================================================================== *)

Module Handler.

Local Open Scope js_scope.

Record IISRHandlerParam : Type := mkParam {
  startGenerating : Z;
  isFirstRequest : bool;
  url : jsstring
}.

Definition gapDurationDefault : Z := 1500.

(** Strict equality of two strings. *)
Definition string_eqb (a b : jsstring) : bool := bool_decide (a = b).

(** *** The capture groups of [regexQueryStringSpecialInfo] *)

(** [strip_prefix p s]: what follows [p] in [s], when [s] starts with
    [p]. *)
Fixpoint strip_prefix (p s : jsstring) : option jsstring :=
  match p, s with
  | [], _ => Some s
  | _ :: _, [] => None
  | a :: p', b :: s' => if N.eqb a b then strip_prefix p' s' else None
  end.

(** The longest run without an ampersand at the head of [s], and the
    rest: a group [[^&]*]. *)
Fixpoint group_no_amp (s : jsstring) : jsstring * jsstring :=
  match s with
  | [] => ([], [])
  | c :: t =>
      if N.eqb c 38 then ([], s)
      else let '(g, r) := group_no_amp t in (c :: g, r)
  end.

(** A match of the pattern at the head of [s]: the four groups. *)
Definition special_info_here (s : jsstring)
  : option (list (jsstring * jsstring)) :=
  match strip_prefix (js "botInfo=") s with
  | None => None
  | Some s1 =>
    let '(botInfo, r1) := group_no_amp s1 in
    match strip_prefix (js "&deviceInfo=") r1 with
    | None => None
    | Some s2 =>
      let '(deviceInfo, r2) := group_no_amp s2 in
      match strip_prefix (js "&localeInfo=") r2 with
      | None => None
      | Some s3 =>
        let '(localeInfo, r3) := group_no_amp s3 in
        match strip_prefix (js "&environmentInfo=") r3 with
        | None => None
        | Some s4 =>
          let '(environmentInfo, _) := group_no_amp s4 in
          Some [ (js "botInfo", botInfo);
                 (js "deviceInfo", deviceInfo);
                 (js "localeInfo", localeInfo);
                 (js "environmentInfo", environmentInfo) ]
        end
      end
    end
  end.

(** [regexQueryStringSpecialInfo.exec(url)?.groups ?? {}]: the groups
    of the leftmost match, no entry when there is no match. *)
Fixpoint specialInfo (s : jsstring) : list (jsstring * jsstring) :=
  match special_info_here s with
  | Some groups => groups
  | None =>
      match s with
      | [] => []
      | _ :: t => specialInfo t
      end
  end.

Section WithWorld.
Variable pe : ProcessEnv.
Variable cfg : ServerConfig.
Variable W : World.

(** *** Calls to the collaborators *)

(** [Date.now()]. *)
Definition now {R} : M R Z :=
  h <- emit DateNow ;; ret (Date_now W h).

(** [cacheManager.achieve(url)], awaited. *)
Definition cacheManager_achieve {R} (url : jsstring)
  : M R (option ISSRResult) :=
  h <- emit (CacheAchieve url) ;; ret (cache_achieve W h).

(** [cacheManager.set({ html, url, isRaw })], awaited. *)
Definition cacheManager_set {R} (html : JsValue) (url : jsstring)
    (isRaw : bool) : M R ISSRResult :=
  h <- emit (CacheSet html url isRaw) ;; ret (cache_set W h).

(** [cacheManager.remove(url)], awaited. *)
Definition cacheManager_remove {R} (url : jsstring) : M R unit :=
  emit (CacheRemove url) ;;; ret tt.

(** [fetch(input + '?' + params, init)]: the promise of the status
    of the response. *)
Definition fetch (input : jsstring)
    (query : option (list (jsstring * QueryValue))) (init : RequestInit)
  : async Z :=
  fun h =>
    let h' := h ++ [Fetch input query init] in (fetch_status W h', h').

(** [res.text()]. *)
Definition res_text : async jsstring :=
  fun h => let h' := h ++ [ResponseText] in (response_text W h', h').

Definition SyntaxError : JsError :=
  mkError (js "SyntaxError") (js "Unexpected token in JSON").

(** [JSON.parse(text)]. *)
Definition JSON_parse_call {R} (text : jsstring) : M R JsValue :=
  emit (JsonParse text) ;;;
  match JSON_parse W text with
  | Some j => ret (VJson j)
  | None => throw SyntaxError
  end.

Definition RangeError : JsError :=
  mkError (js "RangeError") (js "Maximum call stack size exceeded").

(** [/^{(.|[\r\n])*?}$/.test(text)]: the answer of the pattern, or the
    RangeError of an engine that runs out of stack. *)
Definition shape_test {R} (text : jsstring) : M R bool :=
  if shape_test_throws W text then throw RangeError
  else ret (test regexJsonShape text).

(** [await browserManager.newPage()]: whether there is a page. *)
Definition browserManager_newPage : async bool :=
  fun h => let h' := h ++ [NewPage] in (newPage W h', h').

(** An awaited call on the page: the history it leaves, or the
    rejection. *)
Definition on_page {R} (c : PageCall) : M R history :=
  h <- emit (OnPage c) ;;
  match page_rejects W h with
  | Some e => throw e
  | None => ret h
  end.

(** [optimizeHTMLContentPool.exec('optimizeContent', [html, deep])]. *)
Definition pool_exec (html : JsValue) (deep : bool) : async jsstring :=
  fun h =>
    let h' := h ++ [PoolExec html deep] in (optimizeContent W h', h').

(** *** [getRestOfDuration] (lines 33-37) *)

(** [gapDuration] is [None] when the argument is left out. The test
    [!startGenerating] holds of the number 0. *)
Definition getRestOfDuration {R} (startGenerating : Z)
    (gapDuration : option Z) : M R Z :=
  let gapDuration := default 0 gapDuration in
  if startGenerating =? 0 then ret 0
  else
    t <- now ;;
    ret (DURATION_TIMEOUT pe - gapDuration - (t - startGenerating)).

(** *** [fetchData] (lines 39-75) *)

(** The query is handed to [fetch] as the list of the entries
    appended to the URLSearchParams, in the order of the keys. The
    test of line 60 may throw, which the handler of line 68 catches
    like any other error. *)
Definition fetchData (input : jsstring) (init : RequestInit)
    (reqData : option (list (jsstring * QueryValue)))
  : async FetchResult :=
  async_fn
    (try_catch
       (response_status <- await (fetch input reqData init) ;;
        response_data <- await res_text ;;
        shaped <- shape_test response_data ;;
        data <- (if shaped
                 then JSON_parse_call response_data
                 else ret (VText response_data)) ;;
        ret (mkFetchResult response_status data))
       (fun error => ret (mkFetchResult 500 (VText [])))).

(** *** [waitResponse] (lines 77-132) *)

(** The promise settles with the response of [page.goto], or rejects
    with its error. The executor awaits [page.content()] without a
    handler: when that rejects, the promise never settles. The wait
    for a quiet network (a timer restarted by the events of the
    page, with a ceiling of 10 s) is one entry of the history. The
    parameter [duration] is not read. *)
Definition waitResponse (url : jsstring) (duration : Z)
  : async (option Z) :=
  async_fn
    (h <- on_page (Goto (split_head 63 url)) ;;
     let result := goto_response W h in
     emit (Delay (if BANDWIDTH_LEVEL pe >? 1 then 250 else 500)) ;;;
     hc <- emit (OnPage Content) ;;
     match page_rejects W hc with
     | Some _ => fun h' => (Stuck, h')
     | None =>
         if test (regexNotFoundPageID pe) (page_content W hc)
         then ret result
         else
           emit (AwaitQuietNetwork
                   (if BANDWIDTH_LEVEL pe >? 1 then 200 else 500)) ;;;
           ret result
     end).

(** *** [ISRHandler] (lines 136-315) *)

Abbreviation Body := (M (option ISSRResult)).

(** Lines 137-153: the guard at entry, and the budget read again
    after the cache manager is made. Passes on [startGenerating] and
    [restOfDuration]. *)
Definition budgetBlock (isFirstRequest : bool) (url : jsstring)
  : Body (Z * Z) :=
  startGenerating <- now ;;
  rest <- getRestOfDuration startGenerating (Some gapDurationDefault) ;;
  if rest <=? 0 then return_ None
  else
    restOfDuration <-
      getRestOfDuration startGenerating (Some gapDurationDefault) ;;
    if restOfDuration <=? 0 then
      if negb isFirstRequest then
        tmpResult <- cacheManager_achieve url ;;
        return_ tmpResult
      else return_ None
    else ret (startGenerating, restOfDuration).

Definition crawlInit : RequestInit :=
  mkRequestInit (js "GET")
    [(js "Accept", js "text/html; charset=utf-8")].

Definition requestParams (startGenerating : Z) (url : jsstring)
  : list (jsstring * QueryValue) :=
  [ (js "startGenerating", QNumber startGenerating);
    (js "isFirstRequest", QBool true);
    (js "url", QString url) ]
  ++ (if truthy (crawlerSecretKey cfg)
      then [(js "crawlerSecretKey",
             QString (default [] (crawlerSecretKey cfg)))]
      else []).

(** Lines 158-189: the external crawl. [fetchData] resolves to an
    object, so the test [if (result)] always holds. Passes on
    [status] and [html]. *)
Definition crawlBlock (url : jsstring) (startGenerating : Z)
    (status : Z) (html : JsValue) : Body (Z * JsValue) :=
  if truthy (crawler cfg) then
    try_catch
      (result <- await (fetchData (default [] (crawler cfg)) crawlInit
                          (Some (requestParams startGenerating url))) ;;
       ret (fr_status result, fr_data result))
      (fun err => ret (status, html))
  else ret (status, html).

(** Lines 230-251: the promise whose executor awaits [waitResponse].
    Passes on [isGetHtmlProcessError] and [status]. On an error that
    is not a TimeoutError the executor resolves the promise and then
    calls [page.close()], which the handler does not wait for; in the
    other cases the [finally] clause takes the status of the
    response, when there is one. *)
Definition navigate (url : jsstring) (restOfDuration : Z) (status : Z)
  : Body (bool * Z) :=
  try_catch
    (response <- await (waitResponse url restOfDuration) ;;
     ret (false, default status response))
    (fun err =>
       if negb (string_eqb (err_name err) (js "TimeoutError")) then
         emit (OnPage Close) ;;; ret (true, status)
       else ret (false, status)).

(** Lines 191-275: the render in the browser. Passes on [status] and
    [html]. *)
Definition renderBlock (isFirstRequest : bool) (url : jsstring)
    (restOfDuration : Z) (status : Z) (html : JsValue)
  : Body (Z * JsValue) :=
  if negb (truthy (crawler cfg)) || (status =? 500) then
    page <- await browserManager_newPage ;;
    if negb page then
      if negb isFirstRequest then
        tmpResult <- cacheManager_achieve url ;;
        return_ tmpResult
      else return_ None
    else
      nav <-
        try_catch
          (on_page (WaitForNetworkIdle 150) ;;;
           on_page (SetRequestInterception true) ;;;
           emit (OnPage OnRequest) ;;;
           on_page (SetExtraHTTPHeaders
                      (specialInfo url
                         ++ [(js "service", js "puppeteer")])) ;;;
           navigate url restOfDuration status)
          (fun err =>
             on_page Close ;;; return_ (Some (mkResult 500 None))) ;;
      if fst nav then return_ (Some (mkResult 500 None))
      else
        content <-
          try_catch
            (hc <- on_page Content ;;
             on_page Close ;;;
             ret (page_content W hc))
            (fun err => return_ None) ;;
        ret (if truthy_string content
                && test (regexNotFoundPageID pe) content
             then 404 else 200,
             VText content)
  else ret (status, html).

(** Lines 280-314: the budget read once more, then optimise and
    write, or remove. *)
Definition storeBlock (url : jsstring) (startGenerating : Z)
    (status : Z) (html : JsValue) : Body (option ISSRResult) :=
  restOfDuration <- getRestOfDuration startGenerating None ;;
  if cacheable status then
    emit (PoolCreate 2 (MAX_WORKERS pe)) ;;;
    optimized <-
      try_finally
        (try_catch (await (pool_exec html true))
                   (fun err => return_ None))
        (emit PoolTerminate ;;; ret tt) ;;
    result <- cacheManager_set (VText optimized) url true ;;
    ret (Some result)
  else
    cacheManager_remove url ;;;
    return_ (Some (mkResult status
                     (Some (if status =? 404
                            then VText (js "Page not found!")
                            else html)))).

(** Lines 155-275: acquiring [status] and [html], first by the
    external crawl, then in the browser. *)
Definition acquire (isFirstRequest : bool) (url : jsstring)
    (startGenerating restOfDuration : Z) : Body (Z * JsValue) :=
  crawled <- crawlBlock url startGenerating 200 (VText []) ;;
  renderBlock isFirstRequest url restOfDuration
    (fst crawled) (snd crawled).

(** The parameter is destructured to [isFirstRequest] and [url]. *)
Definition ISRHandler (param : IISRHandlerParam)
  : async (option ISSRResult) :=
  let isFirstRequest := isFirstRequest param in
  let url := url param in
  async_fn
    (budget <- budgetBlock isFirstRequest url ;;
     acquired <- acquire isFirstRequest url (fst budget) (snd budget) ;;
     storeBlock url (fst budget) (fst acquired) (snd acquired)).

End WithWorld.

End Handler.
Export Handler.

(* ===================================================================== *)
(** ** Reading a history *)
(* ===================================================================== *)

Module Observing.

(** How many entries of a history satisfy [f]. *)
Fixpoint count (f : Event -> bool) (h : history) : nat :=
  match h with
  | [] => O
  | ev :: t => ((if f ev then 1 else 0) + count f t)%nat
  end.

(** The steps of an acquisition: the external crawl and everything done
    with the browser. *)
Definition is_acquisition (ev : Event) : bool :=
  match ev with
  | Fetch _ _ _ | ResponseText | JsonParse _ => true
  | NewPage | OnPage _ | Delay _ | AwaitQuietNetwork _ => true
  | _ => false
  end.

Definition is_date_now (ev : Event) : bool :=
  match ev with DateNow => true | _ => false end.

Definition is_new_page (ev : Event) : bool :=
  match ev with NewPage => true | _ => false end.

Definition is_cache_set (ev : Event) : bool :=
  match ev with CacheSet _ _ _ => true | _ => false end.

Definition is_cache_remove (ev : Event) : bool :=
  match ev with CacheRemove _ => true | _ => false end.

(** The calls that change the cache. *)
Definition is_cache_mutation (ev : Event) : bool :=
  is_cache_set ev || is_cache_remove ev.

Definition is_cache_call (ev : Event) : bool :=
  match ev with
  | CacheAchieve _ | CacheSet _ _ _ | CacheRemove _ => true
  | _ => false
  end.

Definition is_pool_call (ev : Event) : bool :=
  match ev with
  | PoolCreate _ _ | PoolExec _ _ | PoolTerminate => true
  | _ => false
  end.

(** Modelled from the spec: the store behind CacheManager
    ([utils/CacheManager], a module that is not embedded). The spec
    keeps one entry per URL, overwritten by [set] and dropped by
    [remove], and [achieve] changes nothing. *)
Definition cache_step (store : gmap jsstring JsValue) (ev : Event)
  : gmap jsstring JsValue :=
  match ev with
  | CacheSet html url _ => <[url := html]> store
  | CacheRemove url => delete url store
  | _ => store
  end.

(** Modelled from the spec: the store of CacheManager once the calls of
    [h] have been applied to [store], oldest first. *)
Definition cache_after (h : history) (store : gmap jsstring JsValue)
  : gmap jsstring JsValue :=
  foldl cache_step store h.

(** [infix_of p s]: the word [p] occurs in [s]. *)
Fixpoint infix_of (p s : jsstring) : bool :=
  match strip_prefix p s with
  | Some _ => true
  | None =>
      match s with
      | [] => false
      | _ :: t => infix_of p t
      end
  end.

(** Code units that end an attribute value written without quotes:
    white space, the slash and the closing angle bracket. *)
Definition ends_unquoted_value : list N := [32; 9; 10; 12; 13; 47; 62]%N.

(** The ways a document can write the attribute [id] with exactly the
    value [ident]: between two double quotes, between two single
    quotes, or bare and followed by the end of the value. *)
Definition id_attribute_texts (ident : jsstring) : list jsstring :=
  (js "id=" ++ [34%N] ++ ident ++ [34%N])
  :: (js "id=" ++ [39%N] ++ ident ++ [39%N])
  :: map (fun c => js "id=" ++ ident ++ [c]) ends_unquoted_value.

(** The words of the specification for the not-found marker: the
    document contains an element whose id equals [ident]. Read on the
    text of the document, and generously: some attribute [id] is
    written with exactly that value. *)
Definition has_element_with_id (ident html : jsstring) : bool :=
  existsb (fun p => infix_of p html) (id_attribute_texts ident).

(** The remaining budget as the specification words it. *)
Definition remaining_spec (TOTAL_TIMEOUT now startedAt reservedGapMs : Z)
  : Z :=
  TOTAL_TIMEOUT - reservedGapMs - (now - startedAt).

(** A code unit that the class [(.|[\r\n])] of the JSON shape accepts:
    any but U+2028 and U+2029. *)
Definition any_unit (c : N) : bool := negb (N.eqb c LS || N.eqb c PS).

(** Nothing, a double quote or a single quote. *)
Definition optional_quote (q : jsstring) : Prop :=
  q = [] \/ q = [34%N] \/ q = [39%N].

(** The value a statement completes with, [d] when it does not
    complete normally. *)
Definition value {R A} (d : A) (c : completion R A * history) : A :=
  match fst c with Normal a => a | _ => d end.

Section Budget.
Variable pe : ProcessEnv.
Variable W : World.
Variable h : history.

(** What [Date.now()] answers at the entry of a call of [ISRHandler]
    made at history [h]: the handler's [startGenerating]. *)
Definition entry_time : Z := Date_now W (h ++ [DateNow]).

(** What [getRestOfDuration(startGenerating, gapDurationDefault)]
    gives at the guard of line 138. *)
Definition budget_at_entry : Z :=
  value 0 (getRestOfDuration (R := unit) pe W entry_time
             (Some gapDurationDefault) (h ++ [DateNow])).

(** What the same call gives when made again at line 144. *)
Definition budget_reread : Z :=
  value 0 (getRestOfDuration (R := unit) pe W entry_time
             (Some gapDurationDefault) (h ++ [DateNow; DateNow])).

(** The time spent between the entry and the two readings. *)
Definition elapsed_at_entry : Z :=
  Date_now W (h ++ [DateNow; DateNow]) - entry_time.

Definition elapsed_at_reread : Z :=
  Date_now W (h ++ [DateNow; DateNow; DateNow]) - entry_time.

End Budget.

End Observing.
Export Observing.

(* ===================================================================== *)
(** ** Scenarios *)
(* ===================================================================== *)

(** Concrete processes, configurations and collaborators on which the
    handler is run below. *)
Module Scenarios.

Definition product_url : jsstring := js "https://example.com/product/42".

Definition cached_page : ISSRResult :=
  mkResult 200 (Some (VText (js "<html>cached</html>"))).

Definition written_page : ISSRResult :=
  mkResult 200 (Some (VText (js "<html>lean</html>"))).

(** No variable set: a budget of 20000 ms and the marker [404-page]. *)
Definition plain_env : ProcessEnv := mkProcessEnv false None None None 1.

(** [DURATION_TIMEOUT=1500]: the whole budget is the reserved gap. *)
Definition tight_env : ProcessEnv :=
  mkProcessEnv false (Some 1500) None None 1.

Definition no_crawler : ServerConfig := mkServerConfig None None.

Definition with_crawler : ServerConfig :=
  mkServerConfig (Some (js "https://crawler.example.com")) None.

(** A clock that answers [t] to its first [n] readings and [t'] to the
    later ones. *)
Definition clock (n : nat) (t t' : Z) : history -> Z :=
  fun h => if (count is_date_now h <=? n)%nat then t else t'.

(** A parser that knows the empty object and nothing else. *)
Definition parse_empty_object (text : jsstring) : option Json :=
  if string_eqb text (js "{}") then Some (JObject []) else None.

Definition boom : JsError := mkError (js "Error") (js "boom").

(** Collaborators that answer the same whatever happened before: a
    cache that holds [cached_page], an endpoint that answers
    [fetched] with the body [body], a pattern engine that never runs
    out of stack, a browser that hands out a page ([page]) whose
    document is [document], and an optimizer that settles as
    [optimized]. *)
Definition world (time : history -> Z) (fetched : outcome Z)
    (body : outcome jsstring) (page : bool) (document : jsstring)
    (optimized : outcome jsstring) : World :=
  mkWorld time
    (fun _ => Some cached_page)
    (fun _ => written_page)
    (fun _ => fetched)
    (fun _ => body)
    (fun _ => false)
    parse_empty_object
    (fun _ => Fulfilled page)
    (fun _ => None)
    (fun _ => Some 200)
    (fun _ => document)
    (fun _ => optimized).

Definition steady : history -> Z := clock 0 1000 1000.

Definition first_request : IISRHandlerParam := mkParam 0 true product_url.
Definition later_request : IISRHandlerParam := mkParam 0 false product_url.

(** Nothing answers: no endpoint, no page. *)
Definition idle_world : World :=
  world steady Unsettled Unsettled false [] Unsettled.

(** As [idle_world], with a clock that jumps by 29 s after its second
    reading. *)
Definition late_world : World :=
  world (clock 2 1000 30000) Unsettled Unsettled false [] Unsettled.

(** The endpoint answers 404. *)
Definition gone_world : World :=
  world steady (Fulfilled 404) (Fulfilled (js "<html>gone</html>"))
    false [] Unsettled.

(** The endpoint answers 200 and the optimizer fails. *)
Definition unoptimized_world : World :=
  world steady (Fulfilled 200) (Fulfilled (js "<html>ok</html>"))
    false [] (Rejected boom).

(** The endpoint cannot be reached. *)
Definition offline_world : World :=
  world steady (Rejected boom) Unsettled false [] Unsettled.

(** The endpoint answers 500; the browser renders the page. *)
Definition failing_crawler_world : World :=
  world steady (Fulfilled 500) (Fulfilled (js "oops"))
    true (js "<html>ok</html>") (Fulfilled (js "<html>lean</html>")).

(** The endpoint answers 200 with the empty JSON object. *)
Definition json_world : World :=
  world steady (Fulfilled 200) (Fulfilled (js "{}")) false [] Unsettled.

(** A document with the marker of the not-found page. *)
Definition marker_document : jsstring :=
  js "<div id=" ++ [34%N] ++ js "404-page" ++ [34%N] ++ js "></div>".

(** A document whose only id starts with the marker and goes on. *)
Definition lookalike_document : jsstring :=
  js "<div id=" ++ [34%N] ++ js "404-pages" ++ [34%N] ++ js "></div>".

Definition marker_world : World :=
  world steady Unsettled Unsettled true marker_document Unsettled.

Definition lookalike_world : World :=
  world steady Unsettled Unsettled true lookalike_document Unsettled.

(** The request [crawlBlock] sends for [product_url]. *)
Definition crawl_call (startGenerating : Z) : Event :=
  Fetch (js "https://crawler.example.com")
    (Some (requestParams with_crawler startGenerating product_url))
    crawlInit.

(** The history of a call that passed both readings of the budget. *)
Definition budget_read : history := [DateNow; DateNow; DateNow].

End Scenarios.
Export Scenarios.

(* ===================================================================== *)
(** ** More to read off a history *)
(* ===================================================================== *)

Module Footprint.

Definition is_fetch (ev : Event) : bool :=
  match ev with Fetch _ _ _ => true | _ => false end.

Definition is_cache_achieve (ev : Event) : bool :=
  match ev with CacheAchieve _ => true | _ => false end.

Definition is_close (ev : Event) : bool :=
  match ev with OnPage Close => true | _ => false end.

Definition is_content (ev : Event) : bool :=
  match ev with OnPage Content => true | _ => false end.

Definition is_pool_create (ev : Event) : bool :=
  match ev with PoolCreate _ _ => true | _ => false end.

Definition is_pool_terminate (ev : Event) : bool :=
  match ev with PoolTerminate => true | _ => false end.

(** What the crawl block may leave in the history. *)
Definition is_crawl_event (ev : Event) : bool :=
  match ev with
  | Fetch _ _ _ | ResponseText | JsonParse _ => true
  | _ => false
  end.

(** What the render block may leave in the history. *)
Definition is_render_event (ev : Event) : bool :=
  match ev with
  | NewPage | OnPage _ | Delay _ | AwaitQuietNetwork _ | CacheAchieve _ =>
      true
  | _ => false
  end.

(** The same collaborators, with another answer for the response of
    [page.goto]. *)
Definition with_goto_response (W : World) (response : history -> option Z)
  : World :=
  mkWorld (Date_now W) (cache_achieve W) (cache_set W) (fetch_status W)
    (response_text W) (shape_test_throws W) (JSON_parse W)
    (newPage W) (page_rejects W) response (page_content W)
    (optimizeContent W).

(** The same collaborators, with another [JSON.parse]. *)
Definition with_parser (W : World) (parse : jsstring -> option Json)
  : World :=
  mkWorld (Date_now W) (cache_achieve W) (cache_set W) (fetch_status W)
    (response_text W) (shape_test_throws W) parse
    (newPage W) (page_rejects W) (goto_response W) (page_content W)
    (optimizeContent W).

(** The same collaborators, with another clock. *)
Definition with_clock (W : World) (time : history -> Z) : World :=
  mkWorld time (cache_achieve W) (cache_set W) (fetch_status W)
    (response_text W) (shape_test_throws W) (JSON_parse W)
    (newPage W) (page_rejects W) (goto_response W) (page_content W)
    (optimizeContent W).

(** The same collaborators, with other answers to the calls on the
    page. *)
Definition with_page_rejects (W : World)
    (rejects : history -> option JsError) : World :=
  mkWorld (Date_now W) (cache_achieve W) (cache_set W) (fetch_status W)
    (response_text W) (shape_test_throws W) (JSON_parse W)
    (newPage W) rejects (goto_response W) (page_content W)
    (optimizeContent W).

(** The query string that carries the four values the pattern
    [regexQueryStringSpecialInfo] captures. *)
Definition special_query (botInfo deviceInfo localeInfo environmentInfo
    : jsstring) : jsstring :=
  js "botInfo=" ++ botInfo
  ++ js "&deviceInfo=" ++ deviceInfo
  ++ js "&localeInfo=" ++ localeInfo
  ++ js "&environmentInfo=" ++ environmentInfo.

(** The groups object of a match with these four values. *)
Definition special_groups (botInfo deviceInfo localeInfo environmentInfo
    : jsstring) : list (jsstring * jsstring) :=
  [ (js "botInfo", botInfo); (js "deviceInfo", deviceInfo);
    (js "localeInfo", localeInfo);
    (js "environmentInfo", environmentInfo) ].

(** Where a group [[^&]*] stops: at the end, or before an ampersand. *)
Definition starts_group_end (r : jsstring) : Prop :=
  r = [] \/ exists t, r = 38%N :: t.

(** No ampersand in the word. *)
Definition amp_free (s : jsstring) : bool :=
  forallb (fun c => negb (N.eqb c 38)) s.

(** The calls of the render block up to the navigation, when none of
    them fails: the page is asked for, then lines 206-228. *)
Definition page_setup (url : jsstring) : history :=
  [ NewPage;
    OnPage (WaitForNetworkIdle 150);
    OnPage (SetRequestInterception true);
    OnPage OnRequest;
    OnPage (SetExtraHTTPHeaders
              (specialInfo url ++ [(js "service", js "puppeteer")])) ].

(** The navigation [waitResponse] starts with. *)
Definition navigation (url : jsstring) : Event :=
  OnPage (Goto (split_head 63 url)).

(** A page is handed out at [h] and the three awaited calls of lines
    206-228 do not reject. *)
Definition setup_succeeds (W : World) (url : jsstring) (h : history)
  : Prop :=
  newPage W (h ++ [NewPage]) = Fulfilled true
  /\ page_rejects W (h ++ [NewPage; OnPage (WaitForNetworkIdle 150)]) = None
  /\ page_rejects W
       (h ++ [NewPage; OnPage (WaitForNetworkIdle 150);
              OnPage (SetRequestInterception true)]) = None
  /\ page_rejects W (h ++ page_setup url) = None.

(** One of the three awaited calls of lines 206-228 rejects with [e],
    the ones before it do not; [done] is what the render block has
    called up to and with that call. *)
Definition setup_fails (W : World) (url : jsstring) (h : history)
    (done : history) (e : JsError) : Prop :=
  (done = [NewPage; OnPage (WaitForNetworkIdle 150)]
   /\ page_rejects W (h ++ done) = Some e)
  \/ (done = [NewPage; OnPage (WaitForNetworkIdle 150);
              OnPage (SetRequestInterception true)]
      /\ page_rejects W (h ++ [NewPage; OnPage (WaitForNetworkIdle 150)])
         = None
      /\ page_rejects W (h ++ done) = Some e)
  \/ (done = page_setup url
      /\ page_rejects W (h ++ [NewPage; OnPage (WaitForNetworkIdle 150)])
         = None
      /\ page_rejects W
           (h ++ [NewPage; OnPage (WaitForNetworkIdle 150);
                  OnPage (SetRequestInterception true)]) = None
      /\ page_rejects W (h ++ done) = Some e).

(** The call [ev], made last in [h], is one behind which the handler
    waits for ever: a promise of the endpoint, of the browser or of the
    pool that never settles, or the [page.content()] of [waitResponse]
    rejecting inside an executor that nothing catches. *)
Definition hanging_call (W : World) (h : history) (ev : Event) : Prop :=
  match ev with
  | Fetch _ _ _ => fetch_status W h = Unsettled
  | ResponseText => response_text W h = Unsettled
  | NewPage => newPage W h = Unsettled
  | OnPage Content => page_rejects W h <> None
  | PoolExec _ _ => optimizeContent W h = Unsettled
  | _ => False
  end.

(** The status line 274 gives a document, for an identifier of the
    not-found page that is a [plain_source]. *)
Definition not_found_status (pe : ProcessEnv) (content : jsstring) : Z :=
  if truthy_string content && test (regexNotFoundPageID pe) content
  then 404 else 200.

(** The call made at [h] passes the budget block with [restOfDuration]
    [rest], its crawl block is over at [h1] with [st] and [html], and
    line 191 sends it to the browser. *)
Definition enters_browser (pe : ProcessEnv) (cfg : ServerConfig) (W : World)
    (p : IISRHandlerParam) (h : history) (rest st : Z) (html : JsValue)
    (h1 : history) : Prop :=
  exists sg h0,
    budgetBlock pe W (isFirstRequest p) (url p) h = (Normal (sg, rest), h0)
    /\ crawlBlock cfg W (url p) sg 200 (VText []) h0
       = (Normal (st, html), h1)
    /\ negb (truthy (crawler cfg)) || (st =? 500) = true.

End Footprint.
Export Footprint.

(* ===================================================================== *)
(** ** The locale middleware *)
(* ===================================================================== *)

(** [DetectLocaleMiddle] (lines 323-345 of the same file). *)
Module Locale.

(** What is read of the object [detectLocale(req)] returns. *)
Record LocaleInfo : Type := mkLocaleInfo {
  langSelected : option jsstring;
  countrySelected : option jsstring
}.

(** A value kept in [res.cookies]: the locale information, or what was
    assigned to [lang] or [country] ([None] is [undefined]). *)
Inductive CookieValue : Type :=
| CLocaleInfo (info : option LocaleInfo)
| CText (text : option jsstring).

(** The response, as far as the middleware touches it: [res.cookies],
    [None] while there is no such object. *)
Record HttpResponse : Type := mkResponse {
  cookies : option (gmap jsstring CookieValue)
}.

(** The request: [req.getUrl()]. *)
Record HttpRequest : Type := mkRequest {
  getUrl : jsstring
}.

(** An entry of [ServerConfig.locale.routes]; [route_enable] is [None]
    when the entry has no [enable]. The routes are looked up by
    [req.getUrl()], a path that starts with a slash, so the lookup
    meets the entries of the object only. *)
Record RouteLocale : Type := mkRouteLocale {
  route_enable : option bool
}.

(** [ServerConfig.locale]. *)
Record LocaleConfig : Type := mkLocaleConfig {
  enable : bool;
  routes : option (gmap jsstring RouteLocale);
  defaultLang : option jsstring;
  defaultCountry : option jsstring
}.

Section WithLocale.
Variable locale : LocaleConfig.
(** [detectLocale], a function of another module; [None] is a nullish
    answer. *)
Variable detectLocale : HttpRequest -> option LocaleInfo.

(** The condition [enableLocale] of lines 327-333. *)
Definition enableLocale (req : HttpRequest) : bool :=
  enable locale
  && match routes locale with
     | None => true
     | Some rs =>
         match rs !! getUrl req with
         | None => true
         | Some route =>
             match route_enable route with
             | Some b => b
             | None => false
             end
         end
     end.

(** [a ?? b] on optional strings. *)
Definition nullish_or (a b : option jsstring) : option jsstring :=
  match a with Some _ => a | None => b end.

(** [info?.field]. *)
Definition optional_field (info : option LocaleInfo)
    (field : LocaleInfo -> option jsstring) : option jsstring :=
  match info with Some i => field i | None => None end.

(** The middleware: the response after the call. *)
Definition DetectLocaleMiddle (res : HttpResponse) (req : HttpRequest)
  : HttpResponse :=
  let cookies0 := default ∅ (cookies res) in
  let localeInfo := detectLocale req in
  let cookies1 := <[js "localeInfo" := CLocaleInfo localeInfo]> cookies0 in
  if enableLocale req then
    let cookies2 :=
      <[js "lang" :=
          CText (nullish_or (optional_field localeInfo langSelected)
                   (defaultLang locale))]> cookies1 in
    if truthy (defaultCountry locale) then
      mkResponse
        (Some (<[js "country" :=
                   CText (nullish_or
                            (optional_field localeInfo countrySelected)
                            (defaultCountry locale))]> cookies2))
    else mkResponse (Some cookies2)
  else mkResponse (Some cookies1).

End WithLocale.

End Locale.
Export Locale.

(* ===================================================================== *)
(** ** Further scenarios *)
(* ===================================================================== *)

Module Breakdowns.

(** The calls on the page [bad] holds of reject with [e], the others
    succeed. *)
Definition rejecting (bad : PageCall -> bool) (e : JsError)
  : history -> option JsError :=
  fun h =>
    match last h with
    | Some (OnPage c) => if bad c then Some e else None
    | _ => None
    end.

Definition is_idle_wait (c : PageCall) : bool :=
  match c with WaitForNetworkIdle _ => true | _ => false end.

Definition is_goto (c : PageCall) : bool :=
  match c with Goto _ => true | _ => false end.

Definition is_content_call (c : PageCall) : bool :=
  match c with Content => true | _ => false end.

Definition is_close_call (c : PageCall) : bool :=
  match c with Close => true | _ => false end.

(** The error puppeteer throws when a navigation takes too long. *)
Definition timeout : JsError :=
  mkError (js "TimeoutError") (js "Navigation timeout of 30000 ms exceeded").

(** A browser that hands out a page and renders an ordinary document;
    the optimizer does its job. *)
Definition rendering_world : World :=
  world steady Unsettled Unsettled true (js "<html>ok</html>")
    (Fulfilled (js "<html>lean</html>")).

(** [page.waitForNetworkIdle] rejects. *)
Definition broken_setup_world : World :=
  with_page_rejects rendering_world (rejecting is_idle_wait boom).

(** [page.waitForNetworkIdle] rejects, and so does [page.close]. *)
Definition broken_close_world : World :=
  with_page_rejects rendering_world
    (rejecting (fun c => is_idle_wait c || is_close_call c) boom).

(** [page.goto] rejects with an error that is no timeout. *)
Definition broken_navigation_world : World :=
  with_page_rejects rendering_world (rejecting is_goto boom).

(** [page.goto] runs into its timeout. *)
Definition slow_navigation_world : World :=
  with_page_rejects rendering_world (rejecting is_goto timeout).

(** [page.content] rejects. *)
Definition unreadable_world : World :=
  with_page_rejects rendering_world (rejecting is_content_call boom).

(** The history of a first render of [product_url] up to the
    navigation. *)
Definition navigated_product : history :=
  budget_read ++ page_setup product_url ++ [navigation product_url].

(** An address with the four values in its query. *)
Definition tagged_url : jsstring :=
  js "/p?" ++ special_query (js "bot") (js "mobile") (js "vi") (js "dev")
    ++ js "&x=1".

(** The locale switched on for every route, with defaults. *)
Definition shop_locale : LocaleConfig :=
  mkLocaleConfig true None (Some (js "en")) (Some (js "us")).

(** The locale switched on, but off for the route [/admin], whose
    entry has no [enable]. *)
Definition admin_off_locale : LocaleConfig :=
  mkLocaleConfig true
    (Some {[ js "/admin" := mkRouteLocale None ]})
    (Some (js "en")) (Some (js "us")).

(** A detection that finds the language and no country. *)
Definition detect_vi (req : HttpRequest) : option LocaleInfo :=
  Some (mkLocaleInfo (Some (js "vi")) None).

(** A response that carries a [lang] cookie already. *)
Definition visited_response : HttpResponse :=
  mkResponse (Some {[ js "lang" := CText (Some (js "fr")) ]}).

Definition admin_request : HttpRequest := mkRequest (js "/admin").
Definition home_request : HttpRequest := mkRequest (js "/").

(** A word between double quotes. *)
Definition js_quoted (s : jsstring) : jsstring := [34%N] ++ s ++ [34%N].

(** The JSON object with the one member [a], whose value is the string
    of the single code unit U+2028, written raw. *)
Definition separator_body : jsstring :=
  js "{" ++ js_quoted (js "a") ++ js ":" ++ js_quoted [LS] ++ js "}".

Definition separator_document : Json :=
  JObject [(js "a", JString [LS])].

(** A parser that knows [separator_body] and nothing else. *)
Definition parse_separator (text : jsstring) : option Json :=
  if string_eqb text separator_body then Some separator_document else None.

(** The endpoint answers 200 with [separator_body]. *)
Definition separator_world : World :=
  with_parser
    (world steady (Fulfilled 200) (Fulfilled separator_body) false []
       Unsettled)
    parse_separator.

(** As [idle_world], with a clock that reads 0. *)
Definition epoch_world : World :=
  world (clock 0 0 0) Unsettled Unsettled false [] Unsettled.

End Breakdowns.
Export Breakdowns.

(* ===================================================================== *)
(** * Properties *)
(* ===================================================================== *)

(** ** The matcher against the words a pattern denotes *)

Section PatternFacts.

Lemma nullable_Matches r : nullable r = true <-> Matches r [].
Proof.
  induction r; simpl; split; intros Hm.
  - discriminate.
  - inversion Hm.
  - constructor.
  - reflexivity.
  - discriminate.
  - inversion Hm.
  - discriminate.
  - inversion Hm.
  - discriminate.
  - inversion Hm.
  - apply andb_prop in Hm as [H1 H2].
    change (@nil N) with (@nil N ++ @nil N). constructor; tauto.
  - inversion Hm; subst.
    match goal with
    | H : _ ++ _ = [] |- _ => apply app_eq_nil in H as [-> ->]
    end.
    apply andb_true_intro; tauto.
  - apply orb_prop in Hm as [H|H]; [apply M_AltL|apply M_AltR]; tauto.
  - inversion Hm; subst; apply orb_true_intro; tauto.
  - constructor.
  - reflexivity.
  - constructor.
  - reflexivity.
Qed.

Lemma Matches_star_cons r c s :
  Matches (Star r) (c :: s) ->
  exists s1 s2, s = s1 ++ s2 /\ Matches r (c :: s1) /\ Matches (Star r) s2.
Proof.
  intros Hm. remember (Star r) as sr eqn:Hsr. remember (c :: s) as w eqn:Hw.
  revert c s Hw. induction Hm; intros c0 s0 Hw; try discriminate.
  injection Hsr as ->.
  destruct s1 as [|a s1].
  - simpl in Hw. apply IHHm2; auto.
  - simpl in Hw. injection Hw as -> <-. exists s1, s2. auto.
Qed.

Lemma der_Matches r : forall c s, Matches (der c r) s <-> Matches r (c :: s).
Proof.
  induction r; intros a s; simpl.
  - split; intros Hm; inversion Hm.
  - split; intros Hm; inversion Hm.
  - destruct (N.eqb_spec a c) as [->|Hne]; split; intros Hm.
    + inversion Hm; subst. constructor.
    + inversion Hm; subst. constructor.
    + inversion Hm.
    + inversion Hm; subst. congruence.
  - destruct (line_terminator a) eqn:Hlt; split; intros Hm.
    + inversion Hm.
    + inversion Hm; subst. congruence.
    + inversion Hm; subst. constructor. exact Hlt.
    + inversion Hm; subst. constructor.
  - destruct (in_class a cs) eqn:Hin; split; intros Hm.
    + inversion Hm; subst. constructor. exact Hin.
    + inversion Hm; subst. constructor.
    + inversion Hm.
    + inversion Hm; subst. congruence.
  - assert (Hcat : Matches (Cat (der a r1) r2) s ->
                   Matches (Cat r1 r2) (a :: s)).
    { intros Hm. inversion Hm; subst.
      change (a :: s1 ++ s2) with ((a :: s1) ++ s2). constructor; auto.
      apply IHr1; auto. }
    assert (Hinv : Matches (Cat r1 r2) (a :: s) ->
              Matches (Cat (der a r1) r2) s
              \/ (Matches r1 [] /\ Matches r2 (a :: s))).
    { intros Hm. inversion Hm; subst.
      match goal with H : ?s1 ++ _ = _ :: _ |- _ =>
        destruct s1 as [|b s1]; simpl in H;
        [right; subst; auto
        |injection H as -> <-; left; constructor; auto; apply IHr1; auto]
      end. }
    destruct (nullable r1) eqn:Hn; split; intros Hm.
    + inversion Hm; subst; auto.
      change (a :: s) with ([] ++ a :: s). constructor.
      * apply nullable_Matches; auto.
      * apply IHr2; auto.
    + destruct (Hinv Hm) as [H|[H1 H2]]; [apply M_AltL; auto|apply M_AltR].
      apply IHr2; auto.
    + auto.
    + destruct (Hinv Hm) as [H|[H1 H2]]; auto.
      apply nullable_Matches in H1. congruence.
  - split; intros Hm; inversion Hm; subst.
    + apply M_AltL, IHr1; auto.
    + apply M_AltR, IHr2; auto.
    + apply M_AltL, IHr1; auto.
    + apply M_AltR, IHr2; auto.
  - split; intros Hm.
    + inversion Hm; subst.
      change (a :: s1 ++ s2) with ((a :: s1) ++ s2). constructor; auto.
      apply IHr; auto.
    + apply Matches_star_cons in Hm as (s1 & s2 & -> & H1 & H2).
      constructor; auto. apply IHr; auto.
  - split; intros Hm.
    + apply M_OptSome, IHr; auto.
    + inversion Hm; subst. apply IHr; auto.
Qed.

Lemma match_here_spec r : forall s e,
  match_here r s e = true <->
  exists p q, s = p ++ q /\ Matches r p /\ (e = true -> q = []).
Proof.
  intros s. revert r. induction s as [|c t IH]; intros r e; simpl.
  - rewrite nullable_Matches. split.
    + intros Hm. exists [], []. auto.
    + intros (p & q & Heq & Hm & _). symmetry in Heq.
      apply app_eq_nil in Heq as [-> ->]. auto.
  - rewrite orb_true_iff, andb_true_iff, IH, nullable_Matches, negb_true_iff.
    split.
    + intros [[Hm He]|(p & q & -> & Hm & Hq)].
      * exists [], (c :: t). split; [reflexivity|]. split; [auto|]. congruence.
      * exists (c :: p), q. split; [reflexivity|]. split; [|auto].
        apply der_Matches; auto.
    + intros (p & q & Heq & Hm & Hq). destruct p as [|a p]; simpl in Heq.
      * left. split; auto. destruct e; auto.
        specialize (Hq eq_refl). congruence.
      * injection Heq as <- ->. right. exists p, q. split; [reflexivity|].
        split; [|auto]. apply der_Matches; auto.
Qed.

Lemma match_from_spec r : forall s e,
  match_from r s e = true <->
  exists a p q, s = a ++ p ++ q /\ Matches r p /\ (e = true -> q = []).
Proof.
  intros s e. induction s as [|c t IH]; simpl.
  - rewrite orb_false_r. split.
    + intros Hm. exists [], [], []. split; [reflexivity|]. split; [|auto].
      apply nullable_Matches; auto.
    + intros (a & p & q & Heq & Hm & _). symmetry in Heq.
      apply app_eq_nil in Heq as [-> Heq]. apply app_eq_nil in Heq as [-> ->].
      apply nullable_Matches; auto.
  - rewrite orb_true_iff, IH.
    change ((nullable r && negb e) || match_here (der c r) t e)
      with (match_here r (c :: t) e).
    rewrite match_here_spec. split.
    + intros [(p & q & Heq & Hm & Hq)|(a & p & q & -> & Hm & Hq)].
      * exists [], p, q. auto.
      * exists (c :: a), p, q. auto.
    + intros (a & p & q & Heq & Hm & Hq). destruct a as [|b a]; simpl in Heq.
      * left. exists p, q. auto.
      * injection Heq as <- ->. right. exists a, p, q. auto.
Qed.

Lemma Matches_Cat r1 r2 s :
  Matches (Cat r1 r2) s <->
  exists s1 s2, s = s1 ++ s2 /\ Matches r1 s1 /\ Matches r2 s2.
Proof.
  split.
  - intros Hm. inversion Hm; subst. eauto.
  - intros (s1 & s2 & -> & H1 & H2). constructor; auto.
Qed.

Lemma Matches_lit w : forall s, Matches (lit w) s <-> s = w.
Proof.
  induction w as [|c w IH]; intros s; simpl; split; intros Hm.
  - inversion Hm; auto.
  - subst. constructor.
  - inversion Hm; subst.
    match goal with H : Matches (Chr _) _ |- _ => inversion H; subst end.
    simpl. f_equal. apply IH; auto.
  - subst. change (c :: w) with ([c] ++ w). constructor; [constructor|].
    apply IH; auto.
Qed.

Lemma Matches_any_unit s :
  Matches (Alt Dot (Class [CR; LF])) s <->
  exists c, s = [c] /\ any_unit c = true.
Proof.
  unfold any_unit. split.
  - intros Hm. inversion Hm; subst.
    + match goal with H : Matches Dot _ |- _ => inversion H; subst end.
      eexists; split; [reflexivity|].
      unfold line_terminator in *.
      repeat match goal with H : (_ || _) = false |- _ =>
        destruct (orb_false_elim _ _ H); clear H end.
      apply negb_true_iff, orb_false_intro; auto.
    + match goal with H : Matches (Class _) _ |- _ => inversion H; subst end.
      eexists; split; [reflexivity|].
      match goal with H : in_class _ _ = true |- _ => simpl in H;
        rewrite orb_false_r in H; apply orb_prop in H as [H|H];
        apply N.eqb_eq in H; subst; reflexivity end.
  - intros (c & -> & Hc).
    destruct (line_terminator c) eqn:Hlt.
    + apply M_AltR. constructor. unfold line_terminator in Hlt. simpl.
      apply negb_true_iff, orb_false_elim in Hc as [H1 H2].
      rewrite H1, H2, !orb_false_r in Hlt.
      rewrite orb_false_r, orb_comm. exact Hlt.
    + apply M_AltL. constructor. exact Hlt.
Qed.

Lemma Matches_star_any s :
  Matches (Star (Alt Dot (Class [CR; LF]))) s <-> forallb any_unit s = true.
Proof.
  split.
  - intros Hm. remember (Star (Alt Dot (Class [CR; LF]))) as r eqn:Hr.
    induction Hm; try discriminate; [reflexivity|].
    injection Hr as ->. apply Matches_any_unit in Hm1 as (c & -> & Hc).
    simpl. rewrite Hc. simpl. auto.
  - induction s as [|c t IH]; simpl; intros Hs; [constructor|].
    apply andb_prop in Hs as [Hc Ht].
    change (c :: t) with ([c] ++ t). constructor; auto.
    apply Matches_any_unit. eauto.
Qed.

(** The JSON shape: an opening brace, a closing brace at the very end,
    and neither U+2028 nor U+2029 between them. *)
Lemma test_regexJsonShape s :
  test regexJsonShape s = true <->
  exists m, s = 123%N :: m ++ [125%N] /\ forallb any_unit m = true.
Proof.
  unfold test, regexJsonShape. cbn [anchored_start anchored_end body].
  rewrite match_here_spec. split.
  - intros (p & q & -> & Hm & Hq). rewrite (Hq eq_refl), app_nil_r.
    apply Matches_Cat in Hm as (w1 & p1 & -> & Hopen & Hm).
    apply Matches_Cat in Hm as (m & w2 & -> & Hm & Hclose).
    inversion Hopen; subst. inversion Hclose; subst.
    exists m; split; [reflexivity|]. apply Matches_star_any; auto.
  - intros (m & -> & Hm). exists (123%N :: m ++ [125%N]), [].
    rewrite app_nil_r. split; [reflexivity|]. split; [|auto].
    change (123%N :: m ++ [125%N]) with ([123%N] ++ m ++ [125%N]).
    constructor; [constructor|]. constructor; [|constructor].
    apply Matches_star_any; auto.
Qed.

Lemma Matches_optional_quote q :
  Matches (Opt quote_class) q <-> optional_quote q.
Proof.
  unfold optional_quote, quote_class. split.
  - intros Hm. inversion Hm; subst; [auto|].
    match goal with H : Matches (Class _) _ |- _ => inversion H; subst end.
    match goal with H : in_class _ _ = true |- _ => simpl in H;
      rewrite orb_false_r in H; apply orb_prop in H as [H|H];
      apply N.eqb_eq in H; subst; auto end.
  - intros [-> | [-> | ->]]; [constructor | | ];
      apply M_OptSome; constructor; reflexivity.
Qed.

(** The not-found pattern: [id=], an optional quote and the identifier,
    anywhere in the text. The optional quote after the identifier
    constrains nothing. *)
Lemma test_regexNotFoundPageID pe s :
  test (regexNotFoundPageID pe) s = true <->
  exists before q after,
    s = before ++ js "id=" ++ q ++ NOT_FOUND_PAGE_ID pe ++ after
    /\ optional_quote q.
Proof.
  unfold test, regexNotFoundPageID.
  cbn [anchored_start anchored_end body]. rewrite match_from_spec. split.
  - intros (a & p & q & -> & Hm & _).
    apply Matches_Cat in Hm as (w1 & p1 & -> & Hid & Hm).
    apply Matches_Cat in Hm as (q1 & p2 & -> & Hq1 & Hm).
    apply Matches_Cat in Hm as (w2 & q2 & -> & Hident & Hq2).
    apply Matches_lit in Hid as ->. apply Matches_lit in Hident as ->.
    apply Matches_optional_quote in Hq1.
    exists a, q1, (q2 ++ q).
    split; [|assumption]. rewrite <- !app_assoc. reflexivity.
  - intros (a & q & post & -> & Hq).
    exists a, (js "id=" ++ q ++ NOT_FOUND_PAGE_ID pe), post.
    split; [rewrite <- !app_assoc; reflexivity|]. split; [|discriminate].
    constructor; [apply Matches_lit; reflexivity|].
    constructor; [apply Matches_optional_quote; exact Hq|].
    apply Matches_Cat. exists (NOT_FOUND_PAGE_ID pe), [].
    split; [rewrite app_nil_r; reflexivity|].
    split; [apply Matches_lit; reflexivity|constructor].
Qed.

End PatternFacts.

(** ** Running the monad *)

Ltac run :=
  cbv beta iota zeta delta
    [bind ret return_ throw emit try_catch try_finally async_fn await
     now cacheManager_achieve cacheManager_set cacheManager_remove
     fetch res_text shape_test JSON_parse_call on_page pool_exec
     browserManager_newPage fst snd
     default from_option id].

(** Case analysis on the innermost scrutinee that blocks evaluation. *)
Ltac branch :=
  match goal with
  | |- context [match ?x with _ => _ end] =>
      lazymatch x with
      | context [match _ with _ => _ end] => fail
      | _ => destruct x eqn:?
      end
  end; cbv beta iota.

Ltac paths := repeat branch.

(** Histories as one list appended to the initial one. *)
Ltac flat := cbv beta iota; rewrite <- ?app_assoc; cbn [app].

Lemma count_app f h k : count f (h ++ k) = (count f h + count f k)%nat.
Proof. induction h as [|ev h IH]; simpl; [reflexivity|]. rewrite IH. lia. Qed.

Section BudgetFacts.
Variable pe : ProcessEnv.
Variable W : World.

Lemma getRestOfDuration_eq R sg gap h :
  getRestOfDuration (R := R) pe W sg gap h =
    if sg =? 0 then (Normal 0, h)
    else (Normal (DURATION_TIMEOUT pe - default 0 gap
                  - (Date_now W (h ++ [DateNow]) - sg)),
          h ++ [DateNow]).
Proof. unfold getRestOfDuration. run. destruct (sg =? 0); reflexivity. Qed.


Lemma budget_at_entry_eq h :
  budget_at_entry pe W h =
    if entry_time W h =? 0 then 0
    else DURATION_TIMEOUT pe - gapDurationDefault - elapsed_at_entry W h.
Proof.
  unfold budget_at_entry, elapsed_at_entry, value.
  rewrite getRestOfDuration_eq. rewrite <- app_assoc. cbn [app].
  destruct (entry_time W h =? 0); reflexivity.
Qed.

Lemma budget_reread_eq h :
  budget_reread pe W h =
    if entry_time W h =? 0 then 0
    else DURATION_TIMEOUT pe - gapDurationDefault - elapsed_at_reread W h.
Proof.
  unfold budget_reread, elapsed_at_reread, value.
  rewrite getRestOfDuration_eq. rewrite <- app_assoc. cbn [app].
  destruct (entry_time W h =? 0); reflexivity.
Qed.

(** The four ways through lines 137-153. *)
Lemma budgetBlock_eq isFirst url h :
  budgetBlock pe W isFirst url h =
    if entry_time W h =? 0 then (Return None, h ++ [DateNow])
    else if budget_at_entry pe W h <=? 0
    then (Return None, h ++ [DateNow; DateNow])
    else if budget_reread pe W h <=? 0
    then if negb isFirst
         then (Return (cache_achieve W
                         (h ++ [DateNow; DateNow; DateNow; CacheAchieve url])),
               h ++ [DateNow; DateNow; DateNow; CacheAchieve url])
         else (Return None, h ++ [DateNow; DateNow; DateNow])
    else (Normal (entry_time W h, budget_reread pe W h),
          h ++ [DateNow; DateNow; DateNow]).
Proof.
  rewrite budget_at_entry_eq, budget_reread_eq.
  unfold budgetBlock, getRestOfDuration, elapsed_at_entry,
    elapsed_at_reread, entry_time.
  run.
  destruct (Date_now W (h ++ [DateNow]) =? 0) eqn:E0; [reflexivity|].
  flat.
  destruct (DURATION_TIMEOUT pe - gapDurationDefault
            - (Date_now W (h ++ [DateNow; DateNow])
               - Date_now W (h ++ [DateNow])) <=? 0) eqn:E1;
    [reflexivity|].
  flat.
  destruct (DURATION_TIMEOUT pe - gapDurationDefault
            - (Date_now W (h ++ [DateNow; DateNow; DateNow])
               - Date_now W (h ++ [DateNow])) <=? 0) eqn:E2;
    [|reflexivity].
  destruct isFirst; cbn [negb]; flat; reflexivity.
Qed.

Lemma budgetBlock_Normal isFirst url h sg rest h0 :
  budgetBlock pe W isFirst url h = (Normal (sg, rest), h0) ->
  sg = entry_time W h /\ sg <> 0 /\ rest = budget_reread pe W h
  /\ 0 < budget_at_entry pe W h /\ 0 < rest
  /\ h0 = h ++ [DateNow; DateNow; DateNow].
Proof.
  rewrite budgetBlock_eq.
  destruct (entry_time W h =? 0) eqn:E0; [discriminate|].
  destruct (budget_at_entry pe W h <=? 0) eqn:E1; [discriminate|].
  destruct (budget_reread pe W h <=? 0) eqn:E2;
    [destruct (negb isFirst); discriminate|].
  intros [= <- <- <-]. apply Z.eqb_neq in E0. apply Z.leb_gt in E1, E2.
  repeat split; auto.
Qed.

Lemma budgetBlock_quiet isFirst url h :
  count is_acquisition (snd (budgetBlock pe W isFirst url h))
  = count is_acquisition h
  /\ count is_cache_mutation (snd (budgetBlock pe W isFirst url h))
     = count is_cache_mutation h.
Proof.
  rewrite budgetBlock_eq.
  paths; cbn [snd]; rewrite !count_app; simpl; lia.
Qed.
End BudgetFacts.

(** Claim C6, amended for the guard of line 34. For every [startedAt]
    other than 0, [getRestOfDuration] reads the clock once and gives
    [DURATION_TIMEOUT - gap - (now - startedAt)]; the value does not grow
    when the elapsed time [now - startedAt] grows, and it strictly
    decreases when the gap grows; leaving the gap out is the gap 0. When
    [startedAt] is 0 the function gives 0 without reading the clock. *)
Theorem remaining_budget_formula (pe : ProcessEnv) (W : World) (R : Type)
    (startedAt gap : Z) (h : history) :
  startedAt <> 0 ->
  let rest g := getRestOfDuration (R := R) pe W startedAt (Some g) h in
  rest gap =
    (Normal (remaining_spec (DURATION_TIMEOUT pe)
               (Date_now W (h ++ [DateNow])) startedAt gap),
     h ++ [DateNow])
  /\ (forall W' h' startedAt',
        startedAt' <> 0 ->
        Date_now W (h ++ [DateNow]) - startedAt
          <= Date_now W' (h' ++ [DateNow]) - startedAt' ->
        value 0 (getRestOfDuration (R := R) pe W' startedAt' (Some gap) h')
          <= value 0 (rest gap))
  /\ (forall gap', gap < gap' -> value 0 (rest gap') < value 0 (rest gap))
  /\ getRestOfDuration (R := R) pe W startedAt None h = rest 0
  /\ getRestOfDuration (R := R) pe W 0 (Some gap) h = (Normal 0, h).
Proof.
  intros Hs rest. subst rest. cbv beta.
  assert (E : (startedAt =? 0) = false) by (apply Z.eqb_neq; exact Hs).
  rewrite !getRestOfDuration_eq, E. unfold remaining_spec, value.
  cbn [default from_option id fst].
  repeat split.
  - intros W' h' s' Hs' Hle. rewrite getRestOfDuration_eq.
    apply Z.eqb_neq in Hs'. rewrite Hs'. cbn [default from_option id fst]. lia.
  - intros gap' Hlt. rewrite getRestOfDuration_eq, E.
    cbn [default from_option id fst]. lia.
Qed.

(** A start at 400 read at 1000 with the default budget. *)
Lemma remaining_budget_formula_witness :
  let W := world steady Unsettled Unsettled false [] Unsettled in
  400 <> 0
  /\ getRestOfDuration (R := unit) plain_env W 400 (Some 1500) [] =
       (Normal 17900, [DateNow]).
Proof.
  intros W. assert (H : 400 <> 0) by discriminate.
  split; [exact H|].
  exact (proj1 (remaining_budget_formula plain_env W unit 400 1500 [] H)).
Defined.

(** Claim C6 fails as stated. With [startedAt = 0], a clock at 1000 and
    the default budget the formula gives 19000, and the function gives
    0, for the gap 0 as for the gap 1500. *)
Lemma remaining_budget_zero_start :
  let W := world steady Unsettled Unsettled false [] Unsettled in
  getRestOfDuration (R := unit) plain_env W 0 (Some 0) [] = (Normal 0, [])
  /\ remaining_spec (DURATION_TIMEOUT plain_env) (Date_now W [DateNow]) 0 0
     = 19000
  /\ getRestOfDuration (R := unit) plain_env W 0 (Some 1500) []
     = (Normal 0, []).
Proof. repeat split. Qed.

Section HandlerFacts.
Variable pe : ProcessEnv.
Variable cfg : ServerConfig.
Variable W : World.

(** The handler is what follows the budget block. *)
Lemma ISRHandler_eq p h :
  ISRHandler pe cfg W p h =
    match budgetBlock pe W (isFirstRequest p) (url p) h with
    | (Normal b, h0) =>
        async_fn
          (bind (acquire pe cfg W (isFirstRequest p) (url p) (fst b) (snd b))
             (fun acquired =>
                storeBlock pe W (url p) (fst b)
                  (fst acquired) (snd acquired))) h0
    | (Return r, h0) => (Fulfilled r, h0)
    | (Throw e, h0) => (Rejected e, h0)
    | (Stuck, h0) => (Unsettled, h0)
    end.
Proof.
  unfold ISRHandler, async_fn. unfold bind at 1.
  destruct (budgetBlock pe W (isFirstRequest p) (url p) h) as [[b|r|e|] h0];
    reflexivity.
Qed.

(** Claim C1, amended for the guard at entry. For a call with
  [isFirstRequest = false]: when the budget with the gap of 1500 ms is
  positive at the guard of line 138 and at most 0 when it is read
  again at line 144, the handler resolves to what
  [cacheManager.achieve(url)] resolves to at that moment, having only
  read the clock three times and asked the cache once; and whenever
  either reading of the budget is at most 0, the call adds no step of
  an acquisition (external crawl or browser) to the history. *)
Theorem stale_serve_when_budget_runs_out (p : IISRHandlerParam)
    (h : history) :
  isFirstRequest p = false ->
  (0 < budget_at_entry pe W h -> budget_reread pe W h <= 0 ->
     ISRHandler pe cfg W p h =
       (Fulfilled
          (cache_achieve W
             (h ++ [DateNow; DateNow; DateNow; CacheAchieve (url p)])),
        h ++ [DateNow; DateNow; DateNow; CacheAchieve (url p)]))
  /\ (budget_at_entry pe W h <= 0 \/ budget_reread pe W h <= 0 ->
        count is_acquisition (snd (ISRHandler pe cfg W p h))
        = count is_acquisition h).
Proof.
  intros Hfirst. rewrite ISRHandler_eq, budgetBlock_eq, Hfirst. cbn [negb].
  pose proof (budget_at_entry_eq pe W h) as Ha.
  pose proof (budget_reread_eq pe W h) as Hb.
  destruct (entry_time W h =? 0) eqn:E0.
  - split; [lia|]. intros _. cbn [snd]. rewrite count_app. simpl. lia.
  - split.
    + intros H1 H2. apply Z.leb_gt in H1. apply Z.leb_le in H2.
      rewrite H1, H2. reflexivity.
    + intros Hor.
      destruct (budget_at_entry pe W h <=? 0) eqn:E1.
      * cbn [snd]. rewrite count_app. simpl. lia.
      * destruct (budget_reread pe W h <=? 0) eqn:E2.
        -- cbn [snd]. rewrite count_app. simpl. lia.
        -- apply Z.leb_gt in E1, E2. lia.
Qed.

(** What the guard of line 138 does when the budget is used up: nothing
    is returned, for a first request as for a later one, and the cache
    is not asked. *)
Lemma entry_guard_returns_nothing (p : IISRHandlerParam) (h : history) :
  budget_at_entry pe W h <= 0 ->
  fst (ISRHandler pe cfg W p h) = Fulfilled None
  /\ count is_cache_call (snd (ISRHandler pe cfg W p h))
     = count is_cache_call h.
Proof.
  intros Hle. rewrite ISRHandler_eq, budgetBlock_eq.
  destruct (entry_time W h =? 0).
  - cbn [fst snd]. rewrite count_app. simpl. split; [reflexivity|lia].
  - apply Z.leb_le in Hle. rewrite Hle. cbn [fst snd].
    rewrite count_app. simpl. split; [reflexivity|lia].
Qed.

(** Claim C10, amended for the guard of line 34. The handler does not
  read the [startGenerating] of its parameter: any value there gives
  the same run. It measures the
  budget from its own reading of the clock at entry, so when that
  reading is not 0 and [DURATION_TIMEOUT] exceeds 1500 ms plus the time
  spent between the entry and each of the two readings of the budget,
  neither exit of lines 138 and 146-153 is taken: the budget block
  completes normally and the handler goes on to acquire. *)
Theorem budget_measured_from_entry (p : IISRHandlerParam) (h : history) :
  (forall caller_start,
     ISRHandler pe cfg W
       (mkParam caller_start (isFirstRequest p) (url p)) h
     = ISRHandler pe cfg W p h)
  /\ (entry_time W h <> 0 ->
       gapDurationDefault + elapsed_at_entry W h < DURATION_TIMEOUT pe ->
       gapDurationDefault + elapsed_at_reread W h < DURATION_TIMEOUT pe ->
       budgetBlock pe W (isFirstRequest p) (url p) h =
         (Normal (entry_time W h, budget_reread pe W h),
          h ++ [DateNow; DateNow; DateNow])
       /\ ISRHandler pe cfg W p h =
            async_fn
              (bind (acquire pe cfg W (isFirstRequest p) (url p)
                       (entry_time W h) (budget_reread pe W h))
                 (fun acquired =>
                    storeBlock pe W (url p) (entry_time W h)
                      (fst acquired) (snd acquired)))
              (h ++ [DateNow; DateNow; DateNow])).
Proof.
  split; [reflexivity|].
  intros H0 H1 H2.
  assert (E : budgetBlock pe W (isFirstRequest p) (url p) h =
              (Normal (entry_time W h, budget_reread pe W h),
               h ++ [DateNow; DateNow; DateNow])).
  { rewrite budgetBlock_eq.
    pose proof (budget_at_entry_eq pe W h) as Ha.
    pose proof (budget_reread_eq pe W h) as Hb.
    apply Z.eqb_neq in H0. rewrite H0 in *.
    assert (E1 : (budget_at_entry pe W h <=? 0) = false)
      by (apply Z.leb_gt; lia).
    assert (E2 : (budget_reread pe W h <=? 0) = false)
      by (apply Z.leb_gt; lia).
    rewrite E1, E2. reflexivity. }
  split; [exact E|]. rewrite ISRHandler_eq, E. reflexivity.
Qed.

End HandlerFacts.

Section FetchFacts.
Variable W : World.

(** [fetchData], one case per way the request can go. *)
Lemma fetchData_eq input init reqData h :
  fetchData W input init reqData h =
    let h1 := h ++ [Fetch input reqData init] in
    match fetch_status W h1 with
    | Unsettled => (Unsettled, h1)
    | Rejected _ => (Fulfilled (mkFetchResult 500 (VText [])), h1)
    | Fulfilled st =>
        let h2 := h ++ [Fetch input reqData init; ResponseText] in
        match response_text W h2 with
        | Unsettled => (Unsettled, h2)
        | Rejected _ => (Fulfilled (mkFetchResult 500 (VText [])), h2)
        | Fulfilled text =>
            if shape_test_throws W text
            then (Fulfilled (mkFetchResult 500 (VText [])), h2)
            else if test regexJsonShape text then
              match JSON_parse W text with
              | Some j => (Fulfilled (mkFetchResult st (VJson j)),
                           h2 ++ [JsonParse text])
              | None => (Fulfilled (mkFetchResult 500 (VText [])),
                         h2 ++ [JsonParse text])
              end
            else (Fulfilled (mkFetchResult st (VText text)), h2)
        end
    end.
Proof.
  unfold fetchData. run.
  destruct (fetch_status W _) as [st|e|]; flat; try reflexivity.
  destruct (response_text W _) as [text|e|]; flat; try reflexivity.
  destruct (shape_test_throws W text); flat; [reflexivity|].
  destruct (test regexJsonShape text); flat; [|reflexivity].
  destruct (JSON_parse W text); flat; reflexivity.
Qed.

Lemma fetchData_settles input init reqData h e :
  fst (fetchData W input init reqData h) <> Rejected e.
Proof.
  rewrite fetchData_eq. cbv zeta. paths; cbn [fst]; discriminate.
Qed.

(** Claim C4. [fetchData] never rejects, whatever its arguments and
  whatever the collaborators answer. When [fetch] rejects, when
  [res.text()] rejects, or when the body has the JSON shape and
  [JSON.parse] throws, it resolves to [{ status: 500, data: '' }]. *)
Theorem fetchData_never_rejects (input : jsstring) (init : RequestInit)
    (reqData : option (list (jsstring * QueryValue))) (h : history) :
  let sent := h ++ [Fetch input reqData init] in
  let read := h ++ [Fetch input reqData init; ResponseText] in
  let result := fst (fetchData W input init reqData h) in
  (forall e, result <> Rejected e)
  /\ (forall e, fetch_status W sent = Rejected e ->
        result = Fulfilled (mkFetchResult 500 (VText [])))
  /\ (forall st e,
        fetch_status W sent = Fulfilled st ->
        response_text W read = Rejected e ->
        result = Fulfilled (mkFetchResult 500 (VText [])))
  /\ (forall st text,
        fetch_status W sent = Fulfilled st ->
        response_text W read = Fulfilled text ->
        test regexJsonShape text = true ->
        JSON_parse W text = None ->
        result = Fulfilled (mkFetchResult 500 (VText []))).
Proof.
  cbv zeta. split; [intros e; apply fetchData_settles|].
  rewrite fetchData_eq. cbv zeta. repeat split.
  - intros e ->. reflexivity.
  - intros st e -> ->. reflexivity.
  - intros st text -> -> -> ->.
    destruct (shape_test_throws W text); reflexivity.
Qed.

(** Claim C8, amended for what the pattern accepts and for the limit of
  the engine. Once the response and its body are there, and the test
  of line 60 completes on the body, [JSON.parse] is called on the body
  exactly when the body passes that test, which holds of the bodies
  that open with a brace, close with a brace at the very end, and have
  neither U+2028 nor U+2029 in between: a body that fails the test is
  passed on verbatim as text with the status of the response, a body
  that passes it and parses is passed on as the decoded document.
  When the test throws instead, the body is dropped and the result is
  [{ status: 500, data: '' }]. *)
Theorem body_decoded_iff_json_shape (input : jsstring) (init : RequestInit)
    (reqData : option (list (jsstring * QueryValue))) (h : history)
    (st : Z) (text : jsstring) :
  let read := h ++ [Fetch input reqData init; ResponseText] in
  fetch_status W (h ++ [Fetch input reqData init]) = Fulfilled st ->
  response_text W read = Fulfilled text ->
  (shape_test_throws W text = false ->
   snd (fetchData W input init reqData h) =
     read ++ (if test regexJsonShape text then [JsonParse text] else [])
   /\ (test regexJsonShape text = false ->
         fetchData W input init reqData h =
           (Fulfilled (mkFetchResult st (VText text)), read))
   /\ (forall j, test regexJsonShape text = true ->
         JSON_parse W text = Some j ->
         fetchData W input init reqData h =
           (Fulfilled (mkFetchResult st (VJson j)),
            read ++ [JsonParse text])))
  /\ (shape_test_throws W text = true ->
      fetchData W input init reqData h =
        (Fulfilled (mkFetchResult 500 (VText [])), read))
  /\ (test regexJsonShape text = true <->
      exists m, text = 123%N :: m ++ [125%N]
                /\ forallb any_unit m = true).
Proof.
  cbv zeta. intros Hs Ht. rewrite fetchData_eq. cbv zeta. rewrite Hs, Ht.
  split; [|split].
  - intros ->. repeat split.
    + destruct (test regexJsonShape text);
        [destruct (JSON_parse W text)|]; cbn [snd];
        rewrite ?app_nil_r; reflexivity.
    + intros ->. reflexivity.
    + intros j -> ->. reflexivity.
  - intros ->. reflexivity.
  - apply test_regexJsonShape.
Qed.
End FetchFacts.

Lemma cacheable_iff st : cacheable st = true <-> st = 200 \/ st = 302.
Proof.
  unfold cacheable, CACHEABLE_STATUS_CODE.
  destruct (decide (st = 200)) as [->|H200].
  { rewrite lookup_insert_eq. tauto. }
  rewrite lookup_insert_ne by congruence.
  destruct (decide (st = 302)) as [->|H302].
  { rewrite lookup_insert_eq. tauto. }
  rewrite lookup_insert_ne by congruence.
  rewrite lookup_empty. split; [discriminate|tauto].
Qed.

Lemma cache_after_app h k store :
  cache_after (h ++ k) store = cache_after k (cache_after h store).
Proof. unfold cache_after. apply foldl_app. Qed.

Section BlockFacts.
Variable pe : ProcessEnv.
Variable cfg : ServerConfig.
Variable W : World.

Lemma crawlBlock_eq url sg st html h :
  crawlBlock cfg W url sg st html h =
    if truthy (crawler cfg) then
      match fetchData W (default [] (crawler cfg)) crawlInit
              (Some (requestParams cfg sg url)) h with
      | (Fulfilled r, h') => (Normal (fr_status r, fr_data r), h')
      | (Rejected _, h') => (Normal (st, html), h')
      | (Unsettled, h') => (Stuck, h')
      end
    else (Normal (st, html), h).
Proof.
  unfold crawlBlock. destruct (truthy (crawler cfg)); [|reflexivity].
  unfold try_catch, bind, await, ret.
  destruct (fetchData _ _ _ _ h) as [[r|e|] h']; reflexivity.
Qed.

Lemma storeBlock_eq url sg st html h :
  sg <> 0 ->
  storeBlock pe W url sg st html h =
    if cacheable st then
      let h2 := h ++ [DateNow; PoolCreate 2 (MAX_WORKERS pe);
                      PoolExec html true] in
      match optimizeContent W h2 with
      | Fulfilled lean =>
          (Normal
             (Some (cache_set W
                      (h2 ++ [PoolTerminate; CacheSet (VText lean) url true]))),
           h2 ++ [PoolTerminate; CacheSet (VText lean) url true])
      | Rejected _ => (Return None, h2 ++ [PoolTerminate])
      | Unsettled => (Stuck, h2)
      end
    else
      (Return (Some (mkResult st
                       (Some (if st =? 404
                              then VText (js "Page not found!")
                              else html)))),
       h ++ [DateNow; CacheRemove url]).
Proof.
  intros Hs. apply Z.eqb_neq in Hs.
  unfold storeBlock, getRestOfDuration. rewrite Hs. run.
  destruct (cacheable st); flat; [|reflexivity].
  destruct (optimizeContent W _) as [lean|e|]; flat; reflexivity.
Qed.

(** What the blocks leave in the history besides their own calls. *)
Lemma crawlBlock_quiet url sg st html h :
  let h' := snd (crawlBlock cfg W url sg st html h) in
  count is_new_page h' = count is_new_page h
  /\ count is_cache_call h' = count is_cache_call h
  /\ count is_cache_set h' = count is_cache_set h
  /\ count is_pool_call h' = count is_pool_call h
  /\ forall store, cache_after h' store = cache_after h store.
Proof.
  cbv zeta. rewrite crawlBlock_eq, fetchData_eq. cbv zeta.
  paths; cbn [snd]; rewrite ?count_app; simpl;
    repeat split;
    first [lia | intros store; rewrite ?cache_after_app; reflexivity].
Qed.

Lemma renderBlock_quiet isFirst url rest st html h :
  let h' := snd (renderBlock pe cfg W isFirst url rest st html h) in
  count is_new_page h' =
    (count is_new_page h
     + (if negb (truthy (crawler cfg)) || (st =? 500)%Z then 1 else 0))%nat
  /\ count is_cache_set h' = count is_cache_set h
  /\ count is_cache_mutation h' = count is_cache_mutation h
  /\ count is_pool_call h' = count is_pool_call h
  /\ forall store, cache_after h' store = cache_after h store.
Proof.
  cbv zeta. unfold renderBlock, navigate, waitResponse. run.
  paths; cbn [snd]; rewrite ?count_app; simpl;
    repeat split;
    first [lia | intros store; rewrite ?cache_after_app; reflexivity].
Qed.

Lemma storeBlock_new_pages url sg st html h :
  count is_new_page (snd (storeBlock pe W url sg st html h))
  = count is_new_page h.
Proof.
  unfold storeBlock, getRestOfDuration. run.
  paths; cbn [snd]; rewrite ?count_app; simpl; lia.
Qed.

Lemma acquire_eq isFirst url sg rest h :
  acquire pe cfg W isFirst url sg rest h =
    match crawlBlock cfg W url sg 200 (VText []) h with
    | (Normal crawled, h1) =>
        renderBlock pe cfg W isFirst url rest (fst crawled) (snd crawled) h1
    | (Return r, h1) => (Return r, h1)
    | (Throw e, h1) => (Throw e, h1)
    | (Stuck, h1) => (Stuck, h1)
    end.
Proof. reflexivity. Qed.

Lemma acquire_quiet isFirst url sg rest h :
  let h' := snd (acquire pe cfg W isFirst url sg rest h) in
  count is_cache_set h' = count is_cache_set h
  /\ count is_pool_call h' = count is_pool_call h
  /\ forall store, cache_after h' store = cache_after h store.
Proof.
  cbv zeta. rewrite acquire_eq.
  pose proof (crawlBlock_quiet url sg 200 (VText []) h) as Hc.
  cbv zeta in Hc. destruct Hc as (_ & _ & Hc1 & Hc2 & Hc3).
  destruct (crawlBlock cfg W url sg 200 (VText []) h) as [[c|r|e|] h1];
    cbn [snd] in *; try (repeat split; assumption).
  pose proof (renderBlock_quiet isFirst url rest (fst c) (snd c) h1) as Hr.
  cbv zeta in Hr. destruct Hr as (_ & Hr1 & _ & Hr2 & Hr3).
  repeat split; try congruence.
  all: intros store; rewrite Hr3; apply Hc3.
Qed.

Lemma ISRHandler_acquired p h sg rest h0 st html h1 :
  budgetBlock pe W (isFirstRequest p) (url p) h = (Normal (sg, rest), h0) ->
  acquire pe cfg W (isFirstRequest p) (url p) sg rest h0
    = (Normal (st, html), h1) ->
  sg <> 0
  /\ ISRHandler pe cfg W p h = async_fn (storeBlock pe W (url p) sg st html) h1
  /\ count is_cache_set h1 = count is_cache_set h
  /\ forall store, cache_after h1 store = cache_after h store.
Proof.
  intros Hb Ha.
  pose proof (budgetBlock_Normal _ _ _ _ _ _ _ _ Hb)
    as (_ & Hs & _ & _ & _ & _).
  split; [exact Hs|]. split.
  - rewrite ISRHandler_eq, Hb. cbn [fst snd]. unfold async_fn, bind.
    rewrite Ha. reflexivity.
  - pose proof (acquire_quiet (isFirstRequest p) (url p) sg rest h0) as Hq.
    cbv zeta in Hq. rewrite Ha in Hq. cbn [snd] in Hq.
    destruct Hq as (Hq1 & _ & Hq3).
    pose proof (budgetBlock_quiet pe W (isFirstRequest p) (url p) h) as [_ Hm].
    pose proof (budgetBlock_eq pe W (isFirstRequest p) (url p) h) as Heq.
    rewrite Hb in *. cbn [snd] in *.
    assert (Hh0 : h0 = h ++ [DateNow; DateNow; DateNow])
      by (eapply budgetBlock_Normal; eassumption).
    split.
    + rewrite Hq1, Hh0, count_app. simpl. lia.
    + intros store. rewrite Hq3, Hh0, cache_after_app. reflexivity.
Qed.

(** Claim C2. When the handler has passed the budget block and acquired
  a status other than 200 and 302 with some [html], it reads the clock
  once more, calls [cacheManager.remove(url)] and resolves to the
  result with that status and, as html, the text [Page not found!]
  when the status is 404 and the acquired [html] otherwise. The whole
  call makes no call to [cacheManager.set], and the store has no entry
  for the URL afterwards. *)
Theorem uncacheable_status_evicts (p : IISRHandlerParam) (h : history)
    (sg rest : Z) (h0 : history) (st : Z) (html : JsValue) (h1 : history) :
  budgetBlock pe W (isFirstRequest p) (url p) h = (Normal (sg, rest), h0) ->
  acquire pe cfg W (isFirstRequest p) (url p) sg rest h0
    = (Normal (st, html), h1) ->
  st <> 200 -> st <> 302 ->
  let final := h1 ++ [DateNow; CacheRemove (url p)] in
  ISRHandler pe cfg W p h =
    (Fulfilled
       (Some (mkResult st
                (Some (if st =? 404 then VText (js "Page not found!")
                       else html)))),
     final)
  /\ count is_cache_set final = count is_cache_set h
  /\ forall store, cache_after final store !! url p = None.
Proof.
  intros Hb Ha H200 H302 final.
  destruct (ISRHandler_acquired p h sg rest h0 st html h1 Hb Ha)
    as (Hs & -> & Hset & Hstore).
  assert (Hc : cacheable st = false).
  { destruct (cacheable st) eqn:E; [|reflexivity].
    apply cacheable_iff in E. tauto. }
  unfold async_fn. rewrite storeBlock_eq by exact Hs. rewrite Hc.
  split; [reflexivity|]. subst final. split.
  - rewrite count_app, Hset. simpl. lia.
  - intros store. rewrite cache_after_app. cbn. apply lookup_delete_eq.
Qed.

(** Claim C3. When the handler has passed the budget block and acquired
  a cacheable status, and the job handed to the pool rejects, it
  terminates the pool and resolves to nothing; the whole call makes no
  call to [cacheManager.set] and leaves the store as it was. *)
Theorem optimizer_failure_writes_nothing (p : IISRHandlerParam)
    (h : history) (sg rest : Z) (h0 : history) (st : Z) (html : JsValue)
    (h1 : history) (e : JsError) :
  budgetBlock pe W (isFirstRequest p) (url p) h = (Normal (sg, rest), h0) ->
  acquire pe cfg W (isFirstRequest p) (url p) sg rest h0
    = (Normal (st, html), h1) ->
  cacheable st = true ->
  optimizeContent W
    (h1 ++ [DateNow; PoolCreate 2 (MAX_WORKERS pe); PoolExec html true])
    = Rejected e ->
  let final :=
    h1 ++ [DateNow; PoolCreate 2 (MAX_WORKERS pe); PoolExec html true;
           PoolTerminate] in
  ISRHandler pe cfg W p h = (Fulfilled None, final)
  /\ count is_cache_set final = count is_cache_set h
  /\ forall store, cache_after final store = cache_after h store.
Proof.
  intros Hb Ha Hc Ho final.
  destruct (ISRHandler_acquired p h sg rest h0 st html h1 Hb Ha)
    as (Hs & -> & Hset & Hstore).
  unfold async_fn. rewrite storeBlock_eq by exact Hs. rewrite Hc.
  cbv zeta. rewrite Ho. subst final. rewrite <- app_assoc. cbn [app].
  split; [reflexivity|]. split.
  - rewrite count_app, Hset. simpl. lia.
  - intros store. rewrite cache_after_app, Hstore. reflexivity.
Qed.

Lemma async_fn_snd (m : M (option ISSRResult) (option ISSRResult)) h :
  snd (async_fn m h) = snd (m h).
Proof. unfold async_fn. destruct (m h) as [[r|r|e|] h']; reflexivity. Qed.

(** Claim C5. In a call that has passed the budget block and whose crawl
  block has completed with status [st], [browserManager.newPage()] is
  called once when no crawl endpoint is configured or [st] is 500, and
  not at all otherwise. With an endpoint, [st] is the status
  [fetchData] resolved to; without one, nothing was fetched and [st]
  is the initial 200. *)
Theorem browser_render_iff_no_crawl_or_500 (p : IISRHandlerParam)
    (h : history) (sg rest : Z) (h0 : history) (st : Z) (html : JsValue)
    (h1 : history) :
  budgetBlock pe W (isFirstRequest p) (url p) h = (Normal (sg, rest), h0) ->
  crawlBlock cfg W (url p) sg 200 (VText []) h0 = (Normal (st, html), h1) ->
  count is_new_page (snd (ISRHandler pe cfg W p h)) =
    (count is_new_page h
     + (if negb (truthy (crawler cfg)) || (st =? 500)%Z then 1 else 0))%nat
  /\ (truthy (crawler cfg) = true ->
        exists r,
          fetchData W (default [] (crawler cfg)) crawlInit
            (Some (requestParams cfg sg (url p))) h0 = (Fulfilled r, h1)
          /\ st = fr_status r)
  /\ (truthy (crawler cfg) = false -> st = 200 /\ h1 = h0).
Proof.
  intros Hb Hc. split; [|split].
  - assert (Hh0 : h0 = h ++ [DateNow; DateNow; DateNow])
      by (eapply budgetBlock_Normal; eassumption).
    pose proof (crawlBlock_quiet (url p) sg 200 (VText []) h0) as Hq.
    cbv zeta in Hq. rewrite Hc in Hq. cbn [snd] in Hq.
    destruct Hq as (Hq & _).
    pose proof (renderBlock_quiet (isFirstRequest p) (url p) rest st html h1)
      as (Hr & _).
    rewrite ISRHandler_eq, Hb. cbn [fst snd]. rewrite async_fn_snd.
    unfold bind. rewrite acquire_eq, Hc. cbn [fst snd].
    destruct (renderBlock pe cfg W (isFirstRequest p) (url p) rest st html h1)
      as [[a|r|e|] h2]; cbn [snd] in *;
      rewrite ?storeBlock_new_pages, Hr, Hq, Hh0, count_app; simpl; lia.
  - intros Ht. rewrite crawlBlock_eq, Ht in Hc.
    pose proof (fetchData_settles W (default [] (crawler cfg)) crawlInit
                  (Some (requestParams cfg sg (url p))) h0) as Hn.
    destruct (fetchData W _ _ _ h0) as [[r|e|] h'] eqn:Hf; cbn [fst] in Hn.
    + injection Hc as <- _ <-. exists r. split; reflexivity.
    + exfalso. eapply Hn. reflexivity.
    + discriminate.
  - intros Ht. rewrite crawlBlock_eq, Ht in Hc. injection Hc as <- _ <-.
    split; reflexivity.
Qed.

(** Claim C7, amended for what is returned. On a first request that has
  passed the budget block and takes the browser path (no endpoint, or
  a crawl that ended with status 500), when
  [browserManager.newPage()] resolves to no page the handler resolves
  to nothing at once; the whole call makes no call to the cache and
  leaves the store as it was. *)
Theorem no_page_on_first_request (p : IISRHandlerParam) (h : history)
    (sg rest : Z) (h0 : history) (st : Z) (html : JsValue) (h1 : history) :
  isFirstRequest p = true ->
  budgetBlock pe W (isFirstRequest p) (url p) h = (Normal (sg, rest), h0) ->
  crawlBlock cfg W (url p) sg 200 (VText []) h0 = (Normal (st, html), h1) ->
  negb (truthy (crawler cfg)) || (st =? 500) = true ->
  newPage W (h1 ++ [NewPage]) = Fulfilled false ->
  ISRHandler pe cfg W p h = (Fulfilled None, h1 ++ [NewPage])
  /\ count is_cache_call (h1 ++ [NewPage]) = count is_cache_call h
  /\ forall store,
       cache_after (h1 ++ [NewPage]) store = cache_after h store.
Proof.
  intros Hfirst Hb Hc Hcond Hpage.
  assert (Hh0 : h0 = h ++ [DateNow; DateNow; DateNow])
    by (eapply budgetBlock_Normal; eassumption).
  pose proof (crawlBlock_quiet (url p) sg 200 (VText []) h0) as Hq.
  cbv zeta in Hq. rewrite Hc in Hq. cbn [snd] in Hq.
  destruct Hq as (_ & Hq1 & _ & _ & Hq2).
  split; [|split].
  - rewrite ISRHandler_eq, Hb. cbn [fst snd]. unfold async_fn, bind.
    rewrite acquire_eq, Hc. cbn [fst snd].
    unfold renderBlock. rewrite Hcond, Hfirst. run. rewrite Hpage.
    reflexivity.
  - rewrite count_app, Hq1, Hh0, count_app. simpl. lia.
  - intros store. rewrite cache_after_app, Hq2, Hh0, cache_after_app.
    reflexivity.
Qed.

Lemma strip_prefix_Some w : forall s r,
  strip_prefix w s = Some r -> s = w ++ r.
Proof.
  induction w as [|a w IH]; intros s r; simpl.
  - intros [= ->]. reflexivity.
  - destruct s as [|b s]; [discriminate|].
    destruct (N.eqb_spec a b) as [->|_]; [|discriminate].
    intros Hs. rewrite (IH _ _ Hs). reflexivity.
Qed.

Lemma infix_of_true w : forall s,
  infix_of w s = true -> exists a b, s = a ++ w ++ b.
Proof.
  induction s as [|c s IH]; simpl.
  - destruct (strip_prefix w []) as [r|] eqn:E; [|discriminate].
    intros _. exists [], r. apply (strip_prefix_Some _ _ _ E).
  - destruct (strip_prefix w (c :: s)) as [r|] eqn:E.
    + intros _. exists [], r. apply (strip_prefix_Some _ _ _ E).
    + intros Hs. destruct (IH Hs) as (a & b & ->). exists (c :: a), b.
      reflexivity.
Qed.

(** Every way of writing the attribute [id] with the identifier as
    its value matches the not-found pattern. *)
Lemma has_element_with_id_test s :
  has_element_with_id (NOT_FOUND_PAGE_ID pe) s = true ->
  test (regexNotFoundPageID pe) s = true.
Proof.
  unfold has_element_with_id, id_attribute_texts, ends_unquoted_value.
  intros Hs. apply test_regexNotFoundPageID.
  cbn [existsb map] in Hs.
  repeat (apply orb_prop in Hs as [Hs|Hs];
          [apply infix_of_true in Hs as (a & b & ->)|]);
    try discriminate.
  - exists a, [34%N], (34%N :: b). split; [|unfold optional_quote; auto].
    rewrite <- !app_assoc. reflexivity.
  - exists a, [39%N], (39%N :: b). split; [|unfold optional_quote; auto].
    rewrite <- !app_assoc. reflexivity.
  - exists a, [], (32%N :: b). split; [|unfold optional_quote; auto].
    rewrite <- !app_assoc. reflexivity.
  - exists a, [], (9%N :: b). split; [|unfold optional_quote; auto].
    rewrite <- !app_assoc. reflexivity.
  - exists a, [], (10%N :: b). split; [|unfold optional_quote; auto].
    rewrite <- !app_assoc. reflexivity.
  - exists a, [], (12%N :: b). split; [|unfold optional_quote; auto].
    rewrite <- !app_assoc. reflexivity.
  - exists a, [], (13%N :: b). split; [|unfold optional_quote; auto].
    rewrite <- !app_assoc. reflexivity.
  - exists a, [], (47%N :: b). split; [|unfold optional_quote; auto].
    rewrite <- !app_assoc. reflexivity.
  - exists a, [], (62%N :: b). split; [|unfold optional_quote; auto].
    rewrite <- !app_assoc. reflexivity.
Qed.

(** Claim C9, amended for what the pattern accepts. When the browser
  path is taken and the render block completes, the html it passes on
  is the document read last from the page, and the status is 404
  exactly when that document is not empty and contains the text [id=],
  an optional quote and the identifier, whatever follows; it is 200
  otherwise. Neither the status of the crawl nor that of the
  navigation enters. In particular a non-empty document that writes
  an attribute [id] with exactly the identifier is classified 404.
  The identifier is one without syntax characters. *)
Theorem not_found_by_pattern (isFirst : bool) (url : jsstring)
    (rest st0 : Z) (html0 : JsValue) (h : history)
    (st : Z) (doc : JsValue) (h' : history) :
  plain_source (NOT_FOUND_PAGE_ID pe) = true ->
  negb (truthy (crawler cfg)) || (st0 =? 500) = true ->
  renderBlock pe cfg W isFirst url rest st0 html0 h = (Normal (st, doc), h') ->
  exists content hc,
    doc = VText content
    /\ content = page_content W (hc ++ [OnPage Content])
    /\ h' = (hc ++ [OnPage Content]) ++ [OnPage Close]
    /\ (st = 404 \/ st = 200)
    /\ (st = 404 <->
         content <> []
         /\ exists before q after,
              content = before ++ js "id=" ++ q
                          ++ NOT_FOUND_PAGE_ID pe ++ after
              /\ optional_quote q)
    /\ (has_element_with_id (NOT_FOUND_PAGE_ID pe) content = true ->
         content <> [] -> st = 404).
Proof.
  intros _ Hcond. unfold renderBlock. rewrite Hcond.
  unfold navigate, waitResponse. run.
  assert (Hclass : forall content,
    let st := if truthy_string content
                 && test (regexNotFoundPageID pe) content
              then 404 else 200 in
    (st = 404 \/ st = 200)
    /\ (st = 404 <->
         content <> []
         /\ exists before q after,
              content = before ++ js "id=" ++ q
                          ++ NOT_FOUND_PAGE_ID pe ++ after
              /\ optional_quote q)
    /\ (has_element_with_id (NOT_FOUND_PAGE_ID pe) content = true ->
         content <> [] -> st = 404)).
  { intros content. cbv zeta.
    pose proof (test_regexNotFoundPageID pe content) as Ht.
    pose proof (has_element_with_id_test content) as Hi.
    destruct content as [|c t]; cbn [truthy_string andb].
    - split; [auto|]. split; [|congruence].
      split; [discriminate|]. intros [Hne _]. congruence.
    - destruct (test (regexNotFoundPageID pe) (c :: t)).
      + split; [auto|]. split; [|auto]. split; [|auto].
        intros _. split; [discriminate|]. apply Ht. reflexivity.
      + split; [auto|]. split.
        * split; [discriminate|]. intros [_ He]. apply Ht in He.
          discriminate.
        * intros Hid _. specialize (Hi Hid). discriminate. }
  paths; intros Heq; try discriminate Heq;
    injection Heq as <- <- <-; eexists _, _;
    (split; [reflexivity|]); (split; [reflexivity|]);
    (split; [reflexivity|]);
    match goal with
    | Hb : (truthy_string ?c && _) = _ |- _ =>
        let Hcl := fresh in
        pose proof (Hclass c) as Hcl; cbv zeta in Hcl;
        rewrite Hb in Hcl; exact Hcl
    end.
Qed.

End BlockFacts.

(** A few runs of the definitions on the scenarios. *)

Example json_shape_examples :
  test regexJsonShape (js "{}") = true
  /\ test regexJsonShape (js "{a}{b}") = true
  /\ test regexJsonShape (js "<html></html>") = false
  /\ test regexJsonShape (js " {}") = false
  /\ test regexJsonShape (js "{" ++ [LF] ++ js "}") = true
  /\ test regexJsonShape (js "{" ++ [LS] ++ js "}") = false.
Proof. repeat split. Qed.

Example not_found_pattern_examples :
  test (regexNotFoundPageID plain_env) marker_document = true
  /\ test (regexNotFoundPageID plain_env) (js "<p id=404-page>") = true
  /\ test (regexNotFoundPageID plain_env) (js "<p id='404-page'>") = true
  /\ test (regexNotFoundPageID plain_env) (js "<p id = 404-page>") = false
  /\ test (regexNotFoundPageID plain_env) lookalike_document = true
  /\ test (regexNotFoundPageID plain_env) (js "<html></html>") = false.
Proof. repeat split. Qed.

Example specialInfo_example :
  specialInfo
    (js "/p?botInfo=b&deviceInfo=d&localeInfo=l&environmentInfo=e&x=1")
  = [ (js "botInfo", js "b"); (js "deviceInfo", js "d");
      (js "localeInfo", js "l"); (js "environmentInfo", js "e") ]
  /\ specialInfo (js "/p?deviceInfo=d") = [].
Proof. repeat split. Qed.

Example split_head_example :
  split_head 63 (js "/product/42?x=1?y=2") = js "/product/42"
  /\ split_head 63 (js "/product/42") = js "/product/42".
Proof. repeat split. Qed.

Example cacheable_examples :
  cacheable 200 = true /\ cacheable 302 = true
  /\ cacheable 404 = false /\ cacheable 500 = false.
Proof. repeat split; vm_compute; reflexivity. Qed.

Example healthy_render :
  ISRHandler plain_env with_crawler failing_crawler_world first_request []
  = (Fulfilled (Some written_page),
     budget_read
       ++ [crawl_call 1000; ResponseText; NewPage;
           OnPage (WaitForNetworkIdle 150);
           OnPage (SetRequestInterception true); OnPage OnRequest;
           OnPage (SetExtraHTTPHeaders [(js "service", js "puppeteer")]);
           OnPage (Goto product_url); Delay 500; OnPage Content;
           AwaitQuietNetwork 500; OnPage Content; OnPage Close;
           DateNow; PoolCreate 2 7;
           PoolExec (VText (js "<html>ok</html>")) true; PoolTerminate;
           CacheSet (VText (js "<html>lean</html>")) product_url true]).
Proof. vm_compute. reflexivity. Qed.

(** ** The scenarios *)

(** A clock that jumps after the second reading: the budget is 18500 ms
    at the guard and negative when read again, and the later request is
    served from the cache. *)
Lemma stale_serve_when_budget_runs_out_witness :
  isFirstRequest later_request = false
  /\ 0 < budget_at_entry plain_env late_world []
  /\ budget_reread plain_env late_world [] <= 0
  /\ ISRHandler plain_env no_crawler late_world later_request [] =
       (Fulfilled (Some cached_page),
        budget_read ++ [CacheAchieve product_url]).
Proof.
  assert (H0 : isFirstRequest later_request = false) by reflexivity.
  assert (H1 : 0 < budget_at_entry plain_env late_world [])
    by (vm_compute; reflexivity).
  assert (H2 : budget_reread plain_env late_world [] <= 0)
    by (vm_compute; discriminate).
  split; [exact H0|]. split; [exact H1|]. split; [exact H2|].
  exact (proj1 (stale_serve_when_budget_runs_out plain_env no_crawler
                  late_world later_request [] H0) H1 H2).
Defined.

(** Claim C1 fails as stated. With [DURATION_TIMEOUT=1500] the budget
    is 0 at the guard of line 138: the call for a later request resolves
    to nothing after two readings of the clock and never asks the cache,
    which would have answered with [cached_page]. *)
Lemma entry_guard_serves_nothing :
  isFirstRequest later_request = false
  /\ budget_at_entry tight_env idle_world [] <= 0
  /\ ISRHandler tight_env no_crawler idle_world later_request [] =
       (Fulfilled None, [DateNow; DateNow])
  /\ cache_achieve idle_world [DateNow; DateNow; CacheAchieve product_url]
     = Some cached_page.
Proof. repeat split. vm_compute. discriminate. Qed.

(** An endpoint that answers 404. *)
Lemma uncacheable_status_evicts_witness :
  let acquired := budget_read ++ [crawl_call 1000; ResponseText] in
  budgetBlock plain_env gone_world true product_url []
    = (Normal (1000, 18500), budget_read)
  /\ acquire plain_env with_crawler gone_world true product_url 1000 18500
       budget_read
     = (Normal (404, VText (js "<html>gone</html>")), acquired)
  /\ 404 <> 200 /\ 404 <> 302
  /\ ISRHandler plain_env with_crawler gone_world first_request [] =
       (Fulfilled (Some (mkResult 404 (Some (VText (js "Page not found!"))))),
        acquired ++ [DateNow; CacheRemove product_url]).
Proof.
  intros acquired.
  assert (Hb : budgetBlock plain_env gone_world true product_url []
               = (Normal (1000, 18500), budget_read)) by reflexivity.
  assert (Ha : acquire plain_env with_crawler gone_world true product_url
                 1000 18500 budget_read
               = (Normal (404, VText (js "<html>gone</html>")), acquired))
    by reflexivity.
  assert (H200 : 404 <> 200) by discriminate.
  assert (H302 : 404 <> 302) by discriminate.
  split; [exact Hb|]. split; [exact Ha|].
  split; [exact H200|]. split; [exact H302|].
  exact (proj1 (uncacheable_status_evicts plain_env with_crawler gone_world
                  first_request [] 1000 18500 budget_read 404
                  (VText (js "<html>gone</html>")) acquired
                  Hb Ha H200 H302)).
Defined.

(** An endpoint that answers 200 and an optimizer that fails. *)
Lemma optimizer_failure_writes_nothing_witness :
  let acquired := budget_read ++ [crawl_call 1000; ResponseText] in
  let page := VText (js "<html>ok</html>") in
  budgetBlock plain_env unoptimized_world true product_url []
    = (Normal (1000, 18500), budget_read)
  /\ acquire plain_env with_crawler unoptimized_world true product_url
       1000 18500 budget_read
     = (Normal (200, page), acquired)
  /\ cacheable 200 = true
  /\ optimizeContent unoptimized_world
       (acquired ++ [DateNow; PoolCreate 2 (MAX_WORKERS plain_env);
                     PoolExec page true])
     = Rejected boom
  /\ ISRHandler plain_env with_crawler unoptimized_world first_request [] =
       (Fulfilled None,
        acquired ++ [DateNow; PoolCreate 2 (MAX_WORKERS plain_env);
                     PoolExec page true; PoolTerminate]).
Proof.
  intros acquired page.
  assert (Hb : budgetBlock plain_env unoptimized_world true product_url []
               = (Normal (1000, 18500), budget_read)) by reflexivity.
  assert (Ha : acquire plain_env with_crawler unoptimized_world true
                 product_url 1000 18500 budget_read
               = (Normal (200, page), acquired)) by reflexivity.
  assert (Hc : cacheable 200 = true) by (vm_compute; reflexivity).
  assert (Ho : optimizeContent unoptimized_world
                 (acquired ++ [DateNow; PoolCreate 2 (MAX_WORKERS plain_env);
                               PoolExec page true])
               = Rejected boom) by reflexivity.
  split; [exact Hb|]. split; [exact Ha|]. split; [exact Hc|].
  split; [exact Ho|].
  exact (proj1 (optimizer_failure_writes_nothing plain_env with_crawler
                  unoptimized_world first_request [] 1000 18500 budget_read
                  200 page acquired boom Hb Ha Hc Ho)).
Defined.

(** An endpoint that cannot be reached. *)
Lemma fetchData_never_rejects_witness :
  let input := js "https://crawler.example.com" in
  fetch_status offline_world [Fetch input None crawlInit] = Rejected boom
  /\ fst (fetchData offline_world input crawlInit None [])
     = Fulfilled (mkFetchResult 500 (VText [])).
Proof.
  intros input.
  assert (Hf : fetch_status offline_world [Fetch input None crawlInit]
               = Rejected boom) by reflexivity.
  split; [exact Hf|].
  exact (proj1 (proj2 (fetchData_never_rejects offline_world input crawlInit
                         None [])) boom Hf).
Defined.

(** An endpoint that answers 500: the browser is asked for one page. *)
Lemma browser_render_iff_no_crawl_or_500_witness :
  let crawled := budget_read ++ [crawl_call 1000; ResponseText] in
  budgetBlock plain_env failing_crawler_world true product_url []
    = (Normal (1000, 18500), budget_read)
  /\ crawlBlock with_crawler failing_crawler_world product_url 1000 200
       (VText []) budget_read
     = (Normal (500, VText (js "oops")), crawled)
  /\ count is_new_page
       (snd (ISRHandler plain_env with_crawler failing_crawler_world
               first_request []))
     = 1%nat.
Proof.
  intros crawled.
  assert (Hb : budgetBlock plain_env failing_crawler_world true product_url []
               = (Normal (1000, 18500), budget_read)) by reflexivity.
  assert (Hc : crawlBlock with_crawler failing_crawler_world product_url 1000
                 200 (VText []) budget_read
               = (Normal (500, VText (js "oops")), crawled)) by reflexivity.
  split; [exact Hb|]. split; [exact Hc|].
  exact (proj1 (browser_render_iff_no_crawl_or_500 plain_env with_crawler
                  failing_crawler_world first_request [] 1000 18500
                  budget_read 500 (VText (js "oops")) crawled Hb Hc)).
Defined.

(** No endpoint and no page, on a first request. *)
Lemma no_page_on_first_request_witness :
  isFirstRequest first_request = true
  /\ budgetBlock plain_env idle_world true product_url []
     = (Normal (1000, 18500), budget_read)
  /\ crawlBlock no_crawler idle_world product_url 1000 200 (VText [])
       budget_read
     = (Normal (200, VText []), budget_read)
  /\ negb (truthy (crawler no_crawler)) || (200 =? 500) = true
  /\ newPage idle_world (budget_read ++ [NewPage]) = Fulfilled false
  /\ ISRHandler plain_env no_crawler idle_world first_request []
     = (Fulfilled None, budget_read ++ [NewPage]).
Proof.
  assert (H0 : isFirstRequest first_request = true) by reflexivity.
  assert (Hb : budgetBlock plain_env idle_world true product_url []
               = (Normal (1000, 18500), budget_read)) by reflexivity.
  assert (Hc : crawlBlock no_crawler idle_world product_url 1000 200
                 (VText []) budget_read
               = (Normal (200, VText []), budget_read)) by reflexivity.
  assert (Hd : negb (truthy (crawler no_crawler)) || (200 =? 500) = true)
    by reflexivity.
  assert (Hp : newPage idle_world (budget_read ++ [NewPage])
               = Fulfilled false) by reflexivity.
  split; [exact H0|]. split; [exact Hb|]. split; [exact Hc|].
  split; [exact Hd|]. split; [exact Hp|].
  exact (proj1 (no_page_on_first_request plain_env no_crawler idle_world
                  first_request [] 1000 18500 budget_read 200 (VText [])
                  budget_read H0 Hb Hc Hd Hp)).
Defined.

(** Claim C7 fails as stated. On a first request without an endpoint and
    without a page, the handler resolves to nothing, not to
    [{ status: 500 }]. *)
Lemma no_page_is_not_status_500 :
  isFirstRequest first_request = true
  /\ newPage idle_world (budget_read ++ [NewPage]) = Fulfilled false
  /\ ISRHandler plain_env no_crawler idle_world first_request []
     = (Fulfilled None, budget_read ++ [NewPage])
  /\ fst (ISRHandler plain_env no_crawler idle_world first_request [])
     <> Fulfilled (Some (mkResult 500 None)).
Proof. repeat split. discriminate. Qed.

(** A body that is the empty object is handed to [JSON.parse]. *)
Lemma body_decoded_iff_json_shape_witness :
  let input := js "https://crawler.example.com" in
  let read := [Fetch input None crawlInit; ResponseText] in
  fetch_status json_world [Fetch input None crawlInit] = Fulfilled 200
  /\ response_text json_world read = Fulfilled (js "{}")
  /\ shape_test_throws json_world (js "{}") = false
  /\ snd (fetchData json_world input crawlInit None [])
     = read ++ [JsonParse (js "{}")].
Proof.
  intros input read.
  assert (Hs : fetch_status json_world ([] ++ [Fetch input None crawlInit])
               = Fulfilled 200) by reflexivity.
  assert (Ht : response_text json_world
                 ([] ++ [Fetch input None crawlInit; ResponseText])
               = Fulfilled (js "{}")) by reflexivity.
  assert (Hn : shape_test_throws json_world (js "{}") = false)
    by reflexivity.
  split; [exact Hs|]. split; [exact Ht|]. split; [exact Hn|].
  exact (proj1 (proj1 (body_decoded_iff_json_shape json_world input
                         crawlInit None [] 200 (js "{}") Hs Ht) Hn)).
Defined.

(** Claim C8 fails as stated. The body of [separator_world] is one JSON
    object from its first to its last code unit, and [JSON.parse]
    accepts it; its only string holds the line separator U+2028, so
    the test of line 60 fails, [JSON.parse] is never called, and the
    body goes on as text. *)
Lemma json_object_with_line_separator_stays_text :
  let input := js "https://crawler.example.com" in
  separator_body
    = 123%N :: (js_quoted (js "a") ++ js ":" ++ js_quoted [LS]) ++ [125%N]
  /\ JSON_parse separator_world separator_body = Some separator_document
  /\ shape_test_throws separator_world separator_body = false
  /\ test regexJsonShape separator_body = false
  /\ fetchData separator_world input crawlInit None []
     = (Fulfilled (mkFetchResult 200 (VText separator_body)),
        [Fetch input None crawlInit; ResponseText]).
Proof. repeat split. Qed.

(** A page whose document carries the marker. *)
Lemma not_found_by_pattern_witness :
  plain_source (NOT_FOUND_PAGE_ID plain_env) = true
  /\ negb (truthy (crawler no_crawler)) || (200 =? 500) = true
  /\ exists h',
       renderBlock plain_env no_crawler marker_world true product_url 18500
         200 (VText []) budget_read
       = (Normal (404, VText marker_document), h')
       /\ exists content hc,
            VText marker_document = VText content
            /\ content = page_content marker_world (hc ++ [OnPage Content])
            /\ h' = (hc ++ [OnPage Content]) ++ [OnPage Close].
Proof.
  assert (Hp : plain_source (NOT_FOUND_PAGE_ID plain_env) = true)
    by (vm_compute; reflexivity).
  assert (Hd : negb (truthy (crawler no_crawler)) || (200 =? 500) = true)
    by reflexivity.
  split; [exact Hp|]. split; [exact Hd|].
  eexists. split; [vm_compute; reflexivity|].
  destruct (not_found_by_pattern plain_env no_crawler marker_world true
              product_url 18500 200 (VText []) budget_read 404
              (VText marker_document) _ Hp Hd eq_refl)
    as (content & hc & H1 & H2 & H3 & _).
  exists content, hc. split; [exact H1|]. split; [exact H2|exact H3].
Defined.

(** Claim C9 fails as stated. The only id of [lookalike_document] is
    [404-pages]: no element has the identifier [404-page] as its id, yet
    the render block classifies the document 404 and the handler
    answers [Page not found!]. *)
Lemma longer_id_classified_not_found :
  renderBlock plain_env no_crawler lookalike_world true product_url 18500
    200 (VText []) budget_read
  = (Normal (404, VText lookalike_document),
     budget_read
       ++ [NewPage; OnPage (WaitForNetworkIdle 150);
           OnPage (SetRequestInterception true); OnPage OnRequest;
           OnPage (SetExtraHTTPHeaders [(js "service", js "puppeteer")]);
           OnPage (Goto product_url); Delay 500; OnPage Content;
           OnPage Content; OnPage Close])
  /\ lookalike_document <> []
  /\ has_element_with_id (NOT_FOUND_PAGE_ID plain_env) lookalike_document
     = false
  /\ fst (ISRHandler plain_env no_crawler lookalike_world first_request [])
     = Fulfilled (Some (mkResult 404 (Some (VText (js "Page not found!"))))).
Proof.
  split; [vm_compute; reflexivity|].
  split; [vm_compute; discriminate|].
  split; vm_compute; reflexivity.
Qed.

(** A steady clock and the default budget. *)
Lemma budget_measured_from_entry_witness :
  entry_time idle_world [] <> 0
  /\ gapDurationDefault + elapsed_at_entry idle_world []
       < DURATION_TIMEOUT plain_env
  /\ gapDurationDefault + elapsed_at_reread idle_world []
       < DURATION_TIMEOUT plain_env
  /\ budgetBlock plain_env idle_world (isFirstRequest later_request)
       (url later_request) []
     = (Normal (entry_time idle_world [],
                budget_reread plain_env idle_world []),
        [] ++ [DateNow; DateNow; DateNow]).
Proof.
  assert (H0 : entry_time idle_world [] <> 0) by discriminate.
  assert (H1 : gapDurationDefault + elapsed_at_entry idle_world []
               < DURATION_TIMEOUT plain_env) by reflexivity.
  assert (H2 : gapDurationDefault + elapsed_at_reread idle_world []
               < DURATION_TIMEOUT plain_env) by reflexivity.
  split; [exact H0|]. split; [exact H1|]. split; [exact H2|].
  exact (proj1 (proj2 (budget_measured_from_entry plain_env no_crawler
                         idle_world later_request []) H0 H1 H2)).
Defined.

(** Claim C10 fails as stated. With a clock that reads 0 at entry no
    time is spent and the default budget of 20000 ms exceeds the
    1500 ms by far, yet [getRestOfDuration] takes the start of 0 for a
    missing one and gives 0: the handler leaves at line 138 with
    nothing after one reading of the clock. *)
Lemma clock_at_zero_leaves_at_entry :
  entry_time epoch_world [] = 0
  /\ gapDurationDefault + elapsed_at_entry epoch_world []
       < DURATION_TIMEOUT plain_env
  /\ gapDurationDefault + elapsed_at_reread epoch_world []
       < DURATION_TIMEOUT plain_env
  /\ budgetBlock plain_env epoch_world (isFirstRequest later_request)
       (url later_request) []
     = (Return None, [DateNow])
  /\ ISRHandler plain_env no_crawler epoch_world later_request []
     = (Fulfilled None, [DateNow]).
Proof. repeat split. Qed.

(* ===================================================================== *)
(** * Further properties of the code *)
(* ===================================================================== *)

(** ** What each block adds to the history *)

Lemma count_none f g evs :
  (forall ev, g ev = true -> f ev = false) ->
  forallb g evs = true -> count f evs = 0%nat.
Proof.
  intros Hfg. induction evs as [|ev evs IH]; simpl; [reflexivity|].
  intros Hg. apply andb_prop in Hg as [Hev Hevs].
  rewrite (Hfg _ Hev), (IH Hevs). reflexivity.
Qed.

(** [paths], with the projections of the pairs reduced on the way. *)
Ltac explore := cbn [fst snd]; repeat (branch; cbn [fst snd]).

(** Closes a goal [exists evs, h' = h ++ evs /\ ...] where [h'] is [h]
    with single entries appended. *)
Ltac extension :=
  rewrite <- ?app_assoc; cbn [app];
  first [ eexists; split; [reflexivity|]
        | exists []; split; [symmetry; apply app_nil_r|] ].

Section Extensions.
Variable pe : ProcessEnv.
Variable cfg : ServerConfig.
Variable W : World.

Lemma budgetBlock_extends isFirst url h :
  exists evs,
    snd (budgetBlock pe W isFirst url h) = h ++ evs
    /\ forallb (fun ev => is_date_now ev || is_cache_achieve ev) evs = true.
Proof.
  rewrite budgetBlock_eq. paths; cbn [snd]; extension; reflexivity.
Qed.

Lemma crawlBlock_extends url sg st html h :
  exists evs,
    snd (crawlBlock cfg W url sg st html h) = h ++ evs
    /\ forallb is_crawl_event evs = true
    /\ count is_fetch evs = (if truthy (crawler cfg) then 1 else 0)%nat
    /\ (truthy (crawler cfg) = false -> evs = []).
Proof.
  rewrite crawlBlock_eq, fetchData_eq. cbv zeta.
  paths; cbn [snd]; extension; repeat split; congruence.
Qed.

Lemma crawlBlock_completes url sg st html h :
  match fst (crawlBlock cfg W url sg st html h) with
  | Normal _ | Stuck => True
  | _ => False
  end.
Proof.
  rewrite crawlBlock_eq, fetchData_eq. cbv zeta. explore; exact I.
Qed.

Lemma renderBlock_extends isFirst url rest st html h :
  exists evs,
    snd (renderBlock pe cfg W isFirst url rest st html h) = h ++ evs
    /\ forallb is_render_event evs = true.
Proof.
  unfold renderBlock, navigate, waitResponse. run.
  paths; cbn [snd]; extension; reflexivity.
Qed.

End Extensions.

Section HandlerRuns.
Variable pe : ProcessEnv.
Variable cfg : ServerConfig.
Variable W : World.

(** The run of the handler, block by block. *)
Lemma ISRHandler_run p h :
  (exists r h0,
     budgetBlock pe W (isFirstRequest p) (url p) h = (Return r, h0)
     /\ ISRHandler pe cfg W p h = (Fulfilled r, h0))
  \/ (exists sg rest h0,
        budgetBlock pe W (isFirstRequest p) (url p) h
          = (Normal (sg, rest), h0)
        /\ ((exists h1,
               crawlBlock cfg W (url p) sg 200 (VText []) h0 = (Stuck, h1)
               /\ ISRHandler pe cfg W p h = (Unsettled, h1))
            \/ (exists st html h1 c2 h2,
                  crawlBlock cfg W (url p) sg 200 (VText []) h0
                    = (Normal (st, html), h1)
                  /\ renderBlock pe cfg W (isFirstRequest p) (url p) rest
                       st html h1 = (c2, h2)
                  /\ ISRHandler pe cfg W p h =
                       match c2 with
                       | Normal a =>
                           async_fn
                             (storeBlock pe W (url p) sg (fst a) (snd a)) h2
                       | Return r => (Fulfilled r, h2)
                       | Throw e => (Rejected e, h2)
                       | Stuck => (Unsettled, h2)
                       end))).
Proof.
  rewrite ISRHandler_eq.
  pose proof (budgetBlock_eq pe W (isFirstRequest p) (url p) h) as Hbe.
  destruct (budgetBlock pe W (isFirstRequest p) (url p) h)
    as [[[sg rest]|r|e|] h0] eqn:Hb.
  - right. exists sg, rest, h0. split; [reflexivity|].
    cbn [fst snd]. unfold async_fn, bind. rewrite acquire_eq.
    pose proof (crawlBlock_completes cfg W (url p) sg 200 (VText []) h0) as Hk.
    destruct (crawlBlock cfg W (url p) sg 200 (VText []) h0)
      as [[[st html]|r|e|] h1] eqn:Hc; cbn [fst] in Hk; try contradiction.
    + right. exists st, html, h1. cbn [fst snd].
      destruct (renderBlock pe cfg W (isFirstRequest p) (url p) rest st html h1)
        as [c2 h2] eqn:Hr.
      exists c2, h2. split; [reflexivity|]. split; [reflexivity|].
      destruct c2; reflexivity.
    + left. exists h1. split; reflexivity.
  - left. exists r, h0. split; reflexivity.
  - exfalso. revert Hbe. paths; discriminate.
  - exfalso. revert Hbe. paths; discriminate.
Qed.


(** A call that passed the budget block and whose crawl block is over:
    where its history stands. *)
Lemma crawled_history p h sg rest h0 c h1 :
  budgetBlock pe W (isFirstRequest p) (url p) h = (Normal (sg, rest), h0) ->
  crawlBlock cfg W (url p) sg 200 (VText []) h0 = (c, h1) ->
  sg <> 0
  /\ exists evs,
       h1 = h ++ [DateNow; DateNow; DateNow] ++ evs
       /\ forallb is_crawl_event evs = true
       /\ count is_fetch evs = (if truthy (crawler cfg) then 1 else 0)%nat
       /\ (truthy (crawler cfg) = false -> evs = []).
Proof.
  intros Hb Hc.
  destruct (budgetBlock_Normal _ _ _ _ _ _ _ _ Hb) as (_ & Hs & _ & _ & _ & ->).
  split; [exact Hs|].
  destruct (crawlBlock_extends cfg W (url p) sg 200 (VText [])
              (h ++ [DateNow; DateNow; DateNow]))
    as (evs & He & Hq & Hf & Hn).
  rewrite Hc in He. cbn [snd] in He. exists evs.
  rewrite He, <- app_assoc. auto.
Qed.

Lemma crawl_events_no_cache evs :
  forallb is_crawl_event evs = true -> count is_cache_call evs = 0%nat.
Proof. apply count_none. intros []; simpl; congruence. Qed.


(** The history of a call, block by block. *)
Lemma ISRHandler_history p h :
  let run := ISRHandler pe cfg W p h in
  exists evs_b evs_c evs_r evs_s,
    snd run = h ++ evs_b ++ evs_c ++ evs_r ++ evs_s
    /\ forallb (fun ev => is_date_now ev || is_cache_achieve ev) evs_b = true
    /\ forallb is_crawl_event evs_c = true
    /\ count is_fetch evs_c =
         (match fst (budgetBlock pe W (isFirstRequest p) (url p) h) with
          | Normal _ => if truthy (crawler cfg) then 1 else 0
          | _ => 0
          end)%nat
    /\ (truthy (crawler cfg) = false -> evs_c = [])
    /\ forallb is_render_event evs_r = true
    /\ (evs_s = []
        \/ (evs_s = [DateNow; CacheRemove (url p)])
        \/ (exists doc,
              evs_s = [DateNow; PoolCreate 2 (MAX_WORKERS pe);
                       PoolExec doc true]
              /\ fst run = Unsettled)
        \/ (exists doc,
              evs_s = [DateNow; PoolCreate 2 (MAX_WORKERS pe);
                       PoolExec doc true; PoolTerminate]
              /\ fst run = Fulfilled None)
        \/ (exists doc lean,
              evs_s = [DateNow; PoolCreate 2 (MAX_WORKERS pe);
                       PoolExec doc true; PoolTerminate;
                       CacheSet (VText lean) (url p) true])).
Proof.
  cbv zeta.
  destruct (ISRHandler_run p h)
    as [(r & h0 & Hb & ->)
       |(sg & rest & h0 & Hb
         & [(h1 & Hc & ->)
           |(st & html & h1 & c2 & h2 & Hc & Hr & ->)])].
  - destruct (budgetBlock_extends pe W (isFirstRequest p) (url p) h)
      as (evs & He & Hq).
    rewrite Hb in He |- *. cbn [fst snd] in *. subst h0.
    exists evs, [], [], []. rewrite !app_nil_r. repeat split; auto.
  - destruct (crawled_history p h sg rest h0 _ h1 Hb Hc)
      as (_ & evs & -> & Hq & Hf & Hn).
    exists [DateNow; DateNow; DateNow], evs, [], []. rewrite Hb.
    cbn [fst snd]. rewrite !app_nil_r. repeat split; auto.
  - destruct (crawled_history p h sg rest h0 _ h1 Hb Hc)
      as (Hs & evs & -> & Hq & Hf & Hn).
    destruct (renderBlock_extends pe cfg W (isFirstRequest p) (url p) rest
                st html (h ++ [DateNow; DateNow; DateNow] ++ evs))
      as (evs2 & He2 & Hq2).
    rewrite Hr in He2. cbn [snd] in He2. subst h2.
    exists [DateNow; DateNow; DateNow], evs, evs2. rewrite Hb.
    destruct c2 as [[st2 doc2]|r|e|]; cbn [fst snd].
    + unfold async_fn. rewrite storeBlock_eq by exact Hs.
      destruct (cacheable st2); cbv zeta.
      * destruct (optimizeContent W _) as [lean|e|]; cbn [fst snd];
          eexists; (split; [rewrite <- !app_assoc; reflexivity|]);
          repeat (split; [assumption || reflexivity|]).
        -- do 4 right. eauto.
        -- do 3 right. left. eauto.
        -- do 2 right. left. eauto.
      * cbn [fst snd]. eexists.
        split; [rewrite <- !app_assoc; reflexivity|].
        repeat (split; [assumption || reflexivity|]). right. left. reflexivity.
    + exists []. rewrite !app_nil_r.
      split; [rewrite <- !app_assoc; reflexivity|]. repeat split; auto.
    + exists []. rewrite !app_nil_r.
      split; [rewrite <- !app_assoc; reflexivity|]. repeat split; auto.
    + exists []. rewrite !app_nil_r.
      split; [rewrite <- !app_assoc; reflexivity|]. repeat split; auto.
Qed.

Lemma budget_events_quiet f evs :
  (forall ev, is_date_now ev || is_cache_achieve ev = true -> f ev = false) ->
  forallb (fun ev => is_date_now ev || is_cache_achieve ev) evs = true ->
  count f evs = 0%nat.
Proof. intros Hf. apply count_none. exact Hf. Qed.

(** Property X2. A call of [ISRHandler] creates at most one worker pool
  and never terminates more pools than it created; when its promise
  settles, every pool it created has been terminated. The pool is left
  running only while the job of the optimizer never settles. *)
Theorem pool_terminated_when_settled (p : IISRHandlerParam) (h : history) :
  let run := ISRHandler pe cfg W p h in
  exists evs,
    snd run = h ++ evs
    /\ (count is_pool_create evs <= 1)%nat
    /\ (count is_pool_terminate evs <= count is_pool_create evs)%nat
    /\ (fst run <> Unsettled ->
        count is_pool_terminate evs = count is_pool_create evs).
Proof.
  cbv zeta.
  destruct (ISRHandler_history p h)
    as (eb & ec & er & es & -> & Hb & Hc & _ & _ & Hr & Hs).
  exists (eb ++ ec ++ er ++ es). split; [reflexivity|].
  assert (Hq : forall f,
             (forall ev, f ev = true -> is_pool_call ev = true) ->
             count f (eb ++ ec ++ er ++ es) = count f es).
  { intros f Hf.
    assert (Hn : forall g evs,
               (forall ev, g ev = true -> is_pool_call ev = false) ->
               forallb g evs = true -> count f evs = 0%nat).
    { intros g evs Hg. apply count_none. intros ev Hev.
      destruct (f ev) eqn:E; [|reflexivity].
      specialize (Hg ev Hev). rewrite (Hf _ E) in Hg. discriminate. }
    rewrite !count_app.
    rewrite (Hn (fun ev => is_date_now ev || is_cache_achieve ev) eb)
      by (try exact Hb; intros []; simpl; congruence).
    rewrite (Hn is_crawl_event ec)
      by (try exact Hc; intros []; simpl; congruence).
    rewrite (Hn is_render_event er)
      by (try exact Hr; intros []; simpl; congruence).
    reflexivity. }
  rewrite (Hq is_pool_create) by (intros []; simpl; congruence).
  rewrite (Hq is_pool_terminate) by (intros []; simpl; congruence).
  destruct Hs as [->|[->|[(doc & -> & Hu)|[(doc & -> & _)|(doc & lean & ->)]]]];
    simpl; repeat split; try lia.
  intros Hn. contradiction.
Qed.

Lemma store_events_no_crawl p evs run :
  (evs = []
   \/ (evs = [DateNow; CacheRemove (url p)])
   \/ (exists doc,
         evs = [DateNow; PoolCreate 2 (MAX_WORKERS pe); PoolExec doc true]
         /\ run = @Unsettled (option ISSRResult))
   \/ (exists doc,
         evs = [DateNow; PoolCreate 2 (MAX_WORKERS pe); PoolExec doc true;
                PoolTerminate]
         /\ run = Fulfilled None)
   \/ (exists doc lean,
         evs = [DateNow; PoolCreate 2 (MAX_WORKERS pe); PoolExec doc true;
                PoolTerminate; CacheSet (VText lean) (url p) true])) ->
  forallb (fun ev => negb (is_acquisition ev)) evs = true.
Proof.
  intros [->|[->|[(doc & -> & _)|[(doc & -> & _)|(doc & lean & ->)]]]];
    reflexivity.
Qed.

(** Property X3. A call of [ISRHandler] sends exactly one request to the
  crawl endpoint when it passes the budget block and
  [ServerConfig.crawler] is set, and none otherwise; without an
  endpoint its history has no request, no reading of a body and no
  [JSON.parse]. *)
Theorem crawl_only_when_configured (p : IISRHandlerParam) (h : history) :
  let run := ISRHandler pe cfg W p h in
  exists evs,
    snd run = h ++ evs
    /\ count is_fetch evs =
         (match fst (budgetBlock pe W (isFirstRequest p) (url p) h) with
          | Normal _ => if truthy (crawler cfg) then 1 else 0
          | _ => 0
          end)%nat
    /\ (truthy (crawler cfg) = false -> count is_crawl_event evs = 0%nat).
Proof.
  cbv zeta.
  destruct (ISRHandler_history p h)
    as (eb & ec & er & es & -> & Hb & Hc & Hf & Hn & Hr & Hs).
  exists (eb ++ ec ++ er ++ es). split; [reflexivity|].
  pose proof (store_events_no_crawl p es _ Hs) as Hes.
  assert (Hq : forall f,
             (forall ev, f ev = true -> is_crawl_event ev = true) ->
             count f (eb ++ ec ++ er ++ es) = count f ec).
  { intros f Hfc.
    assert (Hz : forall g evs,
               (forall ev, g ev = true -> is_crawl_event ev = false) ->
               forallb g evs = true -> count f evs = 0%nat).
    { intros g evs Hg. apply count_none. intros ev Hev.
      destruct (f ev) eqn:E; [|reflexivity].
      specialize (Hg ev Hev). rewrite (Hfc _ E) in Hg. discriminate. }
    rewrite !count_app.
    rewrite (Hz (fun ev => is_date_now ev || is_cache_achieve ev) eb)
      by (try exact Hb; intros []; simpl; congruence).
    rewrite (Hz is_render_event er)
      by (try exact Hr; intros []; simpl; congruence).
    rewrite (Hz (fun ev => negb (is_acquisition ev)) es)
      by (try exact Hes; intros []; simpl; congruence).
    lia. }
  split.
  - rewrite (Hq is_fetch) by (intros []; simpl; congruence). exact Hf.
  - intros Ht. rewrite (Hq is_crawl_event) by auto. rewrite (Hn Ht).
    reflexivity.
Qed.

End HandlerRuns.

Section BrowserPath.
Variable pe : ProcessEnv.
Variable cfg : ServerConfig.
Variable W : World.

(** A call sent to the browser is what its render block makes of it. *)
Lemma ISRHandler_rendered p h rest st html h1 :
  enters_browser pe cfg W p h rest st html h1 ->
  (exists sg,
     sg = entry_time W h
     /\ sg <> 0
     /\ ISRHandler pe cfg W p h =
          match renderBlock pe cfg W (isFirstRequest p) (url p) rest
                  st html h1 with
          | (Normal a, h2) =>
              async_fn (storeBlock pe W (url p) sg (fst a) (snd a)) h2
          | (Return r, h2) => (Fulfilled r, h2)
          | (Throw e, h2) => (Rejected e, h2)
          | (Stuck, h2) => (Unsettled, h2)
          end)
  /\ count is_cache_call h1 = count is_cache_call h
  /\ forall store, cache_after h1 store = cache_after h store.
Proof.
  intros (sg & h0 & Hb & Hc & _).
  destruct (budgetBlock_Normal _ _ _ _ _ _ _ _ Hb) as (Hsg & _).
  destruct (crawled_history pe cfg W p h sg rest h0 _ h1 Hb Hc)
    as (Hs & evs & -> & Hq & _ & _).
  split; [|split].
  - exists sg. split; [exact Hsg|]. split; [exact Hs|].
    rewrite ISRHandler_eq, Hb. cbn [fst snd]. unfold async_fn, bind.
    rewrite acquire_eq, Hc. cbn [fst snd].
    destruct (renderBlock _ _ _ _ _ _ _ _ _) as [[a|r|e|] h2]; reflexivity.
  - rewrite !count_app, (crawl_events_no_cache _ Hq). simpl. lia.
  - intros store. pose proof (crawlBlock_quiet cfg W (url p) sg 200 (VText []) h0)
      as Hk. cbv zeta in Hk. rewrite Hc in Hk. cbn [snd] in Hk.
    destruct Hk as (_ & _ & _ & _ & Hk). rewrite Hk.
    destruct (budgetBlock_Normal _ _ _ _ _ _ _ _ Hb) as (_ & _ & _ & _ & _ & ->).
    rewrite cache_after_app. reflexivity.
Qed.

(** Unfolds the render block of a call sent to the browser, with the
    histories flattened. *)
Ltac render Hcond :=
  unfold renderBlock, navigate, waitResponse; rewrite Hcond; run;
  rewrite <- ?app_assoc; cbn [app].

(** Property X7. A request that is not the first one, sent to the
  browser when [browserManager.newPage()] resolves to no page, is
  answered with what [cacheManager.achieve(url)] resolves to, right
  after the request for the page; the entries of the cache are what
  they were before the call. *)
Theorem stale_serve_without_page (p : IISRHandlerParam) (h : history)
    (rest st : Z) (html : JsValue) (h1 : history) :
  isFirstRequest p = false ->
  enters_browser pe cfg W p h rest st html h1 ->
  newPage W (h1 ++ [NewPage]) = Fulfilled false ->
  let final := h1 ++ [NewPage; CacheAchieve (url p)] in
  ISRHandler pe cfg W p h = (Fulfilled (cache_achieve W final), final)
  /\ forall store, cache_after final store = cache_after h store.
Proof.
  intros Hfirst He Hpage final.
  destruct (ISRHandler_rendered p h rest st html h1 He)
    as ((sg & _ & _ & ->) & _ & Hstore).
  destruct He as (_ & _ & _ & _ & Hcond).
  render Hcond. rewrite Hpage, Hfirst. cbn [negb]. flat.
  split; [reflexivity|]. intros store. subst final.
  rewrite cache_after_app, Hstore. reflexivity.
Qed.

(** Property X8. When one of the awaited calls of lines 206-228
  ([waitForNetworkIdle], [setRequestInterception],
  [setExtraHTTPHeaders]) rejects, the handler calls [page.close()]
  next and resolves to [{ status: 500 }]; when that [page.close()]
  rejects too, the handler rejects with its error. The cache is not
  called. *)
Theorem setup_failure_answers_500 (p : IISRHandlerParam) (h : history)
    (rest st : Z) (html : JsValue) (h1 done : history) (e : JsError) :
  enters_browser pe cfg W p h rest st html h1 ->
  newPage W (h1 ++ [NewPage]) = Fulfilled true ->
  setup_fails W (url p) h1 done e ->
  let final := h1 ++ done ++ [OnPage Close] in
  ISRHandler pe cfg W p h =
    (match page_rejects W final with
     | None => Fulfilled (Some (mkResult 500 None))
     | Some e' => Rejected e'
     end, final)
  /\ count is_cache_call final = count is_cache_call h.
Proof.
  intros He Hpage Hfail final.
  destruct (ISRHandler_rendered p h rest st html h1 He)
    as ((sg & _ & _ & ->) & Hcache & _).
  destruct He as (_ & _ & _ & _ & Hcond).
  split.
  - render Hcond. rewrite Hpage. cbn [negb]. flat. subst final.
    destruct Hfail as [(-> & H1)|[(-> & H1 & H2)|(-> & H1 & H2 & H3)]];
      unfold page_setup in *; cbn [app] in *.
    + rewrite H1. flat. match goal with
      | |- context [page_rejects W ?x] => destruct (page_rejects W x)
      end; reflexivity.
    + rewrite H1. flat. rewrite H2. flat.
      match goal with
      | |- context [page_rejects W ?x] => destruct (page_rejects W x)
      end; reflexivity.
    + rewrite H1. flat. rewrite H2. flat. rewrite H3. flat.
      match goal with
      | |- context [page_rejects W ?x] => destruct (page_rejects W x)
      end; reflexivity.
  - subst final. rewrite !count_app, Hcache.
    destruct Hfail as [(-> & _)|[(-> & _)|(-> & _)]]; simpl; lia.
Qed.

(** Property X9. When [page.goto] rejects with an error whose name is
  not [TimeoutError], the handler closes the page and resolves to
  [{ status: 500 }] without calling the cache and without asking the
  page for its document. *)
Theorem navigation_error_is_fatal (p : IISRHandlerParam) (h : history)
    (rest st : Z) (html : JsValue) (h1 : history) (err : JsError) :
  enters_browser pe cfg W p h rest st html h1 ->
  setup_succeeds W (url p) h1 ->
  page_rejects W (h1 ++ page_setup (url p) ++ [navigation (url p)])
    = Some err ->
  err_name err <> js "TimeoutError" ->
  let final :=
    h1 ++ page_setup (url p) ++ [navigation (url p); OnPage Close] in
  ISRHandler pe cfg W p h = (Fulfilled (Some (mkResult 500 None)), final)
  /\ count is_cache_call final = count is_cache_call h
  /\ count is_content final = count is_content h1.
Proof.
  intros He (Hpage & H1 & H2 & H3) Hnav Hname final.
  destruct (ISRHandler_rendered p h rest st html h1 He)
    as ((sg & _ & _ & ->) & Hcache & _).
  destruct He as (_ & _ & _ & _ & Hcond).
  unfold page_setup, navigation in *. cbn [app] in *.
  split; [|split].
  - render Hcond. rewrite Hpage. cbn [negb]. flat.
    rewrite H1. flat. rewrite H2. flat. rewrite H3. flat.
    rewrite Hnav. flat.
    assert (Hn : string_eqb (err_name err) (js "TimeoutError") = false).
    { unfold string_eqb. apply bool_decide_eq_false. exact Hname. }
    rewrite Hn. cbn [negb]. flat. reflexivity.
  - subst final. rewrite !count_app, Hcache. simpl. lia.
  - subst final. rewrite !count_app. simpl. lia.
Qed.

(** Property X10. When [page.goto] rejects with a [TimeoutError], the
  handler goes on: it reads the document of the page at once, closes
  the page, and carries on with lines 280-314 with the status the
  not-found pattern gives that document. The identifier of the
  not-found page is one without syntax characters of a pattern, so
  that the pattern built from it looks for the identifier itself. *)
Theorem navigation_timeout_is_swallowed (p : IISRHandlerParam) (h : history)
    (rest st : Z) (html : JsValue) (h1 : history) (err : JsError) :
  plain_source (NOT_FOUND_PAGE_ID pe) = true ->
  enters_browser pe cfg W p h rest st html h1 ->
  setup_succeeds W (url p) h1 ->
  let navigated := h1 ++ page_setup (url p) ++ [navigation (url p)] in
  page_rejects W navigated = Some err ->
  err_name err = js "TimeoutError" ->
  page_rejects W (navigated ++ [OnPage Content]) = None ->
  page_rejects W (navigated ++ [OnPage Content; OnPage Close]) = None ->
  let content := page_content W (navigated ++ [OnPage Content]) in
  ISRHandler pe cfg W p h =
    async_fn
      (storeBlock pe W (url p) (entry_time W h)
         (not_found_status pe content) (VText content))
      (navigated ++ [OnPage Content; OnPage Close]).
Proof.
  intros _ He (Hpage & H1 & H2 & H3) navigated Hnav Hname Hc Hcl content.
  destruct (ISRHandler_rendered p h rest st html h1 He)
    as ((sg & -> & _ & ->) & _ & _).
  destruct He as (_ & _ & _ & _ & Hcond).
  subst navigated content.
  unfold page_setup, navigation, not_found_status in *.
  rewrite <- ?app_assoc in *. cbn [app] in *.
  render Hcond. rewrite Hpage. cbn [negb]. flat.
  rewrite H1. flat. rewrite H2. flat. rewrite H3. flat.
  rewrite Hnav. flat.
  assert (Hn : string_eqb (err_name err) (js "TimeoutError") = true).
  { unfold string_eqb. apply bool_decide_eq_true. exact Hname. }
  rewrite Hn. cbn [negb]. flat. rewrite Hc. flat. rewrite Hcl. flat.
  reflexivity.
Qed.

Ltac bools :=
  repeat match goal with
         | H : negb ?a = _ |- _ =>
             is_var a; destruct a; simpl in H; try discriminate H
         end.

Ltac conjuncts :=
  repeat first [split | eexists];
  first [ assumption | reflexivity | simpl; lia | congruence
        | unfold not_found_status;
          match goal with H : _ = _ |- _ => rewrite H; reflexivity end
        | eauto ].

Ltac disjuncts :=
  first [ solve [conjuncts] | solve [left; disjuncts]
        | solve [right; disjuncts] ].

(** Every way through the render block of a call sent to the browser. *)
Lemma renderBlock_browser isFirst url rest st html h :
  negb (truthy (crawler cfg)) || (st =? 500) = true ->
  let r := renderBlock pe cfg W isFirst url rest st html h in
  let page := newPage W (h ++ [NewPage]) in
  exists evs,
    snd r = h ++ NewPage :: evs
    /\ (count is_close evs <= 1)%nat
    /\ match fst r with
       | Normal (st2, doc) =>
           page = Fulfilled true
           /\ count is_close evs = 1%nat
           /\ last evs = Some (OnPage Close)
           /\ last (removelast evs) = Some (OnPage Content)
           /\ doc = VText (page_content W (h ++ NewPage :: removelast evs))
           /\ st2 = not_found_status pe
                      (page_content W (h ++ NewPage :: removelast evs))
       | Return res =>
           (page = Fulfilled false
            /\ ((isFirst = true /\ res = None /\ evs = [])
                \/ (isFirst = false /\ res = cache_achieve W (snd r)
                    /\ evs = [CacheAchieve url])))
           \/ (page = Fulfilled true /\ count is_close evs = 1%nat
               /\ res = Some (mkResult 500 None))
           \/ (page = Fulfilled true /\ count is_close evs = 0%nat
               /\ res = None
               /\ last evs = Some (OnPage Content)
               /\ page_rejects W (snd r) <> None)
           \/ (page = Fulfilled true /\ count is_close evs = 1%nat
               /\ res = None
               /\ last evs = Some (OnPage Close)
               /\ page_rejects W (snd r) <> None)
       | Throw e =>
           (page = Rejected e /\ evs = [])
           \/ (page = Fulfilled true /\ count is_close evs = 1%nat
               /\ last evs = Some (OnPage Close)
               /\ page_rejects W (snd r) = Some e)
       | Stuck =>
           (page = Unsettled /\ evs = [])
           \/ (page = Fulfilled true /\ count is_close evs = 0%nat
               /\ last evs = Some (OnPage Content)
               /\ page_rejects W (snd r) <> None)
       end.
Proof.
  intros Hcond. cbv zeta. unfold renderBlock, navigate, waitResponse.
  rewrite Hcond. run. destruct isFirst; cbn [negb];
  explore;
    (eexists; split;
     [rewrite <- ?app_assoc; cbn [app]; reflexivity|]);
    (split; [simpl; lia|]); bools;
    rewrite <- ?app_assoc in *; cbn [app removelast last] in *; disjuncts.
Qed.

End BrowserPath.

Section Outcomes.
Variable pe : ProcessEnv.
Variable cfg : ServerConfig.
Variable W : World.

(** How a call whose crawl block never completes stopped. *)
Lemma crawlBlock_stuck url sg st html h h1 :
  crawlBlock cfg W url sg st html h = (Stuck, h1) ->
  exists pre ev, h1 = pre ++ [ev] /\ hanging_call W h1 ev.
Proof.
  rewrite crawlBlock_eq, fetchData_eq. cbv zeta.
  explore; intros [= <-];
    first [ eexists h, _; split; [reflexivity|]; assumption
          | eexists (h ++ [_]), _; rewrite <- app_assoc; cbn [app];
            split; [reflexivity|];
            rewrite <- ?app_assoc in *; cbn [app] in *; assumption ].
Qed.

(** Every way through lines 280-314. *)
Lemma storeBlock_outcome url sg st doc h :
  sg <> 0 ->
  let r := async_fn (storeBlock pe W url sg st doc) h in
  exists evs,
    snd r = h ++ evs
    /\ forallb (fun ev => negb (is_render_event ev)) evs = true
    /\ match fst r with
       | Fulfilled None =>
           cacheable st = true
           /\ evs = [DateNow; PoolCreate 2 (MAX_WORKERS pe);
                     PoolExec doc true; PoolTerminate]
       | Fulfilled (Some res) =>
           (cacheable st = true
            /\ res = cache_set W (snd r)
            /\ exists lean,
                 optimizeContent W
                   (h ++ [DateNow; PoolCreate 2 (MAX_WORKERS pe);
                          PoolExec doc true]) = Fulfilled lean
                 /\ evs = [DateNow; PoolCreate 2 (MAX_WORKERS pe);
                           PoolExec doc true; PoolTerminate;
                           CacheSet (VText lean) url true])
           \/ (cacheable st = false
               /\ res = mkResult st
                          (Some (if st =? 404
                                 then VText (js "Page not found!")
                                 else doc))
               /\ evs = [DateNow; CacheRemove url])
       | Rejected _ => False
       | Unsettled =>
           evs = [DateNow; PoolCreate 2 (MAX_WORKERS pe); PoolExec doc true]
           /\ optimizeContent W (snd r) = Unsettled
       end.
Proof.
  intros Hs. cbv zeta. unfold async_fn. rewrite storeBlock_eq by exact Hs.
  destruct (cacheable st) eqn:Hca; cbv zeta.
  - destruct (optimizeContent W _) as [lean|e|] eqn:Ho; cbn [fst snd];
      rewrite <- ?app_assoc; cbn [app];
      (eexists; split; [reflexivity|]); (split; [reflexivity|]).
    + left. repeat split. exists lean. split; reflexivity.
    + split; reflexivity.
    + split; [reflexivity|exact Ho].
  - cbn [fst snd]. eexists; split; [reflexivity|]. split; [reflexivity|].
    right. repeat split.
Qed.

Lemma renderBlock_skipped isFirst url rest st html h :
  negb (truthy (crawler cfg)) || (st =? 500) = false ->
  renderBlock pe cfg W isFirst url rest st html h = (Normal (st, html), h).
Proof. intros Hc. unfold renderBlock. rewrite Hc. reflexivity. Qed.

Lemma store_events_no_close evs :
  forallb (fun ev => negb (is_render_event ev)) evs = true ->
  count is_close evs = 0%nat.
Proof. apply count_none. intros [| | | | | | | |[]| | | | |]; simpl; congruence. Qed.

(** Property X14. With a cache manager whose promises fulfil, the
  promise of [ISRHandler] rejects only with the error of
  [browserManager.newPage()] or with the error of the [page.close()]
  of the handler of line 252, and that call is the last one of the
  run. Errors of the endpoint, of the navigation, of
  [page.content()] and of the optimizer never reject it. *)
Theorem rejects_only_with_the_page (p : IISRHandlerParam) (h : history)
    (e : JsError) :
  let run := ISRHandler pe cfg W p h in
  fst run = Rejected e ->
  exists pre ev,
    snd run = pre ++ [ev]
    /\ ((ev = NewPage /\ newPage W (snd run) = Rejected e)
        \/ (ev = OnPage Close /\ page_rejects W (snd run) = Some e)).
Proof.
  cbv zeta.
  destruct (ISRHandler_run pe cfg W p h)
    as [(r & h0 & Hb & ->)
       |(sg & rest & h0 & Hb
         & [(h1 & Hc & ->)
           |(st & html & h1 & c2 & h2 & Hc & Hr & ->)])];
    cbn [fst snd]; try discriminate.
  destruct (budgetBlock_Normal _ _ _ _ _ _ _ _ Hb) as (_ & Hs & _).
  destruct (negb (truthy (crawler cfg)) || (st =? 500)) eqn:Hcond.
  - pose proof (renderBlock_browser pe cfg W (isFirstRequest p) (url p)
                  rest st html h1 Hcond) as Hk.
    cbv zeta in Hk. rewrite Hr in Hk. cbn [fst snd] in Hk.
    destruct Hk as (evs & -> & _ & Hk).
    destruct c2 as [[st2 doc2]|r|e'|]; try discriminate.
    + intros Hrej.
      pose proof (storeBlock_outcome (url p) sg st2 doc2
                    (h1 ++ NewPage :: evs) Hs) as Hso.
      cbv zeta in Hso. destruct Hso as (evs3 & _ & _ & Hso).
      cbn [fst snd] in Hrej. rewrite Hrej in Hso. contradiction.
    + intros [= ->]. destruct Hk as [(Hp & ->)|(_ & _ & Hl & Hp)].
      * exists h1, NewPage. split; [reflexivity|]. left. auto.
      * apply last_Some in Hl as (pre & ->).
        exists (h1 ++ NewPage :: pre), (OnPage Close).
        split; [rewrite <- app_assoc; reflexivity|]. right. auto.
  - rewrite (renderBlock_skipped _ _ _ _ _ _ Hcond) in Hr.
    injection Hr as <- <-. cbn [fst snd]. intros Hrej.
    pose proof (storeBlock_outcome (url p) sg st html h1 Hs) as Hso.
    cbv zeta in Hso. destruct Hso as (evs3 & _ & _ & Hso).
    rewrite Hrej in Hso. contradiction.
Qed.

(** Property X15. With a cache manager whose promises settle, the
  promise of [ISRHandler] stays unsettled only behind its last call:
  a [fetch], a [res.text()], a [newPage()] or a job of the optimizer
  that never settles, or the [page.content()] of [waitResponse]
  rejecting inside an executor where nothing catches it. *)
Theorem unsettled_only_behind_a_hanging_call (p : IISRHandlerParam)
    (h : history) :
  let run := ISRHandler pe cfg W p h in
  fst run = Unsettled ->
  exists pre ev, snd run = pre ++ [ev] /\ hanging_call W (snd run) ev.
Proof.
  cbv zeta.
  assert (Hstore : forall sg st doc h2,
             sg <> 0 ->
             fst (async_fn (storeBlock pe W (url p) sg st doc) h2)
               = Unsettled ->
             exists pre ev,
               snd (async_fn (storeBlock pe W (url p) sg st doc) h2)
                 = pre ++ [ev]
               /\ hanging_call W
                    (snd (async_fn (storeBlock pe W (url p) sg st doc) h2))
                    ev).
  { intros sg st doc h2 Hs Hu.
    pose proof (storeBlock_outcome (url p) sg st doc h2 Hs) as Hso.
    cbv zeta in Hso. destruct Hso as (evs3 & He & _ & Hso).
    rewrite Hu in Hso. destruct Hso as (-> & Ho).
    exists (h2 ++ [DateNow; PoolCreate 2 (MAX_WORKERS pe)]),
      (PoolExec doc true).
    split; [rewrite He, <- app_assoc; reflexivity|exact Ho]. }
  destruct (ISRHandler_run pe cfg W p h)
    as [(r & h0 & Hb & ->)
       |(sg & rest & h0 & Hb
         & [(h1 & Hc & ->)
           |(st & html & h1 & c2 & h2 & Hc & Hr & ->)])];
    cbn [fst snd]; try discriminate.
  - intros _. exact (crawlBlock_stuck _ _ _ _ _ _ Hc).
  - destruct (budgetBlock_Normal _ _ _ _ _ _ _ _ Hb) as (_ & Hs & _).
    destruct (negb (truthy (crawler cfg)) || (st =? 500)) eqn:Hcond.
    + pose proof (renderBlock_browser pe cfg W (isFirstRequest p) (url p)
                    rest st html h1 Hcond) as Hk.
      cbv zeta in Hk. rewrite Hr in Hk. cbn [fst snd] in Hk.
      destruct Hk as (evs & -> & _ & Hk).
      destruct c2 as [[st2 doc2]|r|e'|]; try discriminate.
      * cbn [fst snd]. apply Hstore. exact Hs.
      * intros _. destruct Hk as [(Hp & ->)|(_ & _ & Hl & Hp)].
        -- exists h1, NewPage. split; [reflexivity|exact Hp].
        -- apply last_Some in Hl as (pre & ->).
           exists (h1 ++ NewPage :: pre), (OnPage Content).
           split; [rewrite <- app_assoc; reflexivity|exact Hp].
    + rewrite (renderBlock_skipped _ _ _ _ _ _ Hcond) in Hr.
      injection Hr as <- <-. cbn [fst snd]. apply Hstore. exact Hs.
Qed.

(** Property X12. A page that was handed out is closed at most once.
  It is left open only when reading its document rejected:
  [page.content()] is then the last call of the run, and the handler
  resolves to nothing (line 267) or never settles (line 97, inside
  [waitResponse]). *)
Theorem page_closed_unless_content_fails (p : IISRHandlerParam)
    (h : history) (rest st : Z) (html : JsValue) (h1 : history) :
  enters_browser pe cfg W p h rest st html h1 ->
  newPage W (h1 ++ [NewPage]) = Fulfilled true ->
  let run := ISRHandler pe cfg W p h in
  exists evs,
    snd run = h1 ++ NewPage :: evs
    /\ (count is_close evs <= 1)%nat
    /\ (count is_close evs = 0%nat ->
        (exists pre, snd run = pre ++ [OnPage Content])
        /\ page_rejects W (snd run) <> None
        /\ (fst run = Fulfilled None \/ fst run = Unsettled)).
Proof.
  intros He Hpage. cbv zeta.
  destruct (ISRHandler_rendered pe cfg W p h rest st html h1 He)
    as ((sg & _ & Hs & ->) & _ & _).
  destruct He as (_ & _ & _ & _ & Hcond).
  pose proof (renderBlock_browser pe cfg W (isFirstRequest p) (url p)
                rest st html h1 Hcond) as Hk.
  cbv zeta in Hk. rewrite Hpage in Hk.
  destruct (renderBlock pe cfg W (isFirstRequest p) (url p) rest st html h1)
    as [[[st2 doc2]|r|e'|] h2]; cbn [fst snd] in Hk;
    destruct Hk as (evs & -> & Hle & Hk); cbn [fst snd].
  - destruct Hk as (_ & Hone & _).
    pose proof (storeBlock_outcome (url p) sg st2 doc2
                  (h1 ++ NewPage :: evs) Hs) as Hso.
    cbv zeta in Hso. destruct Hso as (evs3 & -> & Hq & _).
    exists (evs ++ evs3).
    split; [rewrite <- app_assoc; reflexivity|].
    rewrite count_app, (store_events_no_close _ Hq). split; [lia|]. lia.
  - exists evs. cbn [fst snd]. split; [reflexivity|]. split; [exact Hle|].
    intros H0.
    destruct Hk as [([=] & _)|[(_ & H1 & _)|[(_ & _ & -> & Hl & Hp)
                                            |(_ & H1 & _)]]];
      try (rewrite H1 in H0; discriminate).
    apply last_Some in Hl as (pre & ->).
    split; [exists (h1 ++ NewPage :: pre); rewrite <- app_assoc; reflexivity|].
    split; [exact Hp|]. left. reflexivity.
  - exists evs. cbn [fst snd]. split; [reflexivity|]. split; [exact Hle|].
    intros H0. destruct Hk as [([=] & _)|(_ & H1 & _)].
    rewrite H1 in H0. discriminate.
  - exists evs. cbn [fst snd]. split; [reflexivity|]. split; [exact Hle|].
    intros H0. destruct Hk as [([=] & _)|(_ & _ & Hl & Hp)].
    apply last_Some in Hl as (pre & ->).
    split; [exists (h1 ++ NewPage :: pre); rewrite <- app_assoc; reflexivity|].
    split; [exact Hp|]. right. reflexivity.
Qed.

(** Property X13. When a call sent to the browser got a page and
  resolves to a result, the result is [{ status: 500 }], or it follows
  from the document read at line 267 alone: when the document is not
  empty and has the not-found marker, the entry of the cache is
  removed and the result is status 404 with the text
  [Page not found!]; otherwise the document goes to the optimizer and
  the result is what [cacheManager.set] resolves to for the optimized
  text. What the crawl gave is not in the result. The identifier of
  the not-found page is one without syntax characters of a pattern,
  so that the marker is the identifier itself after [id=], between
  optional quotes. *)
Theorem browser_result_follows_the_document (p : IISRHandlerParam)
    (h : history) (rest st : Z) (html : JsValue) (h1 : history)
    (res : ISSRResult) :
  plain_source (NOT_FOUND_PAGE_ID pe) = true ->
  enters_browser pe cfg W p h rest st html h1 ->
  newPage W (h1 ++ [NewPage]) = Fulfilled true ->
  let run := ISRHandler pe cfg W p h in
  fst run = Fulfilled (Some res) ->
  res = mkResult 500 None
  \/ exists hc tail,
       snd run = hc ++ [OnPage Content; OnPage Close] ++ tail
       /\ let content := page_content W (hc ++ [OnPage Content]) in
          if truthy_string content && test (regexNotFoundPageID pe) content
          then res = mkResult 404 (Some (VText (js "Page not found!")))
               /\ tail = [DateNow; CacheRemove (url p)]
          else res = cache_set W (snd run)
               /\ exists lean,
                    tail = [DateNow; PoolCreate 2 (MAX_WORKERS pe);
                            PoolExec (VText content) true; PoolTerminate;
                            CacheSet (VText lean) (url p) true].
Proof.
  intros _ He Hpage. cbv zeta.
  destruct (ISRHandler_rendered pe cfg W p h rest st html h1 He)
    as ((sg & _ & Hs & ->) & _ & _).
  destruct He as (_ & _ & _ & _ & Hcond).
  pose proof (renderBlock_browser pe cfg W (isFirstRequest p) (url p)
                rest st html h1 Hcond) as Hk.
  cbv zeta in Hk. rewrite Hpage in Hk.
  destruct (renderBlock pe cfg W (isFirstRequest p) (url p) rest st html h1)
    as [[[st2 doc2]|r|e'|] h2]; cbn [fst snd] in Hk;
    destruct Hk as (evs & -> & Hle & Hk); cbn [fst snd]; try discriminate.
  - destruct Hk as (_ & _ & Hl & Hl2 & -> & ->).
    apply last_Some in Hl as (pre & ->).
    rewrite removelast_last in *.
    apply last_Some in Hl2 as (pre2 & ->).
    intros Hres. right.
    exists (h1 ++ NewPage :: pre2).
    unfold not_found_status in *. cbv zeta.
    rewrite <- ?app_assoc in *; cbn [app] in *.
    rewrite <- ?app_assoc in *; cbn [app] in *.
    match type of Hres with
    | fst (async_fn (storeBlock _ _ ?u _ ?st2 ?doc) ?hh) = _ =>
        pose proof (storeBlock_outcome u sg st2 doc hh Hs) as Hso
    end.
    cbv zeta in Hso. destruct Hso as (evs3 & Hsnd & _ & Hso).
    rewrite Hres in Hso. exists evs3.
    split; [rewrite Hsnd; repeat first [rewrite <- app_assoc | progress cbn [app]];
            reflexivity|].
    revert Hso.
    destruct (truthy_string _ && test _ _) eqn:Hnf; intros Hso.
    + destruct Hso as [(Hca & _)|(_ & -> & ->)]; [discriminate Hca|].
      split; reflexivity.
    + destruct Hso as [(_ & -> & lean & _ & ->)|(Hca & _)];
        [|discriminate Hca].
      split; [reflexivity|]. exists lean. reflexivity.
  - intros [= ->].
    destruct Hk as [([=] & _)|[(_ & _ & [= ->])
                               |[(_ & _ & [=] & _)|(_ & _ & [=] & _)]]].
    left. reflexivity.
Qed.

End Outcomes.

Section Independence.
Variable pe : ProcessEnv.
Variable cfg : ServerConfig.
Variable W : World.

Lemma renderBlock_ignores_response response isFirst url rest st html h :
  renderBlock pe cfg (with_goto_response W response) isFirst url rest st
    html h
  = renderBlock pe cfg W isFirst url rest st html h.
Proof.
  unfold renderBlock, navigate, waitResponse. run.
  unfold with_goto_response.
  cbn [Date_now cache_achieve cache_set fetch_status response_text
       JSON_parse newPage page_rejects goto_response page_content
       optimizeContent].
  explore; reflexivity.
Qed.

(** Property X11. The status of the response [page.goto] resolves to
  has no effect on a call of [ISRHandler]: whatever it is, the run is
  the same, result and history. The assignment of line 245 is
  overwritten at line 274 or left behind by a [return]. *)
Theorem navigation_status_is_ignored (response : history -> option Z)
    (p : IISRHandlerParam) (h : history) :
  ISRHandler pe cfg (with_goto_response W response) p h
  = ISRHandler pe cfg W p h.
Proof.
  rewrite !ISRHandler_eq.
  change (budgetBlock pe (with_goto_response W response))
    with (budgetBlock pe W).
  destruct (budgetBlock pe W (isFirstRequest p) (url p) h)
    as [[b|r|e|] h0]; try reflexivity.
  unfold async_fn, bind. rewrite !acquire_eq.
  change (crawlBlock cfg (with_goto_response W response))
    with (crawlBlock cfg W).
  destruct (crawlBlock cfg W (url p) (fst b) 200 (VText []) h0)
    as [[c|r|e|] h1]; try reflexivity.
  rewrite renderBlock_ignores_response.
  destruct (renderBlock pe cfg W (isFirstRequest p) (url p) (snd b)
              (fst c) (snd c) h1) as [[a|r|e|] h2]; try reflexivity.
Qed.

End Independence.

Section Edges.
Variable pe : ProcessEnv.
Variable cfg : ServerConfig.
Variable W : World.

(** Property X6. When [DURATION_TIMEOUT] is at most the reserved
  1500 ms and the clock does not run backwards between the first two
  readings, every call of [ISRHandler] resolves to nothing after
  reading the clock, whatever the request is: no cache, endpoint or
  browser is reached. *)
Theorem timeout_within_gap_serves_nothing (p : IISRHandlerParam)
    (h : history) :
  DURATION_TIMEOUT pe <= gapDurationDefault ->
  Date_now W (h ++ [DateNow]) <= Date_now W (h ++ [DateNow; DateNow]) ->
  exists evs,
    ISRHandler pe cfg W p h = (Fulfilled None, h ++ evs)
    /\ forallb is_date_now evs = true.
Proof.
  intros Hd Hclock. rewrite ISRHandler_eq, budgetBlock_eq.
  destruct (entry_time W h =? 0) eqn:E0.
  - exists [DateNow]. split; reflexivity.
  - assert (Hle : (budget_at_entry pe W h <=? 0) = true).
    { apply Z.leb_le. rewrite budget_at_entry_eq, E0.
      unfold elapsed_at_entry, entry_time. lia. }
    rewrite Hle. exists [DateNow; DateNow]. split; reflexivity.
Qed.

(** Property X16. The promise of [waitResponse] rejects exactly when
  [page.goto] rejects, with the same error; it stays unsettled exactly
  when the navigation succeeded and [page.content()] rejects; when it
  resolves, it resolves to the response of [page.goto], after the
  pause and one reading of the document, and it waits for a quiet
  network exactly when the document lacks the not-found marker. The
  identifier of the not-found page is one without syntax characters
  of a pattern, so that the marker is the identifier itself after
  [id=], between optional quotes. *)
Theorem waitResponse_outcome (url : jsstring) (duration : Z) (h : history) :
  plain_source (NOT_FOUND_PAGE_ID pe) = true ->
  let r := waitResponse pe W url duration h in
  let navigated := h ++ [navigation url] in
  let read :=
    navigated
      ++ [Delay (if BANDWIDTH_LEVEL pe >? 1 then 250 else 500);
          OnPage Content] in
  (forall e,
     fst r = Rejected e <-> page_rejects W navigated = Some e)
  /\ (fst r = Unsettled <->
      (page_rejects W navigated = None /\ page_rejects W read <> None))
  /\ (forall response,
        fst r = Fulfilled response ->
        response = goto_response W navigated
        /\ snd r =
             read ++ (if test (regexNotFoundPageID pe) (page_content W read)
                      then []
                      else [AwaitQuietNetwork
                              (if BANDWIDTH_LEVEL pe >? 1
                               then 200 else 500)])).
Proof.
  intros _. cbv zeta. unfold waitResponse, navigation. run. flat.
  destruct (page_rejects W (h ++ [OnPage (Goto (split_head 63 url))]))
    as [e0|] eqn:Hg; cbn [fst snd].
  - split; [|split].
    + intros e. split; congruence.
    + split; [discriminate|]. intros [[=] _].
    + intros response [=].
  - flat.
    destruct (page_rejects W
                (h ++ [OnPage (Goto (split_head 63 url));
                       Delay (if BANDWIDTH_LEVEL pe >? 1 then 250 else 500);
                       OnPage Content]))
      as [e1|] eqn:Hc; cbn [fst snd].
    + split; [|split].
      * intros e. split; discriminate.
      * split; [|reflexivity]. intros _. split; [reflexivity|discriminate].
      * intros response [=].
    + destruct (test (regexNotFoundPageID pe) _) eqn:Ht; cbn [fst snd];
        flat; (split; [|split]);
        try (intros e; split; discriminate);
        try (split; [discriminate|intros [_ Hn]; contradiction]);
        intros response [= <-]; split; try reflexivity;
        rewrite ?app_nil_r; reflexivity.
Qed.

End Edges.

(** ** The address and its query *)

(** Property X17. [url.split(sep)[0]], for a separator of one code
  unit: of a string made of a part without the separator, the
  separator and anything after it, the result is that part; of a
  string without the separator it is the whole string. The navigation
  of line 83 therefore goes to the address without its query. *)
Theorem split_head_before_separator (sep : N) (a b : jsstring) :
  ~ In sep a ->
  split_head sep (a ++ sep :: b) = a /\ split_head sep a = a.
Proof.
  induction a as [|c a IH]; intros Hn.
  - simpl. rewrite N.eqb_refl. split; reflexivity.
  - assert (Hc : N.eqb c sep = false).
    { apply N.eqb_neq. intros ->. apply Hn. left. reflexivity. }
    destruct IH as [IH1 IH2]; [intros Hi; apply Hn; right; exact Hi|].
    simpl. rewrite Hc, IH1, IH2. split; reflexivity.
Qed.

Lemma split_head_app (sep : N) (a b : jsstring) :
  ~ In sep a -> split_head sep (a ++ sep :: b) = a.
Proof.
  induction a as [|c a IH]; intros Hn.
  - simpl. rewrite N.eqb_refl. reflexivity.
  - assert (Hc : N.eqb c sep = false).
    { apply N.eqb_neq. intros ->. apply Hn. left. reflexivity. }
    simpl. rewrite Hc, IH; [reflexivity|].
    intros Hi. apply Hn. right. exact Hi.
Qed.

Lemma strip_prefix_app w : forall r, strip_prefix w (w ++ r) = Some r.
Proof.
  induction w as [|a w IH]; intros r; [reflexivity|].
  simpl. rewrite N.eqb_refl. apply IH.
Qed.

Lemma group_no_amp_spec s : forall g r,
  group_no_amp s = (g, r) ->
  s = g ++ r /\ amp_free g = true /\ starts_group_end r.
Proof.
  induction s as [|c t IH]; intros g r; simpl.
  - intros [= <- <-]. repeat split. left. reflexivity.
  - destruct (N.eqb c 38) eqn:E.
    + intros [= <- <-]. repeat split. right. apply N.eqb_eq in E.
      subst c. eexists. reflexivity.
    + destruct (group_no_amp t) as [g' r'] eqn:Eg.
      intros [= <- <-]. destruct (IH g' r' eq_refl) as (-> & Hf & Hr).
      repeat split; [|exact Hr]. unfold amp_free. simpl.
      rewrite E. exact Hf.
Qed.

Lemma group_no_amp_app g : forall r,
  amp_free g = true -> starts_group_end r -> group_no_amp (g ++ r) = (g, r).
Proof.
  induction g as [|c g IH]; intros r Hf Hr.
  - destruct Hr as [->|(t & ->)]; reflexivity.
  - unfold amp_free in Hf. simpl in Hf. apply andb_prop in Hf as [Hc Hg].
    apply negb_true_iff in Hc. simpl. rewrite Hc.
    rewrite (IH r Hg Hr). reflexivity.
Qed.

Lemma specialInfo_unfold s :
  specialInfo s =
    match special_info_here s with
    | Some groups => groups
    | None => match s with [] => [] | _ :: t => specialInfo t end
    end.
Proof. destruct s; reflexivity. Qed.

Lemma special_info_here_Some s groups :
  special_info_here s = Some groups ->
  exists b d l e post,
    s = special_query b d l e ++ post
    /\ groups = special_groups b d l e
    /\ amp_free b = true /\ amp_free d = true
    /\ amp_free l = true /\ amp_free e = true
    /\ starts_group_end post.
Proof.
  unfold special_info_here.
  destruct (strip_prefix (js "botInfo=") s) as [s1|] eqn:E1; [|discriminate].
  destruct (group_no_amp s1) as [b r1] eqn:G1.
  destruct (strip_prefix (js "&deviceInfo=") r1) as [s2|] eqn:E2;
    [|discriminate].
  destruct (group_no_amp s2) as [d r2] eqn:G2.
  destruct (strip_prefix (js "&localeInfo=") r2) as [s3|] eqn:E3;
    [|discriminate].
  destruct (group_no_amp s3) as [l r3] eqn:G3.
  destruct (strip_prefix (js "&environmentInfo=") r3) as [s4|] eqn:E4;
    [|discriminate].
  destruct (group_no_amp s4) as [e r4] eqn:G4.
  intros [= <-].
  apply strip_prefix_Some in E1, E2, E3, E4.
  apply group_no_amp_spec in G1 as (H1 & F1 & _).
  apply group_no_amp_spec in G2 as (H2 & F2 & _).
  apply group_no_amp_spec in G3 as (H3 & F3 & _).
  apply group_no_amp_spec in G4 as (H4 & F4 & R4).
  exists b, d, l, e, r4. subst.
  repeat split; try assumption.
  unfold special_query. rewrite <- !app_assoc. reflexivity.
Qed.

Lemma special_info_here_query b d l e post :
  amp_free b = true -> amp_free d = true -> amp_free l = true ->
  amp_free e = true -> starts_group_end post ->
  special_info_here (special_query b d l e ++ post)
  = Some (special_groups b d l e).
Proof.
  intros Fb Fd Fl Fe Hp. unfold special_info_here, special_query.
  rewrite <- !app_assoc. rewrite strip_prefix_app.
  rewrite (group_no_amp_app b _ Fb) by (right; eexists; reflexivity).
  rewrite strip_prefix_app.
  rewrite (group_no_amp_app d _ Fd) by (right; eexists; reflexivity).
  rewrite strip_prefix_app.
  rewrite (group_no_amp_app l _ Fl) by (right; eexists; reflexivity).
  rewrite strip_prefix_app.
  rewrite (group_no_amp_app e _ Fe Hp). reflexivity.
Qed.

Lemma no_match_before_the_query c pre rest :
  ~ In 61%N (c :: pre) ->
  special_info_here ((c :: pre) ++ js "botInfo=" ++ rest) = None.
Proof.
  intros Hn. unfold special_info_here.
  destruct (strip_prefix (js "botInfo=") _) as [r|] eqn:E; [|reflexivity].
  exfalso. apply strip_prefix_Some in E.
  apply (f_equal (split_head 61)) in E.
  change (js "botInfo=" ++ rest) with (js "botInfo" ++ 61%N :: rest) in E.
  change (js "botInfo=" ++ r) with (js "botInfo" ++ 61%N :: r) in E.
  rewrite app_assoc in E.
  rewrite !split_head_app in E.
  - apply (f_equal length) in E. rewrite length_app in E. simpl in E. lia.
  - vm_compute. intuition discriminate.
  - intros Hi. apply in_app_or in Hi as [Hi|Hi]; [exact (Hn Hi)|].
    revert Hi. vm_compute. intuition discriminate.
Qed.

(** Property X18. The groups [regexQueryStringSpecialInfo] gives for an
  address are none, or the four values of an occurrence of
  [botInfo=..&deviceInfo=..&localeInfo=..&environmentInfo=..] in it:
  none of the values holds an ampersand, and the last one runs to the
  end of the address or to the next ampersand. *)
Theorem specialInfo_sound (s : jsstring) :
  specialInfo s = []
  \/ exists pre b d l e post,
       s = pre ++ special_query b d l e ++ post
       /\ specialInfo s = special_groups b d l e
       /\ amp_free b = true /\ amp_free d = true
       /\ amp_free l = true /\ amp_free e = true
       /\ (post = [] \/ exists t, post = 38%N :: t).
Proof.
  induction s as [|c t IH].
  - left. reflexivity.
  - rewrite specialInfo_unfold.
    destruct (special_info_here (c :: t)) as [groups|] eqn:E.
    + right. apply special_info_here_Some in E
        as (b & d & l & e & post & Hs & -> & Hb & Hd & Hl & He & Hp).
      exists [], b, d, l, e, post. rewrite Hs. repeat split; assumption.
    + destruct IH as [IH|(pre & b & d & l & e & post & -> & IH)];
        [left; exact IH|].
      right. exists (c :: pre), b, d, l, e, post.
      split; [reflexivity|exact IH].
Qed.

(** Property X19. When the four values hold no ampersand, the query
  built from them is followed by nothing or by an ampersand, and what
  precedes it holds no equals sign, the groups read from the address
  are these four values under their four names. *)
Theorem specialInfo_roundtrip (pre b d l e post : jsstring) :
  ~ In 61%N pre ->
  amp_free b = true -> amp_free d = true -> amp_free l = true ->
  amp_free e = true ->
  (post = [] \/ exists t, post = 38%N :: t) ->
  specialInfo (pre ++ special_query b d l e ++ post)
  = special_groups b d l e.
Proof.
  intros Hn Fb Fd Fl Fe Hp. induction pre as [|c pre IH].
  - cbn [app]. rewrite specialInfo_unfold.
    rewrite special_info_here_query by assumption. reflexivity.
  - rewrite specialInfo_unfold.
    unfold special_query at 1. rewrite <- !app_assoc.
    rewrite (no_match_before_the_query c pre _ Hn).
    cbn [app]. fold (special_query b d l e).
    rewrite <- IH; [|intros Hi; apply Hn; right; exact Hi].
    unfold special_query. rewrite <- !app_assoc. reflexivity.
Qed.

(** ** The locale middleware *)

Section LocaleFacts.
Variable locale : LocaleConfig.
Variable detectLocale : HttpRequest -> option LocaleInfo.

Lemma cookie_names_differ :
  js "localeInfo" <> js "lang" /\ js "localeInfo" <> js "country"
  /\ js "lang" <> js "country".
Proof. repeat split; intros H; vm_compute in H; discriminate H. Qed.

(** The cookies the middleware leaves. *)
Lemma DetectLocaleMiddle_cookies res req :
  cookies (DetectLocaleMiddle locale detectLocale res req) =
    Some (let c1 := <[js "localeInfo" := CLocaleInfo (detectLocale req)]>
                      (default ∅ (cookies res)) in
          if enableLocale locale req then
            let c2 := <[js "lang" :=
                          CText (nullish_or
                                   (optional_field (detectLocale req)
                                      langSelected)
                                   (defaultLang locale))]> c1 in
            if truthy (defaultCountry locale) then
              <[js "country" :=
                  CText (nullish_or
                           (optional_field (detectLocale req)
                              countrySelected)
                           (defaultCountry locale))]> c2
            else c2
          else c1).
Proof.
  unfold DetectLocaleMiddle. cbv zeta.
  destruct (enableLocale locale req); [|reflexivity].
  destruct (truthy (defaultCountry locale)); reflexivity.
Qed.

(** Property X20. [DetectLocaleMiddle] always leaves a [cookies] object
  on the response, whose [localeInfo] is what [detectLocale(req)]
  returned; every cookie other than [localeInfo], [lang] and [country]
  is what it was before, absent when there was no [cookies] object. *)
Theorem locale_middleware_frame (res : HttpResponse) (req : HttpRequest) :
  exists after,
    cookies (DetectLocaleMiddle locale detectLocale res req) = Some after
    /\ after !! js "localeInfo" = Some (CLocaleInfo (detectLocale req))
    /\ forall name,
         name <> js "localeInfo" -> name <> js "lang" ->
         name <> js "country" ->
         after !! name = default ∅ (cookies res) !! name.
Proof.
  destruct cookie_names_differ as (H1 & H2 & H3).
  rewrite DetectLocaleMiddle_cookies. eexists. split; [reflexivity|].
  cbv zeta.
  destruct (enableLocale locale req);
    [destruct (truthy (defaultCountry locale))|]; split;
    try (intros name N1 N2 N3);
    repeat first [ rewrite lookup_insert_ne by congruence
                 | rewrite lookup_insert_eq ];
    reflexivity.
Qed.

(** Property X21. When the locale is not enabled for the request
  (switched off globally, or for the route, also by an entry of the
  route that has no [enable]), [DetectLocaleMiddle] leaves [lang] and
  [country] as they were. It also leaves [country] as it was whenever
  there is no default country, even when a country was detected. *)
Theorem locale_off_keeps_lang_and_country (res : HttpResponse)
    (req : HttpRequest) (after : gmap jsstring CookieValue) :
  cookies (DetectLocaleMiddle locale detectLocale res req) = Some after ->
  (enableLocale locale req = false ->
   after !! js "lang" = default ∅ (cookies res) !! js "lang")
  /\ (enableLocale locale req = false
      \/ truthy (defaultCountry locale) = false ->
      after !! js "country" = default ∅ (cookies res) !! js "country").
Proof.
  destruct cookie_names_differ as (H1 & H2 & H3).
  rewrite DetectLocaleMiddle_cookies. intros [= <-]. cbv zeta. split.
  - intros ->. rewrite lookup_insert_ne by congruence. reflexivity.
  - intros [->| ->].
    + rewrite lookup_insert_ne by congruence. reflexivity.
    + destruct (enableLocale locale req);
        repeat rewrite lookup_insert_ne by congruence; reflexivity.
Qed.

(** Property X22. When the locale is enabled for the request,
  [DetectLocaleMiddle] sets [lang] to the detected language, and to
  [ServerConfig.locale.defaultLang] when nothing was detected or the
  detection has no language; with a default country it sets [country]
  the same way from the detected country and the default one. *)
Theorem locale_on_sets_lang (res : HttpResponse) (req : HttpRequest)
    (after : gmap jsstring CookieValue) :
  cookies (DetectLocaleMiddle locale detectLocale res req) = Some after ->
  enableLocale locale req = true ->
  (forall info lang,
     detectLocale req = Some info -> langSelected info = Some lang ->
     after !! js "lang" = Some (CText (Some lang)))
  /\ ((detectLocale req = None
       \/ exists info,
            detectLocale req = Some info /\ langSelected info = None) ->
      after !! js "lang" = Some (CText (defaultLang locale)))
  /\ (truthy (defaultCountry locale) = true ->
      (forall info country,
         detectLocale req = Some info ->
         countrySelected info = Some country ->
         after !! js "country" = Some (CText (Some country)))
      /\ ((detectLocale req = None
           \/ exists info,
                detectLocale req = Some info
                /\ countrySelected info = None) ->
          after !! js "country" = Some (CText (defaultCountry locale)))).
Proof.
  destruct cookie_names_differ as (H1 & H2 & H3).
  rewrite DetectLocaleMiddle_cookies. intros [= <-] ->. cbv zeta.
  split; [|split].
  - intros info lang -> Hl.
    destruct (truthy (defaultCountry locale));
      repeat first [ rewrite lookup_insert_ne by congruence
                   | rewrite lookup_insert_eq ];
      cbn [optional_field nullish_or]; rewrite Hl; reflexivity.
  - intros [->|(info & -> & Hl)];
      destruct (truthy (defaultCountry locale));
      repeat first [ rewrite lookup_insert_ne by congruence
                   | rewrite lookup_insert_eq ];
      cbn [optional_field nullish_or]; rewrite ?Hl; reflexivity.
  - intros ->. split.
    + intros info country -> Hc. rewrite lookup_insert_eq.
      cbn [optional_field nullish_or]. rewrite Hc. reflexivity.
    + intros [->|(info & -> & Hc)]; rewrite lookup_insert_eq;
        cbn [optional_field nullish_or]; rewrite ?Hc; reflexivity.
Qed.

(** Property X23. Running [DetectLocaleMiddle] again on the response it
  left, for the same request, changes nothing. *)
Theorem locale_middleware_idempotent (res : HttpResponse)
    (req : HttpRequest) :
  let once := DetectLocaleMiddle locale detectLocale res req in
  DetectLocaleMiddle locale detectLocale once req = once.
Proof.
  destruct cookie_names_differ as (H1 & H2 & H3). cbv zeta.
  assert (Hrec : forall r1 r2, cookies r1 = cookies r2 -> r1 = r2).
  { intros [c1] [c2]. simpl. intros ->. reflexivity. }
  apply Hrec. rewrite (DetectLocaleMiddle_cookies (DetectLocaleMiddle _ _ _ _)).
  rewrite !DetectLocaleMiddle_cookies. f_equal. cbv zeta.
  cbn [default from_option id].
  destruct (enableLocale locale req);
    [destruct (truthy (defaultCountry locale))|];
    apply map_eq; intros name;
    (destruct (decide (name = js "localeInfo")) as [->|N1];
     [|destruct (decide (name = js "lang")) as [->|N2];
       [|destruct (decide (name = js "country")) as [->|N3]]]);
    repeat first [ rewrite lookup_insert_ne by congruence
                 | rewrite lookup_insert_eq ];
    reflexivity.
Qed.

End LocaleFacts.

Section Requests.
Variable pe : ProcessEnv.
Variable cfg : ServerConfig.
Variable W : World.

(** The crawl block starts with the request to the endpoint. *)
Lemma crawlBlock_request url sg st html h :
  truthy (crawler cfg) = true ->
  exists tail,
    snd (crawlBlock cfg W url sg st html h)
    = h ++ Fetch (default [] (crawler cfg))
             (Some (requestParams cfg sg url)) crawlInit :: tail.
Proof.
  intros Ht. rewrite crawlBlock_eq, fetchData_eq, Ht. cbv zeta.
  explore; rewrite <- ?app_assoc; cbn [app]; eexists; reflexivity.
Qed.

(** Property X4. With an endpoint configured, the first thing a call
  does after the budget block is the request to that endpoint, with
  the fixed [GET] options. The query carries the handler's own reading
  of the clock at entry as [startGenerating], [isFirstRequest: true]
  whatever the [isFirstRequest] of the call is, and the address; it
  carries [crawlerSecretKey] exactly when [ServerConfig.crawlerSecretKey]
  is set, with its value. *)
Theorem crawl_request_parameters (p : IISRHandlerParam) (h : history)
    (sg rest : Z) (h0 : history) :
  budgetBlock pe W (isFirstRequest p) (url p) h = (Normal (sg, rest), h0) ->
  truthy (crawler cfg) = true ->
  exists query tail,
    snd (ISRHandler pe cfg W p h)
    = h0 ++ Fetch (default [] (crawler cfg)) (Some query) crawlInit :: tail
    /\ query !! 0%nat = Some (js "startGenerating", QNumber (entry_time W h))
    /\ query !! 1%nat = Some (js "isFirstRequest", QBool true)
    /\ query !! 2%nat = Some (js "url", QString (url p))
    /\ (forall key,
          In (js "crawlerSecretKey", key) query <->
          (truthy (crawlerSecretKey cfg) = true
           /\ key = QString (default [] (crawlerSecretKey cfg)))).
Proof.
  intros Hb Ht.
  destruct (budgetBlock_Normal _ _ _ _ _ _ _ _ Hb) as (Hsg & Hs & _).
  exists (requestParams cfg sg (url p)).
  assert (Hsnd : exists tail,
             snd (ISRHandler pe cfg W p h)
             = h0 ++ Fetch (default [] (crawler cfg))
                       (Some (requestParams cfg sg (url p))) crawlInit
                       :: tail).
  { destruct (crawlBlock_request (url p) sg 200 (VText []) h0 Ht)
      as (tail & Hcr).
    destruct (ISRHandler_run pe cfg W p h)
      as [(r & h0' & Hb' & _)
         |(sg' & rest' & h0' & Hb'
           & [(h1 & Hc & ->)
             |(st & html & h1 & c2 & h2 & Hc & Hr & ->)])];
      rewrite Hb in Hb'; try discriminate;
      injection Hb' as <- <- <-; rewrite Hc in Hcr; cbn [snd] in Hcr.
    - exists tail. exact Hcr.
    - destruct (renderBlock_extends pe cfg W (isFirstRequest p) (url p)
                  rest st html h1) as (evs2 & He2 & _).
      rewrite Hr in He2. cbn [snd] in He2.
      destruct c2 as [[st2 doc2]|r|e|]; cbn [fst snd].
      + destruct (storeBlock_outcome pe W (url p) sg st2 doc2 h2 Hs)
          as (evs3 & -> & _).
        exists (tail ++ evs2 ++ evs3). rewrite He2, Hcr.
        rewrite <- !app_assoc. reflexivity.
      + exists (tail ++ evs2). rewrite He2, Hcr, <- !app_assoc. reflexivity.
      + exists (tail ++ evs2). rewrite He2, Hcr, <- !app_assoc. reflexivity.
      + exists (tail ++ evs2). rewrite He2, Hcr, <- !app_assoc. reflexivity. }
  destruct Hsnd as (tail & Hsnd). exists tail.
  split; [exact Hsnd|]. subst sg. unfold requestParams.
  split; [reflexivity|]. split; [reflexivity|]. split; [reflexivity|].
  intros key. destruct (truthy (crawlerSecretKey cfg)); cbn [app In]; split.
  - intros [[=]|[[=]|[[=]|[[= <-]|[]]]]]. split; reflexivity.
  - intros [_ ->]. do 3 right. left. reflexivity.
  - intros [[=]|[[=]|[[=]|[]]]].
  - intros [[=] _].
Qed.

(** Property X5. After the three readings of the clock of the budget
  block no answer of [Date.now()] has any effect: a clock that agrees
  on these three readings gives the same run of [ISRHandler], result
  and history. The budget read at line 280 is not used, and the
  [restOfDuration] handed to [waitResponse] is not read. *)
Theorem clock_not_consulted_after_budget (time : history -> Z)
    (p : IISRHandlerParam) (h : history) :
  time (h ++ [DateNow]) = Date_now W (h ++ [DateNow]) ->
  time (h ++ [DateNow; DateNow]) = Date_now W (h ++ [DateNow; DateNow]) ->
  time (h ++ [DateNow; DateNow; DateNow])
    = Date_now W (h ++ [DateNow; DateNow; DateNow]) ->
  ISRHandler pe cfg (with_clock W time) p h = ISRHandler pe cfg W p h.
Proof.
  intros T1 T2 T3.
  assert (Hbudget :
            budgetBlock pe (with_clock W time) (isFirstRequest p) (url p) h
            = budgetBlock pe W (isFirstRequest p) (url p) h).
  { rewrite !budgetBlock_eq, !budget_at_entry_eq, !budget_reread_eq.
    unfold elapsed_at_entry, elapsed_at_reread, entry_time, with_clock.
    cbn [Date_now cache_achieve]. rewrite T1, T2, T3. reflexivity. }
  rewrite !ISRHandler_eq, Hbudget.
  destruct (budgetBlock pe W (isFirstRequest p) (url p) h)
    as [[[sg rest]|r|e|] h0] eqn:Hb; try reflexivity.
  destruct (budgetBlock_Normal _ _ _ _ _ _ _ _ Hb) as (_ & Hs & _).
  cbn [fst snd]. unfold async_fn, bind.
  change (acquire pe cfg (with_clock W time)) with (acquire pe cfg W).
  destruct (acquire pe cfg W (isFirstRequest p) (url p) sg rest h0)
    as [[[st doc]|r|e|] h2]; try reflexivity.
  cbn [fst snd]. rewrite !storeBlock_eq by exact Hs. reflexivity.
Qed.

End Requests.

Section FirstOrLater.
Variable pe : ProcessEnv.
Variable cfg : ServerConfig.
Variable W : World.

(** The render block of a first and of a later request. *)
Lemma renderBlock_first_or_later url rest st html h :
  renderBlock pe cfg W true url rest st html h
  = renderBlock pe cfg W false url rest st html h
  \/ (renderBlock pe cfg W true url rest st html h
      = (Return None, h ++ [NewPage])
      /\ renderBlock pe cfg W false url rest st html h
         = (Return (cache_achieve W (h ++ [NewPage; CacheAchieve url])),
            h ++ [NewPage; CacheAchieve url])).
Proof.
  unfold renderBlock.
  destruct (negb (truthy (crawler cfg)) || (st =? 500));
    [|left; reflexivity].
  run. destruct (newPage W (h ++ [NewPage])) as [[|]|e|];
    cbn [negb]; cbv beta iota; try (left; reflexivity).
  right. rewrite <- ?app_assoc. cbn [app]. split; reflexivity.
Qed.

(** Property X24. The flag [isFirstRequest] changes a run of
  [ISRHandler] at two places only. A first and a later request for
  the same address run alike, result and history, except where the
  first one resolves to nothing because the budget is used up at its
  second reading or because no page is handed out: there the later
  one asks [cacheManager.achieve(url)] as one more call and resolves
  to its answer. *)
Theorem first_request_flag_only_for_stale_serve (p : IISRHandlerParam)
    (h : history) :
  let first := mkParam (startGenerating p) true (url p) in
  let later := mkParam (startGenerating p) false (url p) in
  ISRHandler pe cfg W first h = ISRHandler pe cfg W later h
  \/ exists pre,
       ISRHandler pe cfg W first h = (Fulfilled None, pre)
       /\ ISRHandler pe cfg W later h
          = (Fulfilled (cache_achieve W (pre ++ [CacheAchieve (url p)])),
             pre ++ [CacheAchieve (url p)]).
Proof.
  cbv zeta. rewrite !ISRHandler_eq, !budgetBlock_eq.
  cbn [isFirstRequest url].
  destruct (entry_time W h =? 0); [left; reflexivity|].
  destruct (budget_at_entry pe W h <=? 0); [left; reflexivity|].
  destruct (budget_reread pe W h <=? 0).
  - right. exists (h ++ [DateNow; DateNow; DateNow]). cbn [negb].
    rewrite <- app_assoc. cbn [app]. split; reflexivity.
  - cbn [fst snd]. unfold async_fn, bind. rewrite !acquire_eq.
    destruct (crawlBlock cfg W (url p) (entry_time W h) 200 (VText [])
                (h ++ [DateNow; DateNow; DateNow]))
      as [[[st html]|r|e|] h1]; try (left; reflexivity).
    cbn [fst snd].
    destruct (renderBlock_first_or_later (url p) (budget_reread pe W h)
                st html h1) as [->|[-> ->]]; [left; reflexivity|].
    right. exists (h1 ++ [NewPage]). rewrite <- app_assoc. cbn [app].
    split; reflexivity.
Qed.

End FirstOrLater.

(** ** Scenarios of the further properties *)

(** A call at the empty history, with the clock at 1000: it passes the
    budget block with 18500 ms left, and without an endpoint it is sent
    to the browser. *)
Ltac entered :=
  exists 1000, budget_read; split; [reflexivity|split; reflexivity].

(** The three awaited calls of the set-up succeed. *)
Ltac set_up :=
  split; [reflexivity|]; split; [reflexivity|]; split; reflexivity.

(** A later request, no endpoint, no page: the cached page is served. *)
Lemma stale_serve_without_page_witness :
  isFirstRequest later_request = false
  /\ enters_browser plain_env no_crawler idle_world later_request []
       18500 200 (VText []) budget_read
  /\ newPage idle_world (budget_read ++ [NewPage]) = Fulfilled false
  /\ ISRHandler plain_env no_crawler idle_world later_request []
     = (Fulfilled (Some cached_page),
        budget_read ++ [NewPage; CacheAchieve product_url]).
Proof.
  assert (H0 : isFirstRequest later_request = false) by reflexivity.
  assert (He : enters_browser plain_env no_crawler idle_world later_request
                 [] 18500 200 (VText []) budget_read)
    by entered.
  assert (Hp : newPage idle_world (budget_read ++ [NewPage])
               = Fulfilled false) by reflexivity.
  split; [exact H0|]. split; [exact He|]. split; [exact Hp|].
  exact (proj1 (stale_serve_without_page plain_env no_crawler idle_world
                  later_request [] 18500 200 (VText []) budget_read
                  H0 He Hp)).
Defined.

(** The wait for an idle network rejects: the page is closed and the
    answer is 500. *)
Lemma setup_failure_answers_500_witness :
  let done := [NewPage; OnPage (WaitForNetworkIdle 150)] in
  enters_browser plain_env no_crawler broken_setup_world first_request []
    18500 200 (VText []) budget_read
  /\ newPage broken_setup_world (budget_read ++ [NewPage]) = Fulfilled true
  /\ setup_fails broken_setup_world product_url budget_read done boom
  /\ ISRHandler plain_env no_crawler broken_setup_world first_request []
     = (Fulfilled (Some (mkResult 500 None)),
        budget_read ++ done ++ [OnPage Close]).
Proof.
  intros done.
  assert (He : enters_browser plain_env no_crawler broken_setup_world
                 first_request [] 18500 200 (VText []) budget_read)
    by entered.
  assert (Hp : newPage broken_setup_world (budget_read ++ [NewPage])
               = Fulfilled true) by reflexivity.
  assert (Hf : setup_fails broken_setup_world product_url budget_read done
                 boom) by (left; split; reflexivity).
  split; [exact He|]. split; [exact Hp|]. split; [exact Hf|].
  exact (proj1 (setup_failure_answers_500 plain_env no_crawler
                  broken_setup_world first_request [] 18500 200 (VText [])
                  budget_read done boom He Hp Hf)).
Defined.

(** The navigation rejects with an error that is no timeout. *)
Lemma navigation_error_is_fatal_witness :
  enters_browser plain_env no_crawler broken_navigation_world first_request
    [] 18500 200 (VText []) budget_read
  /\ setup_succeeds broken_navigation_world product_url budget_read
  /\ page_rejects broken_navigation_world navigated_product = Some boom
  /\ err_name boom <> js "TimeoutError"
  /\ ISRHandler plain_env no_crawler broken_navigation_world first_request []
     = (Fulfilled (Some (mkResult 500 None)), navigated_product ++ [OnPage Close]).
Proof.
  assert (He : enters_browser plain_env no_crawler broken_navigation_world
                 first_request [] 18500 200 (VText []) budget_read)
    by entered.
  assert (Hs : setup_succeeds broken_navigation_world product_url
                 budget_read)
    by set_up.
  assert (Hn : page_rejects broken_navigation_world navigated_product = Some boom)
    by reflexivity.
  assert (Hd : err_name boom <> js "TimeoutError")
    by (intros H; vm_compute in H; discriminate H).
  split; [exact He|]. split; [exact Hs|]. split; [exact Hn|].
  split; [exact Hd|].
  exact (proj1 (navigation_error_is_fatal plain_env no_crawler
                  broken_navigation_world first_request [] 18500 200
                  (VText []) budget_read boom He Hs Hn Hd)).
Defined.

(** The navigation times out: the document is read all the same. *)
Lemma navigation_timeout_is_swallowed_witness :
  plain_source (NOT_FOUND_PAGE_ID plain_env) = true
  /\ enters_browser plain_env no_crawler slow_navigation_world first_request
    [] 18500 200 (VText []) budget_read
  /\ setup_succeeds slow_navigation_world product_url budget_read
  /\ page_rejects slow_navigation_world navigated_product = Some timeout
  /\ err_name timeout = js "TimeoutError"
  /\ ISRHandler plain_env no_crawler slow_navigation_world first_request []
     = (Fulfilled (Some written_page),
        navigated_product
          ++ [OnPage Content; OnPage Close; DateNow; PoolCreate 2 7;
              PoolExec (VText (js "<html>ok</html>")) true; PoolTerminate;
              CacheSet (VText (js "<html>lean</html>")) product_url true]).
Proof.
  assert (He : enters_browser plain_env no_crawler slow_navigation_world
                 first_request [] 18500 200 (VText []) budget_read)
    by entered.
  assert (Hs : setup_succeeds slow_navigation_world product_url budget_read)
    by set_up.
  assert (Hn : page_rejects slow_navigation_world navigated_product = Some timeout)
    by reflexivity.
  assert (Hd : err_name timeout = js "TimeoutError") by reflexivity.
  assert (Hi : plain_source (NOT_FOUND_PAGE_ID plain_env) = true)
    by reflexivity.
  split; [exact Hi|].
  split; [exact He|]. split; [exact Hs|]. split; [exact Hn|].
  split; [exact Hd|].
  exact (eq_trans
           (navigation_timeout_is_swallowed plain_env no_crawler
              slow_navigation_world first_request [] 18500 200 (VText [])
              budget_read timeout Hi He Hs Hn Hd eq_refl eq_refl)
           eq_refl).
Defined.

(** Closing the page after a failed set-up rejects: so does the
    handler. *)
Lemma rejects_only_with_the_page_witness :
  fst (ISRHandler plain_env no_crawler broken_close_world first_request [])
    = Rejected boom
  /\ exists pre ev,
       snd (ISRHandler plain_env no_crawler broken_close_world
              first_request []) = pre ++ [ev]
       /\ ((ev = NewPage
            /\ newPage broken_close_world
                 (snd (ISRHandler plain_env no_crawler broken_close_world
                         first_request [])) = Rejected boom)
           \/ (ev = OnPage Close
               /\ page_rejects broken_close_world
                    (snd (ISRHandler plain_env no_crawler broken_close_world
                            first_request [])) = Some boom)).
Proof.
  assert (Hr : fst (ISRHandler plain_env no_crawler broken_close_world
                      first_request []) = Rejected boom)
    by (vm_compute; reflexivity).
  split; [exact Hr|].
  exact (rejects_only_with_the_page plain_env no_crawler broken_close_world
           first_request [] boom Hr).
Defined.

(** An endpoint that never answers. *)
Lemma unsettled_only_behind_a_hanging_call_witness :
  fst (ISRHandler plain_env with_crawler idle_world first_request [])
    = Unsettled
  /\ exists pre ev,
       snd (ISRHandler plain_env with_crawler idle_world first_request [])
         = pre ++ [ev]
       /\ hanging_call idle_world
            (snd (ISRHandler plain_env with_crawler idle_world
                    first_request [])) ev.
Proof.
  assert (Hu : fst (ISRHandler plain_env with_crawler idle_world
                      first_request []) = Unsettled)
    by (vm_compute; reflexivity).
  split; [exact Hu|].
  exact (unsettled_only_behind_a_hanging_call plain_env with_crawler
           idle_world first_request [] Hu).
Defined.

(** A page whose document cannot be read stays open. *)
Lemma page_closed_unless_content_fails_witness :
  enters_browser plain_env no_crawler unreadable_world first_request []
    18500 200 (VText []) budget_read
  /\ newPage unreadable_world (budget_read ++ [NewPage]) = Fulfilled true
  /\ exists evs,
       snd (ISRHandler plain_env no_crawler unreadable_world first_request [])
         = budget_read ++ NewPage :: evs
       /\ (count is_close evs <= 1)%nat
       /\ (count is_close evs = 0%nat ->
           (exists pre,
              snd (ISRHandler plain_env no_crawler unreadable_world
                     first_request []) = pre ++ [OnPage Content])
           /\ page_rejects unreadable_world
                (snd (ISRHandler plain_env no_crawler unreadable_world
                        first_request [])) <> None
           /\ (fst (ISRHandler plain_env no_crawler unreadable_world
                      first_request []) = Fulfilled None
               \/ fst (ISRHandler plain_env no_crawler unreadable_world
                         first_request []) = Unsettled)).
Proof.
  assert (He : enters_browser plain_env no_crawler unreadable_world
                 first_request [] 18500 200 (VText []) budget_read)
    by entered.
  assert (Hp : newPage unreadable_world (budget_read ++ [NewPage])
               = Fulfilled true) by reflexivity.
  split; [exact He|]. split; [exact Hp|].
  exact (page_closed_unless_content_fails plain_env no_crawler
           unreadable_world first_request [] 18500 200 (VText [])
           budget_read He Hp).
Defined.

(** An ordinary document is optimized and written. *)
Lemma browser_result_follows_the_document_witness :
  plain_source (NOT_FOUND_PAGE_ID plain_env) = true
  /\ enters_browser plain_env no_crawler rendering_world first_request []
    18500 200 (VText []) budget_read
  /\ newPage rendering_world (budget_read ++ [NewPage]) = Fulfilled true
  /\ fst (ISRHandler plain_env no_crawler rendering_world first_request [])
     = Fulfilled (Some written_page)
  /\ (written_page = mkResult 500 None
      \/ exists hc tail,
           snd (ISRHandler plain_env no_crawler rendering_world
                  first_request [])
             = hc ++ [OnPage Content; OnPage Close] ++ tail
           /\ let content :=
                page_content rendering_world (hc ++ [OnPage Content]) in
              if truthy_string content
                 && test (regexNotFoundPageID plain_env) content
              then written_page
                   = mkResult 404 (Some (VText (js "Page not found!")))
                   /\ tail = [DateNow; CacheRemove (url first_request)]
              else written_page
                   = cache_set rendering_world
                       (snd (ISRHandler plain_env no_crawler rendering_world
                               first_request []))
                   /\ exists lean,
                        tail = [DateNow; PoolCreate 2 (MAX_WORKERS plain_env);
                                PoolExec (VText content) true; PoolTerminate;
                                CacheSet (VText lean) (url first_request)
                                  true]).
Proof.
  assert (He : enters_browser plain_env no_crawler rendering_world
                 first_request [] 18500 200 (VText []) budget_read)
    by entered.
  assert (Hp : newPage rendering_world (budget_read ++ [NewPage])
               = Fulfilled true) by reflexivity.
  assert (Hr : fst (ISRHandler plain_env no_crawler rendering_world
                      first_request []) = Fulfilled (Some written_page))
    by (vm_compute; reflexivity).
  assert (Hi : plain_source (NOT_FOUND_PAGE_ID plain_env) = true)
    by reflexivity.
  split; [exact Hi|].
  split; [exact He|]. split; [exact Hp|]. split; [exact Hr|].
  exact (browser_result_follows_the_document plain_env no_crawler
           rendering_world first_request [] 18500 200 (VText [])
           budget_read written_page Hi He Hp Hr).
Defined.

(** A budget of 1500 ms, all of it reserved. *)
Lemma timeout_within_gap_serves_nothing_witness :
  DURATION_TIMEOUT tight_env <= gapDurationDefault
  /\ Date_now idle_world ([] ++ [DateNow])
     <= Date_now idle_world ([] ++ [DateNow; DateNow])
  /\ exists evs,
       ISRHandler tight_env with_crawler idle_world first_request []
         = (Fulfilled None, [] ++ evs)
       /\ forallb is_date_now evs = true.
Proof.
  assert (Hd : DURATION_TIMEOUT tight_env <= gapDurationDefault)
    by (vm_compute; discriminate).
  assert (Hc : Date_now idle_world ([] ++ [DateNow])
               <= Date_now idle_world ([] ++ [DateNow; DateNow]))
    by (vm_compute; discriminate).
  split; [exact Hd|]. split; [exact Hc|].
  exact (timeout_within_gap_serves_nothing tight_env with_crawler idle_world
           first_request [] Hd Hc).
Defined.

(** The address of a product without its query. *)
Lemma split_head_before_separator_witness :
  ~ In 63%N (js "/product/42")
  /\ split_head 63 (js "/product/42" ++ 63%N :: js "x=1?y=2")
     = js "/product/42"
  /\ split_head 63 (js "/product/42") = js "/product/42".
Proof.
  assert (Hn : ~ In 63%N (js "/product/42"))
    by (vm_compute; intuition discriminate).
  split; [exact Hn|].
  exact (split_head_before_separator 63 (js "/product/42") (js "x=1?y=2")
           Hn).
Defined.

(** The four values of [tagged_url]. *)
Lemma specialInfo_roundtrip_witness :
  ~ In 61%N (js "/p?")
  /\ amp_free (js "bot") = true /\ amp_free (js "mobile") = true
  /\ amp_free (js "vi") = true /\ amp_free (js "dev") = true
  /\ (js "&x=1" = [] \/ exists t, js "&x=1" = 38%N :: t)
  /\ specialInfo tagged_url
     = special_groups (js "bot") (js "mobile") (js "vi") (js "dev").
Proof.
  assert (Hn : ~ In 61%N (js "/p?")) by (vm_compute; intuition discriminate).
  assert (Hp : js "&x=1" = [] \/ exists t, js "&x=1" = 38%N :: t)
    by (right; eexists; reflexivity).
  split; [exact Hn|]. do 4 (split; [reflexivity|]). split; [exact Hp|].
  exact (specialInfo_roundtrip (js "/p?") (js "bot") (js "mobile") (js "vi")
           (js "dev") (js "&x=1") Hn eq_refl eq_refl eq_refl eq_refl Hp).
Defined.

(** A route listed without [enable]: the cookie [lang] of an earlier
    visit stays. *)
Lemma locale_off_keeps_lang_and_country_witness :
  let after :=
    <[js "localeInfo" := CLocaleInfo (detect_vi admin_request)]>
      {[ js "lang" := CText (Some (js "fr")) ]} in
  cookies (DetectLocaleMiddle admin_off_locale detect_vi visited_response
             admin_request) = Some after
  /\ enableLocale admin_off_locale admin_request = false
  /\ after !! js "lang" = Some (CText (Some (js "fr")))
  /\ after !! js "country" = None.
Proof.
  intros after.
  assert (Hc : cookies (DetectLocaleMiddle admin_off_locale detect_vi
                          visited_response admin_request) = Some after)
    by (vm_compute; reflexivity).
  assert (Ho : enableLocale admin_off_locale admin_request = false)
    by (vm_compute; reflexivity).
  split; [exact Hc|]. split; [exact Ho|].
  split.
  - exact (eq_trans
             (proj1 (locale_off_keeps_lang_and_country admin_off_locale
                       detect_vi visited_response admin_request after Hc)
                Ho)
             eq_refl).
  - exact (eq_trans
             (proj2 (locale_off_keeps_lang_and_country admin_off_locale
                       detect_vi visited_response admin_request after Hc)
                (or_introl Ho))
             eq_refl).
Defined.

(** The detected language wins over the default one and over the
    cookie of an earlier visit; without a detected country the default
    one is taken. *)
Lemma locale_on_sets_lang_witness :
  let after :=
    <[js "country" := CText (Some (js "us"))]>
      (<[js "lang" := CText (Some (js "vi"))]>
         (<[js "localeInfo" := CLocaleInfo (detect_vi home_request)]>
            {[ js "lang" := CText (Some (js "fr")) ]})) in
  cookies (DetectLocaleMiddle shop_locale detect_vi visited_response
             home_request) = Some after
  /\ enableLocale shop_locale home_request = true
  /\ after !! js "lang" = Some (CText (Some (js "vi")))
  /\ after !! js "country" = Some (CText (Some (js "us"))).
Proof.
  intros after.
  assert (Hc : cookies (DetectLocaleMiddle shop_locale detect_vi
                          visited_response home_request) = Some after)
    by (vm_compute; reflexivity).
  assert (Ho : enableLocale shop_locale home_request = true)
    by (vm_compute; reflexivity).
  split; [exact Hc|]. split; [exact Ho|].
  split.
  - exact (proj1 (locale_on_sets_lang shop_locale detect_vi visited_response
                    home_request after Hc Ho)
             (mkLocaleInfo (Some (js "vi")) None) (js "vi") eq_refl eq_refl).
  - exact (proj2 (proj2 (proj2 (locale_on_sets_lang shop_locale detect_vi
                                  visited_response home_request after Hc Ho))
                    eq_refl)
             (or_intror (ex_intro _ (mkLocaleInfo (Some (js "vi")) None)
                           (conj eq_refl eq_refl)))).
Defined.

(** The request sent to the endpoint of [with_crawler]. *)
Lemma crawl_request_parameters_witness :
  budgetBlock plain_env failing_crawler_world (isFirstRequest later_request)
    (url later_request) [] = (Normal (1000, 18500), budget_read)
  /\ truthy (crawler with_crawler) = true
  /\ exists query tail,
       snd (ISRHandler plain_env with_crawler failing_crawler_world
              later_request [])
       = budget_read
           ++ Fetch (default [] (crawler with_crawler)) (Some query)
                crawlInit :: tail
       /\ query !! 0%nat
          = Some (js "startGenerating",
                  QNumber (entry_time failing_crawler_world []))
       /\ query !! 1%nat = Some (js "isFirstRequest", QBool true)
       /\ query !! 2%nat = Some (js "url", QString (url later_request))
       /\ (forall key,
             In (js "crawlerSecretKey", key) query <->
             (truthy (crawlerSecretKey with_crawler) = true
              /\ key = QString (default [] (crawlerSecretKey with_crawler)))).
Proof.
  assert (Hb : budgetBlock plain_env failing_crawler_world
                 (isFirstRequest later_request) (url later_request) []
               = (Normal (1000, 18500), budget_read)) by reflexivity.
  assert (Ht : truthy (crawler with_crawler) = true) by reflexivity.
  split; [exact Hb|]. split; [exact Ht|].
  exact (crawl_request_parameters plain_env with_crawler
           failing_crawler_world later_request [] 1000 18500 budget_read
           Hb Ht).
Defined.

(** A clock that jumps by a day after the budget block. *)
Lemma clock_not_consulted_after_budget_witness :
  let time := clock 3 1000 86401000 in
  time ([] ++ [DateNow]) = Date_now rendering_world ([] ++ [DateNow])
  /\ time ([] ++ [DateNow; DateNow])
     = Date_now rendering_world ([] ++ [DateNow; DateNow])
  /\ time ([] ++ [DateNow; DateNow; DateNow])
     = Date_now rendering_world ([] ++ [DateNow; DateNow; DateNow])
  /\ time ([] ++ [DateNow; DateNow; DateNow; DateNow]) = 86401000
  /\ ISRHandler plain_env no_crawler (with_clock rendering_world time)
       first_request []
     = ISRHandler plain_env no_crawler rendering_world first_request [].
Proof.
  intros time.
  assert (H1 : time ([] ++ [DateNow])
               = Date_now rendering_world ([] ++ [DateNow])) by reflexivity.
  assert (H2 : time ([] ++ [DateNow; DateNow])
               = Date_now rendering_world ([] ++ [DateNow; DateNow]))
    by reflexivity.
  assert (H3 : time ([] ++ [DateNow; DateNow; DateNow])
               = Date_now rendering_world ([] ++ [DateNow; DateNow; DateNow]))
    by reflexivity.
  split; [exact H1|]. split; [exact H2|]. split; [exact H3|].
  split; [reflexivity|].
  exact (clock_not_consulted_after_budget plain_env no_crawler
           rendering_world time first_request [] H1 H2 H3).
Defined.

(** A render that settles: the pool it made is terminated. *)
Lemma pool_terminated_when_settled_witness :
  fst (ISRHandler plain_env no_crawler rendering_world first_request [])
    <> Unsettled
  /\ exists evs,
       snd (ISRHandler plain_env no_crawler rendering_world first_request [])
         = [] ++ evs
       /\ count is_pool_terminate evs = count is_pool_create evs.
Proof.
  assert (Hn : fst (ISRHandler plain_env no_crawler rendering_world
                      first_request []) <> Unsettled)
    by (vm_compute; discriminate).
  split; [exact Hn|].
  destruct (pool_terminated_when_settled plain_env no_crawler
              rendering_world first_request [])
    as (evs & Hsnd & _ & _ & Hsettled).
  exists evs. split; [exact Hsnd|exact (Hsettled Hn)].
Defined.

(** No endpoint configured: nothing of a crawl in the history. *)
Lemma crawl_only_when_configured_witness :
  truthy (crawler no_crawler) = false
  /\ exists evs,
       snd (ISRHandler plain_env no_crawler rendering_world first_request [])
         = [] ++ evs
       /\ count is_crawl_event evs = 0%nat.
Proof.
  assert (Ht : truthy (crawler no_crawler) = false) by reflexivity.
  split; [exact Ht|].
  destruct (crawl_only_when_configured plain_env no_crawler rendering_world
              first_request [])
    as (evs & Hsnd & _ & Hnone).
  exists evs. split; [exact Hsnd|exact (Hnone Ht)].
Defined.

(** A navigation that succeeds, on a page without the marker. *)
Lemma waitResponse_outcome_witness :
  let r := waitResponse plain_env rendering_world product_url 18500 [] in
  plain_source (NOT_FOUND_PAGE_ID plain_env) = true
  /\ fst r = Fulfilled (Some 200)
  /\ Some 200 = goto_response rendering_world ([] ++ [navigation product_url])
  /\ snd r
     = [navigation product_url; Delay 500; OnPage Content;
        AwaitQuietNetwork 500].
Proof.
  intros r.
  assert (Hf : fst r = Fulfilled (Some 200)) by reflexivity.
  assert (Hi : plain_source (NOT_FOUND_PAGE_ID plain_env) = true)
    by reflexivity.
  split; [exact Hi|]. split; [exact Hf|].
  destruct (proj2 (proj2 (waitResponse_outcome plain_env rendering_world
                            product_url 18500 [] Hi))
              (Some 200) Hf) as (Hres & Hsnd).
  split; [exact Hres|exact (eq_trans Hsnd eq_refl)].
Defined.

(** A cookie of another name is left as it was. *)
Lemma locale_middleware_frame_witness :
  js "theme" <> js "localeInfo" /\ js "theme" <> js "lang"
  /\ js "theme" <> js "country"
  /\ exists after,
       cookies (DetectLocaleMiddle shop_locale detect_vi visited_response
                  home_request) = Some after
       /\ after !! js "localeInfo"
          = Some (CLocaleInfo (detect_vi home_request))
       /\ after !! js "theme"
          = default ∅ (cookies visited_response) !! js "theme".
Proof.
  assert (N1 : js "theme" <> js "localeInfo")
    by (intros H; vm_compute in H; discriminate H).
  assert (N2 : js "theme" <> js "lang")
    by (intros H; vm_compute in H; discriminate H).
  assert (N3 : js "theme" <> js "country")
    by (intros H; vm_compute in H; discriminate H).
  split; [exact N1|]. split; [exact N2|]. split; [exact N3|].
  destruct (locale_middleware_frame shop_locale detect_vi visited_response
              home_request)
    as (after & Hc & Hl & Hframe).
  exists after. split; [exact Hc|]. split; [exact Hl|].
  exact (Hframe (js "theme") N1 N2 N3).
Defined.
